(** * Ambiance: the device control plane of [code.py]

    A shallow embedding of the CircuitPython program [src/code.py] (the
    main module of the Ambiance LED controller) and the proofs of the
    properties its specification states about the control plane: the MQTT
    message handler, the broker retry logic, the status LED and the
    start-up sequence.

    Conventions of the embedding.
    - Module globals ([_mqtt], [_last_trigger], [NEO_LEN], ...) and the
      attributes of the device objects they name are the fields of one
      record, [World]; Python code becomes a computation [M A] that
      threads the world and may raise ([Raised]) or run its [while]
      loop out of fuel ([Diverged]).
    - The outside world is an oracle, [Env]: the settings file, the boot
      button, the outcome of each call into the WiFi and MQTT libraries
      and the time each of them takes.
    - [clock] is a ghost wall clock in milliseconds.  [time.sleep(s)]
      advances it by [1000 * s]; [time.time()] is the clock in whole
      seconds (an [int] on CircuitPython, the target platform).
    - [trace] is the ghost list of observable events, oldest first:
      printed lines, button polls and calls into the libraries and into
      the script executors. *)

From Stdlib Require Import ZArith String Ascii List Lia Floats Bool.
From stdpp Require Import gmap strings pretty.
Import ListNotations.

Open Scope string_scope.
Open Scope list_scope.
Open Scope Z_scope.

Set Warnings "-inexact-float".

Declare Scope prog_scope.

(** ** Python values *)

(** The exceptions the program can meet.  All of them derive from
    [Exception]; [ConnectionError] is the only one caught by class. *)
Inductive exn : Type :=
| ValueError (what : string)
| TypeError (what : string)
| AttributeError (what : string)
| UnboundLocalError (name : string)
| KeyError (key : string)
| RangeError (what : string)
| ConnectionError
| LibraryError (what : string).

Definition is_ConnectionError (e : exn) : bool :=
  match e with ConnectionError => true | _ => false end.

(** Python numbers: brightness values are written both as [int] literals
    ([1], [0]) and as [float] literals ([0.1], [0.75]). *)
Inductive pynum : Type :=
| PInt (n : Z)
| PFloat (f : float).

(** Conversion of a small integer, used only when an [int] is compared
    with a [float]. *)
Definition float_of_int (n : Z) : float :=
  if n <? 0 then PrimFloat.opp (PrimFloat.of_uint63 (Uint63.of_Z (- n)))
  else PrimFloat.of_uint63 (Uint63.of_Z n).

Definition to_float (v : pynum) : float :=
  match v with PInt n => float_of_int n | PFloat f => f end.

Definition py_le (a b : pynum) : bool :=
  match a, b with
  | PInt x, PInt y => x <=? y
  | _, _ => PrimFloat.leb (to_float a) (to_float b)
  end.

Definition py_ge (a b : pynum) : bool := py_le b a.

(** Numeric equality, [a == b] in Python. *)
Definition py_eq (a b : pynum) : bool :=
  match a, b with
  | PInt x, PInt y => x =? y
  | _, _ => PrimFloat.eqb (to_float a) (to_float b)
  end.

(** An RGB triple. *)
Definition color : Type := Z * Z * Z.

Definition COL_OFF : color := (0, 0, 0).
Definition COL_RED : color := (255, 0, 0).
Definition COL_GREEN : color := (0, 255, 0).
Definition COL_BLUE : color := (0, 0, 255).
Definition COL_PURPLE : color := (255, 0, 255).
Definition COL_ORANGE : color := (255, 40, 0).
Definition COL_YELLOW : color := (255, 112, 0).

Definition CODE_OK : string := "ok".
Definition CODE_WIFI_FAILED : string := "wifi_failed".
Definition CODE_MQTT_FAILED : string := "mqtt_failed".
Definition CODE_MQTT_RETRY : string := "mqtt_retry".

Definition COL_LED_ERROR : gmap string color :=
  list_to_map
    [ (CODE_OK, COL_GREEN);
      (CODE_WIFI_FAILED, COL_PURPLE);
      (CODE_MQTT_FAILED, COL_BLUE);
      (CODE_MQTT_RETRY, COL_ORANGE) ].

Definition MQTT_TOPIC_SUBSCRIPTION : string := "/#".
Definition MQTT_TOPIC_LENGTH : string := "/length".
Definition MQTT_TOPIC_BRIGHTNESS : string := "/brightness".
Definition MQTT_TOPIC_SCRIPT_INIT : string := "/script/init".
Definition MQTT_TOPIC_SCRIPT_EVENT : string := "/script/event".
Definition MQTT_TOPIC_EVENT_TRIGGER : string := "/event/trigger".

(** [str.strip()]: leading and trailing ASCII whitespace removed. *)
Definition is_space (c : ascii) : bool :=
  let n := nat_of_ascii c in
  ((n =? 32) || ((9 <=? n) && (n <=? 13)))%nat.

Fixpoint lstrip (l : list ascii) : list ascii :=
  match l with
  | c :: l' => if is_space c then lstrip l' else l
  | [] => []
  end.

Definition py_strip (s : string) : string :=
  string_of_list_ascii
    (rev (lstrip (rev (lstrip (list_ascii_of_string s))))).

(** ** External collaborators *)

(** The builtins [int()] and [float()] applied to a [str]: [None] stands
    for [ValueError].  Their grammar is the interpreter's, not the
    program's; every result below holds for any such pair. *)
Class PyBuiltins : Type := {
  py_int : string -> option Z;
  py_float : string -> option float
}.

(** Modelled from the spec: the classes [InitScriptExec] and
    [EventScriptExec] of the module [script_exec], which is not part of
    the sources.  [newScript] parses the text and either swaps the new
    script in or raises, leaving the executor as it was ([load] of
    section 4.4); [trigger] restarts the current script from its
    beginning; [loop] is one non-blocking tick, with the wall-clock time
    it took in milliseconds; [loadFromNVM] restores the persisted
    script.  The executors are handed [blink] as a callback; whether
    and when they call it is theirs and is left out. *)
Class ScriptRuntime : Type := {
  ScriptExec : Type;
  InitScriptExec : ScriptExec;
  EventScriptExec : ScriptExec;
  newScript : string -> ScriptExec -> ScriptExec + exn;
  trigger : ScriptExec -> ScriptExec;
  script_loop : ScriptExec -> ScriptExec * N;
  loadFromNVM : ScriptExec -> ScriptExec
}.

(** What the program observes of its environment.  The [nat] argument
    of an oracle is the number of environment interactions made so far
    ([io] below). *)
Record Env : Type := {
  (** [settings.toml], read through [os.getenv] *)
  settings : gmap string string;
  (** the pin names [getattr(board, name)] resolves *)
  board_pins : gset string;
  (** [_boot_btn.value]: [true] while the button is released (pull-up) *)
  boot_btn : nat -> bool;
  (** [wifi.radio.connect]: [None] when it returns *)
  radio_connect : option exn;
  (** [_mqtt.connect()]: [true] when the session is established *)
  broker_connect : nat -> bool;
  (** [_mqtt.loop()]: the messages it hands to [on_message], and whether
      it raises afterwards *)
  broker_loop : nat -> list (string * string) * bool;
  (** [_mqtt.reconnect()] *)
  broker_reconnect : nat -> bool;
  (** milliseconds spent inside a library call *)
  latency : nat -> N;
  (** wall clock at power-up, in milliseconds *)
  boot_clock : N
}.

(** Observable events. *)
Inductive event : Type :=
| EvPrint (line : string)
| EvPoll (released : bool)
| EvWifiConnect (at_ms : Z)
| EvMqttConnect (at_ms : Z)
| EvMqttReconnect (at_ms : Z)
| EvMqttLoop (at_ms : Z)
| EvSubscribe (topic : string)
| EvNewScript (which : string) (text : string)
| EvTrigger.

(** ** The world *)

(** [_mqtt] is [None], the string ["retry"], or the client object. *)
Inductive MqttHandle : Type :=
| MqttNone
| MqttRetry
| MqttClient.

(** A [neopixel.NeoPixel] object: the colour last written with [fill]
    and its [brightness] attribute. *)
Record NeoPixel : Type := mkNeoPixel {
  filled : color;
  brightness : pynum
}.

(** The [sequencer.NeoWrapper] around the effect strip.  [is_onboard]
    tells the subclass [OnboardNeoWrapper], whose target is [_led]
    itself, from the base class.  The pixel data is left to the
    sequencer, which is not part of the sources. *)
Record NeoWrapper : Type := mkNeoWrapper {
  is_onboard : bool;
  len : Z;
  max_len : Z;
  val_brightness : pynum
}.

Section Program.

Context {builtins : PyBuiltins} {runtime : ScriptRuntime}.

Record World : Type := mkWorld {
  NEO_LEN : Z;
  NEO_STRIP_PIN : string;
  NEO_DONT_BLINK : bool;
  MQTT_TOPIC_ROOT : string;
  _led : NeoPixel;
  (** the strip object [_neo] names when the pin is not ["ONBOARD"];
      with ["ONBOARD"], [_neo] is [_led] *)
  strip : NeoPixel;
  _neo_wrapper : NeoWrapper;
  _init_script : ScriptExec;
  _event_script : ScriptExec;
  _mqtt : MqttHandle;
  _last_trigger : option string;
  _mqtt_retry_ts : Z;
  _last_blink_ts : Z;
  _next_blink : Z;
  (** ghost state *)
  clock : Z;
  io : nat;
  trace : list event
}.

Definition set_NEO_LEN (v : Z) (w : World) : World :=
  mkWorld v (NEO_STRIP_PIN w) (NEO_DONT_BLINK w) (MQTT_TOPIC_ROOT w) (_led w)
    (strip w) (_neo_wrapper w) (_init_script w) (_event_script w) (_mqtt w)
    (_last_trigger w) (_mqtt_retry_ts w) (_last_blink_ts w) (_next_blink w)
    (clock w) (io w) (trace w).

Definition set_NEO_STRIP_PIN (v : string) (w : World) : World :=
  mkWorld (NEO_LEN w) v (NEO_DONT_BLINK w) (MQTT_TOPIC_ROOT w) (_led w)
    (strip w) (_neo_wrapper w) (_init_script w) (_event_script w) (_mqtt w)
    (_last_trigger w) (_mqtt_retry_ts w) (_last_blink_ts w) (_next_blink w)
    (clock w) (io w) (trace w).

Definition set_NEO_DONT_BLINK (v : bool) (w : World) : World :=
  mkWorld (NEO_LEN w) (NEO_STRIP_PIN w) v (MQTT_TOPIC_ROOT w) (_led w)
    (strip w) (_neo_wrapper w) (_init_script w) (_event_script w) (_mqtt w)
    (_last_trigger w) (_mqtt_retry_ts w) (_last_blink_ts w) (_next_blink w)
    (clock w) (io w) (trace w).

Definition set_MQTT_TOPIC_ROOT (v : string) (w : World) : World :=
  mkWorld (NEO_LEN w) (NEO_STRIP_PIN w) (NEO_DONT_BLINK w) v (_led w)
    (strip w) (_neo_wrapper w) (_init_script w) (_event_script w) (_mqtt w)
    (_last_trigger w) (_mqtt_retry_ts w) (_last_blink_ts w) (_next_blink w)
    (clock w) (io w) (trace w).

Definition set_led (v : NeoPixel) (w : World) : World :=
  mkWorld (NEO_LEN w) (NEO_STRIP_PIN w) (NEO_DONT_BLINK w) (MQTT_TOPIC_ROOT w) v
    (strip w) (_neo_wrapper w) (_init_script w) (_event_script w) (_mqtt w)
    (_last_trigger w) (_mqtt_retry_ts w) (_last_blink_ts w) (_next_blink w)
    (clock w) (io w) (trace w).

Definition set_strip (v : NeoPixel) (w : World) : World :=
  mkWorld (NEO_LEN w) (NEO_STRIP_PIN w) (NEO_DONT_BLINK w) (MQTT_TOPIC_ROOT w) (_led w)
    v (_neo_wrapper w) (_init_script w) (_event_script w) (_mqtt w)
    (_last_trigger w) (_mqtt_retry_ts w) (_last_blink_ts w) (_next_blink w)
    (clock w) (io w) (trace w).

Definition set_neo_wrapper (v : NeoWrapper) (w : World) : World :=
  mkWorld (NEO_LEN w) (NEO_STRIP_PIN w) (NEO_DONT_BLINK w) (MQTT_TOPIC_ROOT w) (_led w)
    (strip w) v (_init_script w) (_event_script w) (_mqtt w)
    (_last_trigger w) (_mqtt_retry_ts w) (_last_blink_ts w) (_next_blink w)
    (clock w) (io w) (trace w).

Definition set_init_script (v : ScriptExec) (w : World) : World :=
  mkWorld (NEO_LEN w) (NEO_STRIP_PIN w) (NEO_DONT_BLINK w) (MQTT_TOPIC_ROOT w) (_led w)
    (strip w) (_neo_wrapper w) v (_event_script w) (_mqtt w)
    (_last_trigger w) (_mqtt_retry_ts w) (_last_blink_ts w) (_next_blink w)
    (clock w) (io w) (trace w).

Definition set_event_script (v : ScriptExec) (w : World) : World :=
  mkWorld (NEO_LEN w) (NEO_STRIP_PIN w) (NEO_DONT_BLINK w) (MQTT_TOPIC_ROOT w) (_led w)
    (strip w) (_neo_wrapper w) (_init_script w) v (_mqtt w)
    (_last_trigger w) (_mqtt_retry_ts w) (_last_blink_ts w) (_next_blink w)
    (clock w) (io w) (trace w).

Definition set_mqtt (v : MqttHandle) (w : World) : World :=
  mkWorld (NEO_LEN w) (NEO_STRIP_PIN w) (NEO_DONT_BLINK w) (MQTT_TOPIC_ROOT w) (_led w)
    (strip w) (_neo_wrapper w) (_init_script w) (_event_script w) v
    (_last_trigger w) (_mqtt_retry_ts w) (_last_blink_ts w) (_next_blink w)
    (clock w) (io w) (trace w).

Definition set_last_trigger (v : option string) (w : World) : World :=
  mkWorld (NEO_LEN w) (NEO_STRIP_PIN w) (NEO_DONT_BLINK w) (MQTT_TOPIC_ROOT w) (_led w)
    (strip w) (_neo_wrapper w) (_init_script w) (_event_script w) (_mqtt w)
    v (_mqtt_retry_ts w) (_last_blink_ts w) (_next_blink w)
    (clock w) (io w) (trace w).

Definition set_mqtt_retry_ts (v : Z) (w : World) : World :=
  mkWorld (NEO_LEN w) (NEO_STRIP_PIN w) (NEO_DONT_BLINK w) (MQTT_TOPIC_ROOT w) (_led w)
    (strip w) (_neo_wrapper w) (_init_script w) (_event_script w) (_mqtt w)
    (_last_trigger w) v (_last_blink_ts w) (_next_blink w)
    (clock w) (io w) (trace w).

Definition set_last_blink_ts (v : Z) (w : World) : World :=
  mkWorld (NEO_LEN w) (NEO_STRIP_PIN w) (NEO_DONT_BLINK w) (MQTT_TOPIC_ROOT w) (_led w)
    (strip w) (_neo_wrapper w) (_init_script w) (_event_script w) (_mqtt w)
    (_last_trigger w) (_mqtt_retry_ts w) v (_next_blink w)
    (clock w) (io w) (trace w).

Definition set_next_blink (v : Z) (w : World) : World :=
  mkWorld (NEO_LEN w) (NEO_STRIP_PIN w) (NEO_DONT_BLINK w) (MQTT_TOPIC_ROOT w) (_led w)
    (strip w) (_neo_wrapper w) (_init_script w) (_event_script w) (_mqtt w)
    (_last_trigger w) (_mqtt_retry_ts w) (_last_blink_ts w) v
    (clock w) (io w) (trace w).

Definition set_clock (v : Z) (w : World) : World :=
  mkWorld (NEO_LEN w) (NEO_STRIP_PIN w) (NEO_DONT_BLINK w) (MQTT_TOPIC_ROOT w) (_led w)
    (strip w) (_neo_wrapper w) (_init_script w) (_event_script w) (_mqtt w)
    (_last_trigger w) (_mqtt_retry_ts w) (_last_blink_ts w) (_next_blink w)
    v (io w) (trace w).

Definition set_io (v : nat) (w : World) : World :=
  mkWorld (NEO_LEN w) (NEO_STRIP_PIN w) (NEO_DONT_BLINK w) (MQTT_TOPIC_ROOT w) (_led w)
    (strip w) (_neo_wrapper w) (_init_script w) (_event_script w) (_mqtt w)
    (_last_trigger w) (_mqtt_retry_ts w) (_last_blink_ts w) (_next_blink w)
    (clock w) v (trace w).

Definition set_trace (v : list event) (w : World) : World :=
  mkWorld (NEO_LEN w) (NEO_STRIP_PIN w) (NEO_DONT_BLINK w) (MQTT_TOPIC_ROOT w) (_led w)
    (strip w) (_neo_wrapper w) (_init_script w) (_event_script w) (_mqtt w)
    (_last_trigger w) (_mqtt_retry_ts w) (_last_blink_ts w) (_next_blink w)
    (clock w) (io w) v.

(** ** Computations *)

Inductive Res (A : Type) : Type :=
| Normal (a : A) (w : World)
| Raised (e : exn) (w : World)
| Diverged.

Arguments Normal {A} a w.
Arguments Raised {A} e w.
Arguments Diverged {A}.

Definition M (A : Type) : Type := World -> Res A.

Definition ret {A : Type} (a : A) : M A := fun w => Normal a w.

Definition bind {A B : Type} (m : M A) (k : A -> M B) : M B :=
  fun w =>
    match m w with
    | Normal a w' => k a w'
    | Raised e w' => Raised e w'
    | Diverged => Diverged
    end.

Definition raise {A : Type} (e : exn) : M A := fun w => Raised e w.

(** [try: m except <class> as e: h e]; [catches] selects the class. *)
Definition try_except {A : Type} (m : M A) (catches : exn -> bool)
  (h : exn -> M A) : M A :=
  fun w =>
    match m w with
    | Raised e w' => if catches e then h e w' else Raised e w'
    | r => r
    end.

(** [except Exception]: every exception of the model. *)
Definition Exception (e : exn) : bool := true.

Definition get {A : Type} (f : World -> A) : M A := fun w => Normal (f w) w.

Definition modify (f : World -> World) : M unit := fun w => Normal tt (f w).

Notation "x <- m ; k" := (bind m (fun x => k))
  (at level 20, m at level 100, k at level 200, only parsing) : prog_scope.
Notation "m ;; k" := (bind m (fun _ => k))
  (at level 100, k at level 200, only parsing, right associativity) : prog_scope.
Local Open Scope prog_scope.

Definition emit (e : event) : M unit :=
  modify (fun w => set_trace (trace w ++ [e]) w).

Definition print (line : string) : M unit := emit (EvPrint line).

(** Time passing: [ms] milliseconds on the ghost clock. *)
Definition elapse (ms : Z) : M unit :=
  modify (fun w => set_clock (clock w + ms) w).

(** [time.sleep(ms / 1000)]. *)
Definition time_sleep (ms : Z) : M unit := elapse ms.

(** [time.time()]: whole seconds. *)
Definition time_time : M Z := get (fun w => clock w / 1000).

(** [time.monotonic()], in milliseconds. *)
Definition time_monotonic : M Z := get clock.

(** ** Builtins and device objects *)

Variable env : Env.

(** The index of the next interaction with the environment. *)
Definition next_io : M nat :=
  fun w => Normal (io w) (set_io (S (io w)) w).

(** Time spent inside the library call number [k]. *)
Definition library_time (k : nat) : M unit := elapse (Z.of_N (latency env k)).

(** [os.getenv(key)]: [None] when the key is not in [settings.toml]. *)
Definition os_getenv (key : string) : option string := settings env !! key.

(** [int(x)] for [x] a [str] or [None]. *)
Definition int_ (x : option string) : M Z :=
  match x with
  | None => raise (TypeError "int() argument must be a string or a number")
  | Some s =>
      match py_int s with
      | Some n => ret n
      | None => raise (ValueError "invalid literal for int()")
      end
  end.

(** [float(s)]. *)
Definition float_ (s : string) : M float :=
  match py_float s with
  | Some f => ret f
  | None => raise (ValueError "could not convert string to float")
  end.

(** [x.strip()] for [x] a [str] or [None]. *)
Definition strip_ (x : option string) : M string :=
  match x with
  | None => raise (AttributeError "'NoneType' object has no attribute 'strip'")
  | Some s => ret (py_strip s)
  end.

(** Truth value of a [str] or [None]. *)
Definition truthy (x : option string) : bool :=
  match x with
  | None | Some "" => false
  | Some _ => true
  end.

Definition show_opt (x : option string) : string :=
  match x with None => "None" | Some s => s end.

Definition show_exn (e : exn) : string :=
  match e with
  | ValueError s => s
  | TypeError s => s
  | AttributeError s => s
  | UnboundLocalError n => "local variable referenced before assignment: " +:+ n
  | KeyError k => k
  | RangeError s => s
  | ConnectionError => "ConnectionError"
  | LibraryError s => s
  end.

(** [COL_LED_ERROR[error_code]]. *)
Definition col_led_error (error_code : string) : M color :=
  match COL_LED_ERROR !! error_code with
  | Some c => ret c
  | None => raise (KeyError error_code)
  end.

(** [_led.fill(c)] and [_led.brightness = v]. *)
Definition led_fill (c : color) : M unit :=
  modify (fun w => set_led (mkNeoPixel c (brightness (_led w))) w).

Definition led_brightness (v : pynum) : M unit :=
  modify (fun w => set_led (mkNeoPixel (filled (_led w)) v) w).

(** [_neo.fill(c)]: [_neo] is [_led] when the wrapper is the onboard one. *)
Definition neo_fill (c : color) : M unit :=
  modify (fun w =>
    if is_onboard (_neo_wrapper w) then set_led (mkNeoPixel c (brightness (_led w))) w
    else set_strip (mkNeoPixel c (brightness (strip w))) w).

(** [_neo_wrapper.len = n]. *)
Definition set_len (n : Z) : M unit :=
  modify (fun w =>
    let nw := _neo_wrapper w in
    set_neo_wrapper (mkNeoWrapper (is_onboard nw) n (max_len nw) (val_brightness nw)) w).

Definition set_val_brightness (v : pynum) : M unit :=
  modify (fun w =>
    let nw := _neo_wrapper w in
    set_neo_wrapper (mkNeoWrapper (is_onboard nw) (len nw) (max_len nw) v) w).

(** [OnboardNeoWrapper.brightness]; its [_target] is [_led]. *)
Definition OnboardNeoWrapper_brightness (value : pynum) : M unit :=
  set_val_brightness value;;
  led_brightness value.

(** Modelled from the spec: [brightness] of the base class
    [sequencer.NeoWrapper], which is not part of the sources
    ([set_brightness(v)] fails with [RangeError] if [v] is outside
    [[0,1]], else updates the brightness, section 4.1). *)
Definition NeoWrapper_brightness (value : pynum) : M unit :=
  if py_ge value (PInt 0) && py_le value (PInt 1) then
    set_val_brightness value;;
    modify (fun w => set_strip (mkNeoPixel (filled (strip w)) value) w)
  else raise (RangeError "brightness").

(** [_neo_wrapper.brightness(value)], by the class of the wrapper. *)
Definition neo_wrapper_brightness (value : pynum) : M unit :=
  nw <- get _neo_wrapper;
  if is_onboard nw then OnboardNeoWrapper_brightness value
  else NeoWrapper_brightness value.

(** [_boot_btn.value]. *)
Definition boot_btn_value : M bool :=
  k <- next_io;
  let b := boot_btn env k in
  emit (EvPoll b);;
  ret b.

(** ** The status LED *)

(** The [while] loop of [blink_error].  [fuel] bounds the number of
    times its condition is evaluated; [num_loop != 0] is tested first
    and the button is only polled when it holds. *)
Fixpoint blink_error_while (fuel : nat) (num_loop : Z) : M unit :=
  match fuel with
  | O => fun _ => Diverged
  | S fuel' =>
      if negb (num_loop =? 0) then
        released <- boot_btn_value;
        if released then
          led_brightness (PInt 0);;
          time_sleep 250;;
          led_brightness (PFloat 0.1);;
          time_sleep 1000;;
          blink_error_while fuel' (num_loop - 1)
        else ret tt
      else ret tt
  end.

(** [blink_error(error_code, num_loop)]; the default of [num_loop] is
    [-1]. *)
Definition blink_error (fuel : nat) (error_code : string) (num_loop : Z) : M unit :=
  c <- col_led_error error_code;
  led_fill c;;
  led_brightness (PFloat 0.1);;
  time_sleep 500;;
  blink_error_while fuel num_loop.

(** [blink()]. *)
Definition blink : M unit :=
  dont <- get NEO_DONT_BLINK;
  if dont then ret tt
  else
    next <- get _next_blink;
    led_brightness (if negb (next =? 0) then PFloat 0.1 else PInt 0);;
    now <- time_time;
    last <- get _last_blink_ts;
    if now - last >? 1 then
      modify (set_last_blink_ts now);;
      next <- get _next_blink;
      modify (set_next_blink (1 - next))
    else ret tt.

(** ** Start-up *)

(** [init()]. *)
Definition init : M unit :=
  print "@@ init";;
  try_except
    (neo_len <- int_ (os_getenv "NEO_LEN");
     if neo_len >? 0 then
       modify (set_NEO_LEN neo_len);;
       print ("@@ Settings.toml: neo len set to " +:+ pretty neo_len)
     else ret tt)
    Exception
    (fun e => print ("@@ Settings.toml: Invalid NEO_LEN variable  " +:+ show_exn e));;
  try_except
    (mqtt_topic_root <- strip_ (os_getenv "MQTT_TOPIC_ROOT");
     if truthy (Some mqtt_topic_root) then
       modify (set_MQTT_TOPIC_ROOT mqtt_topic_root);;
       print ("@@ Settings.toml: MQTT_TOPIC_ROOT set to " +:+ mqtt_topic_root)
     else ret tt)
    Exception
    (fun e => print ("@@ Settings.toml: Invalid MQTT_TOPIC_ROOT variable  " +:+ show_exn e));;
  try_except
    (neo_strip_pin <- strip_ (os_getenv "NEO_STRIP_PIN");
     if truthy (Some neo_strip_pin) then
       modify (set_NEO_STRIP_PIN neo_strip_pin);;
       print ("@@ Settings.toml: NEO_STRIP_PIN set to " +:+ neo_strip_pin)
     else ret tt)
    Exception
    (fun e => print ("@@ Settings.toml: Invalid NEO_STRIP_PIN variable  " +:+ show_exn e));;
  modify (set_led (mkNeoPixel COL_OFF (PFloat 1)));;
  led_brightness (PFloat 0.1);;
  pin <- get NEO_STRIP_PIN;
  neo_len <- get NEO_LEN;
  (if String.eqb pin "ONBOARD" then
     modify (set_neo_wrapper (mkNeoWrapper true neo_len neo_len (PInt 1)));;
     OnboardNeoWrapper_brightness (PFloat 0.75)
   else
     (if bool_decide (pin ∈ board_pins env) then ret tt
      else raise (AttributeError pin));;
     modify (set_strip (mkNeoPixel COL_OFF (PFloat 1)));;
     modify (set_neo_wrapper (mkNeoWrapper false neo_len neo_len (PInt 1)));;
     NeoWrapper_brightness (PInt 1));;
  modify (set_init_script InitScriptExec);;
  modify (set_event_script EventScriptExec).

(** [wifi.radio.connect(ssid, password)]. *)
Definition wifi_radio_connect : M unit :=
  k <- next_io;
  now <- get clock;
  emit (EvWifiConnect now);;
  library_time k;;
  match radio_connect env with
  | None => ret tt
  | Some e => raise e
  end.

(** [init_wifi()]. *)
Definition init_wifi (fuel : nat) : M unit :=
  print "@@ WiFI setup";;
  let wifi_ssid := os_getenv "CIRCUITPY_WIFI_SSID" in
  let wifi_password := os_getenv "CIRCUITPY_WIFI_PASSWORD" in
  print ("@@ WiFI SSID: " +:+ show_opt wifi_ssid);;
  (if bool_decide (wifi_ssid = None) then
     print "@@ WiFI credentials are kept in settings.toml, please add them there!";;
     raise (ValueError "WiFI SSID not found in environment variables")
   else ret tt);;
  try_except
    wifi_radio_connect
    is_ConnectionError
    (fun e =>
       print "@@ WiFI Failed to connect to WiFi with provided credentials";;
       blink_error fuel CODE_WIFI_FAILED (-1);;
       raise e);;
  print ("@@ WiFI OK for " +:+ show_opt wifi_ssid).

(** ** The broker session *)

(** [_mqtt_on_connected]. *)
Definition _mqtt_on_connected (fuel : nat) : M unit :=
  print "@Q MQTT: Connected";;
  root <- get MQTT_TOPIC_ROOT;
  emit (EvSubscribe (root +:+ MQTT_TOPIC_SUBSCRIPTION));;
  blink_error fuel CODE_OK 0.

(** [_mqtt.connect()]: the library calls [on_connect] once the session
    is established and raises otherwise. *)
Definition mqtt_connect (fuel : nat) : M unit :=
  k <- next_io;
  now <- get clock;
  emit (EvMqttConnect now);;
  library_time k;;
  if broker_connect env k then _mqtt_on_connected fuel
  else raise (LibraryError "MMQTTException").

(** [_mqtt.reconnect()]. *)
Definition mqtt_reconnect (fuel : nat) : M unit :=
  k <- next_io;
  now <- get clock;
  emit (EvMqttReconnect now);;
  library_time k;;
  if broker_reconnect env k then _mqtt_on_connected fuel
  else raise (LibraryError "MMQTTException").

(** [init_mqtt()].  The socket pool and the constructor [MQTT.MQTT]
    only build objects; the session is opened by [connect()]. *)
Definition init_mqtt (fuel : nat) : M unit :=
  let host := os_getenv "MQTT_BROKER_IP" in
  if negb (truthy host) then
    print "@@ MQTT: disabled"
  else
    port <- int_ (os_getenv "MQTT_BROKER_PORT");
    let user := os_getenv "MQTT_USERNAME" in
    let pasw := os_getenv "MQTT_PASSWORD" in
    print ("@@ MQTT: connect to " +:+ show_opt host +:+ " , port " +:+ pretty port
           +:+ " , user " +:+ show_opt user);;
    modify (set_mqtt MqttClient);;
    try_except
      (print "@@ MQTT: connecting...";;
       mqtt_connect fuel)
      Exception
      (fun e =>
         print ("@@ MQTT: Failed Connecting with  " +:+ show_exn e);;
         blink_error fuel CODE_MQTT_FAILED 3;;
         modify (set_mqtt MqttRetry)).

(** The local variables of [_mqtt_on_message]: a name assigned anywhere
    in the function is local to it, and unbound until assigned. *)
Record Locals : Type := mkLocals {
  value : option Z;
  valie : option float
}.

Definition load_value (l : Locals) : M Z :=
  match value l with
  | Some v => ret v
  | None => raise (UnboundLocalError "value")
  end.

(** The [try] block of [_mqtt_on_message]. *)
Definition dispatch (topic message : string) : M unit :=
  root <- get MQTT_TOPIC_ROOT;
  if String.eqb topic (root +:+ MQTT_TOPIC_LENGTH) then
    n <- int_ (Some message);
    let locals := mkLocals (Some n) None in
    value <- load_value locals;
    nw <- get _neo_wrapper;
    if (value >=? 1) && (value <=? max_len nw) then
      n' <- int_ (Some message);
      set_len n'
    else ret tt
  else if String.eqb topic (root +:+ MQTT_TOPIC_BRIGHTNESS) then
    f <- float_ message;
    let locals := mkLocals None (Some f) in
    value <- load_value locals;
    if (value >=? 0) && (value <=? 1) then
      neo_wrapper_brightness (PInt value)
    else ret tt
  else if String.eqb topic (root +:+ MQTT_TOPIC_SCRIPT_INIT) then
    emit (EvNewScript "init" message);;
    s <- get _init_script;
    match newScript message s with
    | inl s' => modify (set_init_script s')
    | inr e => raise e
    end
  else if String.eqb topic (root +:+ MQTT_TOPIC_SCRIPT_EVENT) then
    emit (EvNewScript "event" message);;
    s <- get _event_script;
    match newScript message s with
    | inl s' => modify (set_event_script s')
    | inr e => raise e
    end
  else if String.eqb topic (root +:+ MQTT_TOPIC_EVENT_TRIGGER) then
    last <- get _last_trigger;
    (if negb (bool_decide (last = Some message)) then
       emit EvTrigger;;
       s <- get _event_script;
       modify (set_event_script (trigger s))
     else ret tt);;
    modify (set_last_trigger (Some message))
  else ret tt.

(** [_mqtt_on_message(client, topic, message)]. *)
Definition _mqtt_on_message (topic message : string) : M unit :=
  print ("@Q MQTT: New message on topic " +:+ topic +:+ ": " +:+ message);;
  try_except
    (dispatch topic message)
    Exception
    (fun e =>
       print ("@@ MQTT: Failed to process " +:+ topic +:+ ": " +:+ message
              +:+ " " +:+ show_exn e)).

(** The callbacks [_mqtt.loop()] makes, one per message received. *)
Fixpoint deliver (msgs : list (string * string)) : M unit :=
  match msgs with
  | [] => ret tt
  | (topic, message) :: rest =>
      _mqtt_on_message topic message;;
      deliver rest
  end.

(** [_mqtt.loop()]. *)
Definition mqtt_loop : M unit :=
  k <- next_io;
  now <- get clock;
  emit (EvMqttLoop now);;
  library_time k;;
  let (msgs, fails) := broker_loop env k in
  deliver msgs;;
  if fails then raise (LibraryError "MMQTTException") else ret tt.

(** [_mqtt_loop()]. *)
Definition _mqtt_loop (fuel : nat) : M unit :=
  handle <- get _mqtt;
  match handle with
  | MqttNone => ret tt
  | MqttRetry =>
      now <- time_time;
      ts <- get _mqtt_retry_ts;
      if now - ts >? 5 then
        init_mqtt fuel;;
        now' <- time_time;
        modify (set_mqtt_retry_ts now')
      else ret tt
  | MqttClient =>
      try_except
        mqtt_loop
        Exception
        (fun e =>
           print ("@@ MQTT: Failed with  " +:+ show_exn e);;
           blink_error fuel CODE_MQTT_RETRY 1;;
           try_except
             (mqtt_reconnect fuel;;
              blink_error fuel CODE_OK 0)
             Exception
             (fun e' =>
                print ("@@ MQTT: Reconnect failed with  " +:+ show_exn e');;
                blink_error fuel CODE_MQTT_FAILED 2))
  end.

(** ** The main loop *)

Definition init_script_loadFromNVM : M unit :=
  modify (fun w => set_init_script (loadFromNVM (_init_script w)) w).

(** [_init_script.loop()] and [_event_script.loop()]. *)
Definition init_script_loop : M unit :=
  s <- get _init_script;
  let (s', ms) := script_loop s in
  modify (set_init_script s');;
  elapse (Z.of_N ms).

Definition event_script_loop : M unit :=
  s <- get _event_script;
  let (s', ms) := script_loop s in
  modify (set_event_script s');;
  elapse (Z.of_N ms).

(** [for i in range(0, n): print(i); blink(); time.sleep(1)]. *)
Fixpoint boot_blinks (i : Z) (n : nat) : M unit :=
  match n with
  | O => ret tt
  | S n' =>
      print (pretty i);;
      blink;;
      time_sleep 1000;;
      boot_blinks (i + 1) n'
  end.

(** [loop()] up to its [while True]. *)
Definition loop_prologue : M unit :=
  print "@@ loop";;
  c <- col_led_error CODE_OK;
  led_fill c;;
  boot_blinks 0 3;;
  neo_fill COL_OFF;;
  pin <- get NEO_STRIP_PIN;
  modify (set_NEO_DONT_BLINK (String.eqb pin "ONBOARD"));;
  init_script_loadFromNVM;;
  blink.

(** One iteration of [while True]. *)
Definition loop_body (fuel : nat) : M unit :=
  start_ts <- time_monotonic;
  blink;;
  _mqtt_loop fuel;;
  init_script_loop;;
  event_script_loop;;
  end_ts <- time_monotonic;
  let delta_ts := end_ts - start_ts in
  (if delta_ts <? 1000 then time_sleep 250 else ret tt);;
  print ("@@ loop:  " +:+ pretty delta_ts).

Fixpoint iterate (n : nat) (body : M unit) : M unit :=
  match n with
  | O => ret tt
  | S n' => body;; iterate n' body
  end.

(** [loop()], its [while True] cut after [n] iterations. *)
Definition loop (fuel n : nat) : M unit :=
  loop_prologue;;
  iterate n (loop_body fuel).

(** The program: [init(); init_wifi(); init_mqtt(); loop()]. *)
Definition main (fuel n : nat) : M unit :=
  init;;
  init_wifi fuel;;
  init_mqtt fuel;;
  loop fuel n.

(** The module as loaded, before [init()] runs. *)
Definition boot_world : World :=
  mkWorld 100 "A1" false "ambiance"
    (mkNeoPixel COL_OFF (PFloat 1)) (mkNeoPixel COL_OFF (PFloat 1))
    (mkNeoWrapper false 100 100 (PInt 1))
    InitScriptExec EventScriptExec
    MqttNone None 0 0 1
    (Z.of_N (boot_clock env)) 0%nat [].

End Program.

Arguments Normal {runtime A} a w.
Arguments Raised {runtime A} e w.
Arguments Diverged {runtime A}.

(** ** A reference platform

    A concrete interpreter and script runtime on which the model runs.
    They serve to evaluate the program on concrete inputs; the theorems
    are proved for every platform. *)

Definition digit_of (c : ascii) : option Z :=
  let n := nat_of_ascii c in
  if ((48 <=? n) && (n <=? 57))%nat then Some (Z.of_nat n - 48) else None.

Fixpoint digits_value (acc : Z) (l : list ascii) : option Z :=
  match l with
  | [] => Some acc
  | c :: l' =>
      match digit_of c with
      | Some d => digits_value (10 * acc + d) l'
      | None => None
      end
  end.

(** An unsigned run of decimal digits, not empty. *)
Definition dec_nat (l : list ascii) : option Z :=
  match l with
  | [] => None
  | _ => digits_value 0 l
  end.

(** A sign, then what [body] reads. *)
Definition signed {A : Type} (neg : A -> A) (body : list ascii -> option A)
  (l : list ascii) : option A :=
  match l with
  | "-"%char :: l' => option_map neg (body l')
  | "+"%char :: l' => body l'
  | _ => body l
  end.

(** [int(s)] on decimal text: blanks around, an optional sign, digits. *)
Definition dec_int (s : string) : option Z :=
  signed Z.opp dec_nat (list_ascii_of_string (py_strip s)).

Fixpoint split_dot (l : list ascii) : list ascii * option (list ascii) :=
  match l with
  | [] => ([], None)
  | "."%char :: l' => ([], Some l')
  | c :: l' => let (a, b) := split_dot l' in (c :: a, b)
  end.

Definition float_of_nat_Z (n : Z) : float := PrimFloat.of_uint63 (Uint63.of_Z n).

(** Digits, optionally a dot and more digits: [mantissa / 10^k]. *)
Definition dec_ufloat (l : list ascii) : option float :=
  match split_dot l with
  | (ip, None) => option_map float_of_nat_Z (dec_nat ip)
  | (ip, Some fp) =>
      match dec_nat (ip ++ fp) with
      | Some m =>
          Some (PrimFloat.div (float_of_nat_Z m)
                  (float_of_nat_Z (10 ^ Z.of_nat (length fp))))
      | None => None
      end
  end.

(** [float(s)] on plain decimal text. *)
Definition dec_float (s : string) : option float :=
  signed PrimFloat.opp dec_ufloat (list_ascii_of_string (py_strip s)).

#[export] Instance ref_builtins : PyBuiltins :=
  {| py_int := dec_int; py_float := dec_float |}.

(** A script executor reduced to what the control plane sees of it: the
    source text in use and the number of ticks since it was started.  A
    text is accepted when it is not blank. *)
Record RefExec : Type := mkRefExec {
  source : string;
  ticks : nat
}.

#[export] Instance ref_runtime : ScriptRuntime :=
  {| ScriptExec := RefExec;
     InitScriptExec := mkRefExec "" 0;
     EventScriptExec := mkRefExec "" 0;
     newScript := fun text s =>
       if String.eqb (py_strip text) "" then inr (ValueError "empty script")
       else inl (mkRefExec text 0);
     trigger := fun s => mkRefExec (source s) 0;
     script_loop := fun s => (mkRefExec (source s) (S (ticks s)), 0%N);
     loadFromNVM := fun s => s |}.

(** A device with WiFi credentials and a broker that never answers. *)
Definition ref_settings : gmap string string :=
  list_to_map
    [ ("CIRCUITPY_WIFI_SSID", "layout");
      ("CIRCUITPY_WIFI_PASSWORD", "secret");
      ("MQTT_BROKER_IP", "192.168.1.2");
      ("MQTT_BROKER_PORT", "1883") ].

Definition ref_pins : gset string := {[ "A1"; "A2"; "A3" ]}.

Definition mkEnv (s : gmap string string) (btn : nat -> bool)
  (radio : option exn) (connect : nat -> bool)
  (lp : nat -> list (string * string) * bool) (reconnect : nat -> bool) : Env :=
  {| settings := s; board_pins := ref_pins; boot_btn := btn;
     radio_connect := radio; broker_connect := connect; broker_loop := lp;
     broker_reconnect := reconnect; latency := fun _ => 0%N;
     boot_clock := 100000%N |}.

(** Broker down from the start; nobody touches the button. *)
Definition env_broker_down : Env :=
  mkEnv ref_settings (fun _ => true) None (fun _ => false)
    (fun _ => ([], true)) (fun _ => false).

(** Broker down from the start; the boot button is held. *)
Definition env_broker_down_btn : Env :=
  mkEnv ref_settings (fun _ => false) None (fun _ => false)
    (fun _ => ([], true)) (fun _ => false).

(** The session is established, then every [loop()] and every
    [reconnect()] fails. *)
Definition env_broker_lost : Env :=
  mkEnv ref_settings (fun _ => true) None (fun _ => true)
    (fun _ => ([], true)) (fun _ => false).

(** ** Concrete runs

    Environments and worlds on which the program is evaluated below. *)

(** The world a computation ends in, returning or raising. *)
Definition world_of (r : Res unit) (otherwise : World) : World :=
  match r with
  | Normal _ w | Raised _ w => w
  | Diverged => otherwise
  end.

(** No WiFi SSID in [settings.toml]. *)
Definition env_no_ssid : Env :=
  mkEnv (delete "CIRCUITPY_WIFI_SSID" ref_settings) (fun _ => true) None
    (fun _ => false) (fun _ => ([], true)) (fun _ => false).

(** The access point refuses the association; the boot button is held. *)
Definition env_wifi_down : Env :=
  mkEnv ref_settings (fun _ => false) (Some ConnectionError)
    (fun _ => false) (fun _ => ([], true)) (fun _ => false).

(** No broker address in [settings.toml]. *)
Definition env_no_broker : Env :=
  mkEnv (delete "MQTT_BROKER_IP" ref_settings) (fun _ => true) None
    (fun _ => false) (fun _ => ([], true)) (fun _ => false).

(** The world in which [while True] is entered. *)
Definition started (env : Env) : World :=
  world_of (main env 4 0 (boot_world env)) (boot_world env).

(** The world after [init()], one [blink()] and a second of sleep: the
    LED is lit and the next [blink()] is due to dim it. *)
Definition lit_world : World :=
  world_of
    (bind (init env_broker_down)
       (fun _ => bind blink (fun _ => time_sleep 1000))
       (boot_world env_broker_down))
    (boot_world env_broker_down).

(** The instants at which a session with the broker was attempted, by
    [connect()] or by [reconnect()], oldest first. *)
Definition attempt_time (e : event) : option Z :=
  match e with
  | EvMqttConnect t | EvMqttReconnect t => Some t
  | _ => None
  end.

Definition attempts (t : list event) : list Z := omap attempt_time t.

(** No instant of [l] is less than [gap] after the one before it. *)
Fixpoint never_within (gap : Z) (l : list Z) : bool :=
  match l with
  | a :: (b :: _) as rest => (gap <=? b - a) && never_within gap rest
  | _ => true
  end.

(** The strip is the status LED itself, thirty pixels long; the broker
    answers. *)
Definition env_onboard : Env :=
  mkEnv (<["NEO_STRIP_PIN" := " ONBOARD "]> (<["NEO_LEN" := "30"]> ref_settings))
    (fun _ => true) None (fun _ => true) (fun _ => ([], false)) (fun _ => true).

(** The strip is on a pin the board does not have. *)
Definition env_bad_pin : Env :=
  mkEnv (<["NEO_STRIP_PIN" := "A9"]> ref_settings)
    (fun _ => true) None (fun _ => true) (fun _ => ([], false)) (fun _ => true).

(** The world after [init()]. *)
Definition initialised (env : Env) : World :=
  world_of (init env (boot_world env)) (boot_world env).

(** ** Vocabulary of the statements *)

Section Vocabulary.

Context {builtins : PyBuiltins} {runtime : ScriptRuntime}.
Variable env : Env.

(** [w] with [lines] added to its trace. *)
Definition logged (lines : list event) (w : World) : World :=
  set_trace (trace w ++ lines) w.

(** [w'] is [w], but for what was logged in between. *)
Definition unchanged (w w' : World) : Prop := w' = set_trace (trace w') w.

(** [w] after [ms] milliseconds. *)
Definition elapsed (ms : Z) (w : World) : World := set_clock (clock w + ms) w.

(** [w] with the active length of the strip set to [n]. *)
Definition with_len (n : Z) (w : World) : World :=
  set_neo_wrapper
    (mkNeoWrapper (is_onboard (_neo_wrapper w)) n (max_len (_neo_wrapper w))
       (val_brightness (_neo_wrapper w))) w.

(** The line [_mqtt_on_message] prints on entry. *)
Definition announce (topic message : string) : event :=
  EvPrint ("@Q MQTT: New message on topic " +:+ topic +:+ ": " +:+ message).

(** The line its [except] clause prints. *)
Definition failure (topic message : string) (e : exn) : event :=
  EvPrint ("@@ MQTT: Failed to process " +:+ topic +:+ ": " +:+ message
           +:+ " " +:+ show_exn e).

(** The number of calls of [_event_script.trigger()] in a trace. *)
Fixpoint trigger_calls (t : list event) : nat :=
  match t with
  | [] => 0
  | EvTrigger :: t' => S (trigger_calls t')
  | _ :: t' => trigger_calls t'
  end.

(** The number of payloads of [payloads] that differ from the one seen
    before them, [last] being the one seen before the first. *)
Fixpoint fires (last : option string) (payloads : list string) : nat :=
  match payloads with
  | [] => 0
  | p :: rest =>
      ((if bool_decide (last = Some p) then 0 else 1) + fires (Some p) rest)%nat
  end.

(** A batch of messages on one topic. *)
Definition on_topic (topic : string) (payloads : list string) : list (string * string) :=
  map (fun p => (topic, p)) payloads.

(** The topic of the event trigger. *)
Definition trigger_topic (w : World) : string :=
  MQTT_TOPIC_ROOT w +:+ MQTT_TOPIC_EVENT_TRIGGER.

(** [pres R m]: wherever [m] ends, returning or raising, the world it
    ends in is related by [R] to the one it started in. *)
Definition pres {A : Type} (R : World -> World -> Prop) (m : M A) : Prop :=
  forall w,
    match m w with
    | Normal _ w' | Raised _ w' => R w w'
    | Diverged => True
    end.

(** The instants at which [_mqtt.connect()] was called, oldest first. *)
Definition connect_time (e : event) : option Z :=
  match e with
  | EvMqttConnect t => Some t
  | _ => None
  end.

Definition connects (t : list event) : list Z := omap connect_time t.

(** [quiet w w']: what every step of the program respects, the call of
    [_mqtt.connect()], the retry timestamp and the two settings fixed at
    start-up apart. *)
Definition quiet (w w' : World) : Prop :=
  NEO_STRIP_PIN w' = NEO_STRIP_PIN w /\
  NEO_DONT_BLINK w' = NEO_DONT_BLINK w /\
  _mqtt_retry_ts w' = _mqtt_retry_ts w /\
  clock w <= clock w' /\
  exists ext, trace w' = trace w ++ ext /\ connects ext = [].

(** [spaced gap l]: in the list [l] of instants, oldest first, every
    instant is more than [gap] after all the earlier ones. *)
Fixpoint spaced (gap : Z) (l : list Z) : bool :=
  match l with
  | [] => true
  | t :: rest => forallb (fun u => gap <? u - t) rest && spaced gap rest
  end.

(** [loud w w']: like [quiet], but [_mqtt.connect()] may have been
    called once in between. *)
Definition loud (w w' : World) : Prop :=
  NEO_STRIP_PIN w' = NEO_STRIP_PIN w /\
  NEO_DONT_BLINK w' = NEO_DONT_BLINK w /\
  _mqtt_retry_ts w' = _mqtt_retry_ts w /\
  clock w <= clock w' /\
  exists ext, trace w' = trace w ++ ext /\
    (connects ext = [] \/ exists t, connects ext = [t] /\ clock w <= t <= clock w').

(** The attempts logged since [w0] are spaced, and none is later than
    the retry timestamp. *)
Definition retry_inv (w0 w : World) : Prop :=
  exists new,
    trace w = trace w0 ++ new /\
    spaced 5000 (connects new) = true /\
    Forall (fun t => t / 1000 <= _mqtt_retry_ts w) (connects new).

(** A step that maintains [retry_inv]. *)
Definition keeps_retry_inv (w0 w w' : World) : Prop :=
  retry_inv w0 w -> retry_inv w0 w'.

(** [on_return R m]: the same, for the runs of [m] that return. *)
Definition on_return {A : Type} (R : World -> World -> Prop) (m : M A) : Prop :=
  forall w a w', m w = Normal a w' -> R w w'.

(** The number of reads of the boot button in a trace. *)
Fixpoint polls (t : list event) : nat :=
  match t with
  | [] => 0
  | EvPoll _ :: t' => S (polls t')
  | _ :: t' => polls t'
  end.

(** What a run of the alert loop leaves behind: [n] polls of the
    button, the LED colour untouched, at most [1250] ms per poll. *)
Definition alert_loop_done (n : nat) (w w' : World) : Prop :=
  filled (_led w') = filled (_led w) /\
  clock w' <= clock w + 1250 * Z.of_nat n /\
  exists ext, trace w' = trace w ++ ext /\ polls ext = n.

(** The world after [blink()] when the heartbeat is not suppressed. *)
Definition heartbeat (w : World) : World :=
  let w1 :=
    set_led (mkNeoPixel (filled (_led w))
               (if negb (_next_blink w =? 0) then PFloat 0.1 else PInt 0)) w in
  if clock w / 1000 - _last_blink_ts w >? 1
  then set_next_blink (1 - _next_blink w) (set_last_blink_ts (clock w / 1000) w1)
  else w1.

(** One [loop()] of a script executor. *)
Definition tick (s : ScriptExec) : ScriptExec := fst (script_loop s).

(** [settles I m]: from a world in [I], [m] returns or raises, in [I]
    again; [returns I m]: it returns. *)
Definition settles {A : Type} (I : World -> Prop) (m : M A) : Prop :=
  forall w, I w ->
    match m w with
    | Normal _ w' | Raised _ w' => I w'
    | Diverged => False
    end.

Definition returns {A : Type} (I : World -> Prop) (m : M A) : Prop :=
  forall w, I w ->
    match m w with
    | Normal _ w' => I w'
    | _ => False
    end.

(** The port the broker is reached on, when the setting is readable. *)
Definition broker_port : option Z :=
  match os_getenv env "MQTT_BROKER_PORT" with
  | Some s => py_int s
  | None => None
  end.

(** The state ["retry"] is only entered once the port has been read. *)
Definition live (w : World) : Prop :=
  _mqtt w = MqttRetry -> is_Some broker_port.

(** What [init_wifi] raises when there is no SSID. *)
Definition ssid_missing : exn :=
  ValueError "WiFI SSID not found in environment variables".

(** [calm w w']: [w'] is [w] but for the brightness of the status LED,
    the clock, the count of interactions and the trace. *)
Definition calm (w w' : World) : Prop :=
  w' =
  set_trace (trace w')
    (set_io (io w')
       (set_clock (clock w')
          (set_led (mkNeoPixel (filled (_led w)) (brightness (_led w'))) w))).

(** [settled w w']: the settings read at start-up and the bounds of the
    strip are as in [w]; the active length is as in [w] or within them. *)
Definition settled (w w' : World) : Prop :=
  NEO_LEN w' = NEO_LEN w /\
  NEO_STRIP_PIN w' = NEO_STRIP_PIN w /\
  MQTT_TOPIC_ROOT w' = MQTT_TOPIC_ROOT w /\
  is_onboard (_neo_wrapper w') = is_onboard (_neo_wrapper w) /\
  max_len (_neo_wrapper w') = max_len (_neo_wrapper w) /\
  (len (_neo_wrapper w') = len (_neo_wrapper w) \/
   1 <= len (_neo_wrapper w') <= max_len (_neo_wrapper w)).

(** [steady w w']: [settled], and the broker handle is the same. *)
Definition steady (w w' : World) : Prop :=
  _mqtt w' = _mqtt w /\ settled w w'.

(** The world after a message on a script topic: the executor [s']
    that [newScript] returns is stored by [store], a rejected text is
    logged. *)
Definition script_loaded (which topic message : string) (s : ScriptExec)
  (store : ScriptExec -> World -> World) (w : World) : World :=
  match newScript message s with
  | inl s' => store s' (logged [announce topic message; EvNewScript which message] w)
  | inr e =>
      logged [announce topic message; EvNewScript which message;
              failure topic message e] w
  end.

(** [later w w']: the clock did not go back. *)
Definition later (w w' : World) : Prop := clock w <= clock w'.

(** [opened w w']: the broker handle is as it was, or a client, or
    ["retry"]. *)
Definition opened (w w' : World) : Prop :=
  _mqtt w' = _mqtt w \/ _mqtt w' = MqttClient \/ _mqtt w' = MqttRetry.

(** [advanced w w']: the broker handle did not go back: [None] stays
    [None], a client stays a client, ["retry"] stays or becomes a
    client. *)
Definition advanced (w w' : World) : Prop :=
  match _mqtt w with
  | MqttNone => _mqtt w' = MqttNone
  | MqttRetry => _mqtt w' <> MqttNone
  | MqttClient => _mqtt w' = MqttClient
  end.

(** What [init()] makes of the setting [NEO_LEN]: its value when it
    reads as a positive integer, else the length in use. *)
Definition neo_len_setting (w : World) : Z :=
  match os_getenv env "NEO_LEN" with
  | Some s =>
      match py_int s with
      | Some n => if n >? 0 then n else NEO_LEN w
      | None => NEO_LEN w
      end
  | None => NEO_LEN w
  end.

(** What [init()] makes of a text setting: the text without the blanks
    around it, unless it is missing or blank. *)
Definition text_setting (key current : string) : string :=
  match os_getenv env key with
  | Some s => if truthy (Some (py_strip s)) then py_strip s else current
  | None => current
  end.

(** The world once [init()] has read the three settings, [lines] being
    what it printed. *)
Definition configured (lines : list event) (w : World) : World :=
  set_NEO_STRIP_PIN (text_setting "NEO_STRIP_PIN" (NEO_STRIP_PIN w))
    (set_MQTT_TOPIC_ROOT (text_setting "MQTT_TOPIC_ROOT" (MQTT_TOPIC_ROOT w))
       (set_NEO_LEN (neo_len_setting w) (logged lines w))).

(** The pin [init()] settles on names a strip: the status LED itself or
    a pin of the board. *)
Definition pin_known (w : World) : bool :=
  let pin := text_setting "NEO_STRIP_PIN" (NEO_STRIP_PIN w) in
  String.eqb pin "ONBOARD" || bool_decide (pin ∈ board_pins env).

(** [handled w w']: [w'] is [w] but for the wrapper, the two script
    executors, the last trigger payload and the trace. *)
Definition handled (w w' : World) : Prop :=
  w' =
  set_trace (trace w')
    (set_last_trigger (_last_trigger w')
       (set_event_script (_event_script w')
          (set_init_script (_init_script w')
             (set_neo_wrapper (_neo_wrapper w') w)))).

(** The world after an alert that lit the status LED in [c], read the
    button with the results [bs] and ended at time [t]. *)
Definition alerted (c : color) (bs : list bool) (t : Z) (w : World) : World :=
  set_trace (trace w ++ map EvPoll bs)
    (set_io (io w + length bs)
       (set_clock t (set_led (mkNeoPixel c (PFloat 0.1)) w))).

(** The conditions under which start-up reaches the main loop: the
    strip pin is known, there is a WiFi SSID, the association succeeds,
    and the broker is either not configured or has a readable port. *)
Definition startup_ok : bool :=
  pin_known (boot_world env)
  && match os_getenv env "CIRCUITPY_WIFI_SSID" with Some _ => true | None => false end
  && match radio_connect env with None => true | Some _ => false end
  && (negb (truthy (os_getenv env "MQTT_BROKER_IP"))
      || match broker_port with Some _ => true | None => false end).

End Vocabulary.

(** ** Properties *)

Section Properties.
Context {builtins : PyBuiltins} {runtime : ScriptRuntime}.
Variable env : Env.

Lemma append_eqb_prefix (root a b : string) :
  String.eqb (root +:+ a) (root +:+ b) = String.eqb a b.
Proof.
  induction root as [|c root IH]; simpl.
  - reflexivity.
  - rewrite Ascii.eqb_refl. exact IH.
Qed.

(** Projections of updated worlds. *)
Ltac fields := cbn [NEO_LEN NEO_STRIP_PIN NEO_DONT_BLINK MQTT_TOPIC_ROOT _led strip _neo_wrapper
  _init_script _event_script _mqtt _last_trigger _mqtt_retry_ts _last_blink_ts _next_blink clock io trace
  set_NEO_LEN set_NEO_STRIP_PIN set_NEO_DONT_BLINK set_MQTT_TOPIC_ROOT set_led set_strip set_neo_wrapper
  set_init_script set_event_script set_mqtt set_last_trigger set_mqtt_retry_ts set_last_blink_ts
  set_next_blink set_clock set_io set_trace
  is_onboard len max_len val_brightness filled brightness value valie] in *.

(** Running the handler as far as the payload allows. *)
Ltac run := cbn [_mqtt_on_message dispatch bind get modify print emit try_except ret raise
  int_ float_ load_value Exception set_len
  NEO_LEN NEO_STRIP_PIN NEO_DONT_BLINK MQTT_TOPIC_ROOT _led strip _neo_wrapper
  _init_script _event_script _mqtt _last_trigger _mqtt_retry_ts _last_blink_ts _next_blink clock io trace
  set_NEO_LEN set_NEO_STRIP_PIN set_NEO_DONT_BLINK set_MQTT_TOPIC_ROOT set_led set_strip set_neo_wrapper
  set_init_script set_event_script set_mqtt set_last_trigger set_mqtt_retry_ts set_last_blink_ts
  set_next_blink set_clock set_io set_trace
  is_onboard len max_len val_brightness filled brightness value valie].

Lemma unchanged_refl w : unchanged w w.
Proof. unfold unchanged. destruct w; reflexivity. Qed.

Lemma unchanged_logged lines w : unchanged w (logged lines w).
Proof. unfold unchanged, logged. destruct w; reflexivity. Qed.

Lemma unchanged_trans w1 w2 w3 : unchanged w1 w2 -> unchanged w2 w3 -> unchanged w1 w3.
Proof. unfold unchanged. intros H12 H23. rewrite H23, H12. destruct w1; reflexivity. Qed.

(** Comparing a topic under the root with the five the handler knows. *)
Ltac topics :=
  rewrite ?append_eqb_prefix, ?String.eqb_refl;
  repeat match goal with
  | |- context [String.eqb ?a ?b] =>
      first [ change (String.eqb a b) with false | change (String.eqb a b) with true ]
  end;
  cbv iota.

Lemma dispatch_length message w :
  dispatch (MQTT_TOPIC_ROOT w +:+ MQTT_TOPIC_LENGTH) message w =
  match py_int message with
  | Some n =>
      if (n >=? 1) && (n <=? max_len (_neo_wrapper w))
      then Normal tt (with_len n w) else Normal tt w
  | None => Raised (ValueError "invalid literal for int()") w
  end.
Proof.
  unfold dispatch. run. topics. run.
  destruct (py_int message) as [n|]; run; [|reflexivity].
  destruct ((n >=? 1) && (n <=? max_len (_neo_wrapper w))); reflexivity.
Qed.

Lemma dispatch_brightness message w :
  dispatch (MQTT_TOPIC_ROOT w +:+ MQTT_TOPIC_BRIGHTNESS) message w =
  Raised (match py_float message with
          | Some _ => UnboundLocalError "value"
          | None => ValueError "could not convert string to float"
          end) w.
Proof.
  unfold dispatch. run. topics. run. unfold float_.
  destruct (py_float message); reflexivity.
Qed.

Lemma dispatch_trigger message w :
  dispatch (MQTT_TOPIC_ROOT w +:+ MQTT_TOPIC_EVENT_TRIGGER) message w =
  Normal tt
    (set_last_trigger (Some message)
       (if bool_decide (_last_trigger w = Some message) then w
        else set_event_script (trigger (_event_script w)) (logged [EvTrigger] w))).
Proof.
  unfold dispatch. run. topics. run.
  destruct (bool_decide (_last_trigger w = Some message)); reflexivity.
Qed.

Lemma dispatch_other topic message w :
  topic <> MQTT_TOPIC_ROOT w +:+ MQTT_TOPIC_LENGTH ->
  topic <> MQTT_TOPIC_ROOT w +:+ MQTT_TOPIC_BRIGHTNESS ->
  topic <> MQTT_TOPIC_ROOT w +:+ MQTT_TOPIC_SCRIPT_INIT ->
  topic <> MQTT_TOPIC_ROOT w +:+ MQTT_TOPIC_SCRIPT_EVENT ->
  topic <> MQTT_TOPIC_ROOT w +:+ MQTT_TOPIC_EVENT_TRIGGER ->
  dispatch topic message w = Normal tt w.
Proof.
  intros H1 H2 H3 H4 H5.
  apply String.eqb_neq in H1, H2, H3, H4, H5.
  unfold dispatch. run. rewrite H1, H2, H3, H4, H5. reflexivity.
Qed.

(** What [dispatch] can do: return, or raise with the state as it was
    (a rejected script leaves its announcement in the trace). *)
Lemma dispatch_outcome topic message w :
  (exists w', dispatch topic message w = Normal tt w') \/
  (exists e w', dispatch topic message w = Raised e w' /\ unchanged w w').
Proof.
  unfold dispatch. run.
  destruct (String.eqb topic (MQTT_TOPIC_ROOT w +:+ MQTT_TOPIC_LENGTH)).
  { run. destruct (py_int message) as [n|]; run.
    - destruct ((n >=? 1) && (n <=? max_len (_neo_wrapper w))); run; left; eauto.
    - right. eexists _, _. split; [reflexivity | apply unchanged_refl]. }
  destruct (String.eqb topic (MQTT_TOPIC_ROOT w +:+ MQTT_TOPIC_BRIGHTNESS)).
  { unfold float_. destruct (py_float message); run;
      right; eexists _, _; (split; [reflexivity | apply unchanged_refl]). }
  destruct (String.eqb topic (MQTT_TOPIC_ROOT w +:+ MQTT_TOPIC_SCRIPT_INIT)).
  { run. destruct (newScript message (_init_script w)); run.
    - left; eauto.
    - right. eexists _, _. split; [reflexivity | apply (unchanged_logged _ w)]. }
  destruct (String.eqb topic (MQTT_TOPIC_ROOT w +:+ MQTT_TOPIC_SCRIPT_EVENT)).
  { run. destruct (newScript message (_event_script w)); run.
    - left; eauto.
    - right. eexists _, _. split; [reflexivity | apply (unchanged_logged _ w)]. }
  destruct (String.eqb topic (MQTT_TOPIC_ROOT w +:+ MQTT_TOPIC_EVENT_TRIGGER)).
  { run. destruct (bool_decide (_last_trigger w = Some message)); run; left; eauto. }
  left; eauto.
Qed.

Lemma on_message_unfold topic message w :
  _mqtt_on_message topic message w =
  match dispatch topic message (logged [announce topic message] w) with
  | Raised e w' => Normal tt (logged [failure topic message e] w')
  | r => r
  end.
Proof. reflexivity. Qed.

Lemma bind_unfold {A B : Type} (m : M A) (k : A -> M B) (w : World) :
  bind m k w =
  match m w with
  | Normal a w' => k a w'
  | Raised e w' => Raised e w'
  | Diverged => Diverged
  end.
Proof. reflexivity. Qed.

Lemma trigger_calls_app t1 t2 :
  trigger_calls (t1 ++ t2) = (trigger_calls t1 + trigger_calls t2)%nat.
Proof.
  induction t1 as [|e t1 IH]; simpl; [reflexivity|].
  destruct e; simpl; rewrite IH; reflexivity.
Qed.

Lemma on_message_trigger p w :
  _mqtt_on_message (trigger_topic w) p w =
  Normal tt
    (set_last_trigger (Some p)
       (if bool_decide (_last_trigger w = Some p)
        then logged [announce (trigger_topic w) p] w
        else set_event_script (trigger (_event_script w))
               (logged [announce (trigger_topic w) p; EvTrigger] w))).
Proof.
  rewrite on_message_unfold. unfold trigger_topic.
  change (MQTT_TOPIC_ROOT w) with
    (MQTT_TOPIC_ROOT (logged [announce (MQTT_TOPIC_ROOT w +:+ MQTT_TOPIC_EVENT_TRIGGER) p] w)) at 1.
  rewrite dispatch_trigger. fields. unfold logged. fields.
  destruct (bool_decide (_last_trigger w = Some p)); [reflexivity|].
  fields. rewrite <- app_assoc. reflexivity.
Qed.

Lemma deliver_triggers payloads : forall w,
  exists w',
    deliver (on_topic (trigger_topic w) payloads) w = Normal tt w' /\
    MQTT_TOPIC_ROOT w' = MQTT_TOPIC_ROOT w /\
    trigger_calls (trace w') =
      (trigger_calls (trace w) + fires (_last_trigger w) payloads)%nat /\
    _event_script w' =
      Nat.iter (fires (_last_trigger w) payloads) trigger (_event_script w).
Proof.
  induction payloads as [|p rest IH]; intros w.
  - exists w. simpl. repeat split; try reflexivity. lia.
  - cbn [on_topic map deliver]. rewrite bind_unfold, on_message_trigger.
    set (w1 := set_last_trigger _ _).
    assert (Hroot : MQTT_TOPIC_ROOT w1 = MQTT_TOPIC_ROOT w).
    { unfold w1. destruct (bool_decide _); reflexivity. }
    assert (Htopic : trigger_topic w1 = trigger_topic w).
    { unfold trigger_topic. rewrite Hroot. reflexivity. }
    destruct (IH w1) as (w' & Hrun & Hroot' & Hcalls & Hscript).
    rewrite Htopic in Hrun. fold (on_topic (trigger_topic w) rest).
    exists w'. split; [exact Hrun|].
    split; [congruence|].
    assert (Hl1 : _last_trigger w1 = Some p) by reflexivity.
    rewrite Hl1 in Hcalls, Hscript.
    cbn [fires].
    split.
    + rewrite Hcalls. unfold w1.
      destruct (bool_decide (_last_trigger w = Some p)); fields; unfold logged; fields;
        rewrite trigger_calls_app; simpl; lia.
    + rewrite Hscript. unfold w1.
      destruct (bool_decide (_last_trigger w = Some p)); fields.
      * reflexivity.
      * rewrite Nat.add_1_l. rewrite Nat.iter_succ_r. reflexivity.
Qed.

(** C1 (confirmed).  On the event-trigger topic, [trigger()] is called
    once for every payload that differs from the payload seen before it.
    For every world and every sequence of payloads delivered on that
    topic, the handler returns, the calls of [trigger()] added to the
    trace are [fires (_last_trigger w) payloads] many, and the event
    script has been restarted as often.  In particular the first payload
    fires when none was seen ([_last_trigger] is [None] at start-up), a
    payload repeated at once adds no call, and a payload after a
    different one adds a call. *)
Theorem trigger_fires_once_per_change (w : World) (payloads : list string) :
  (exists w',
     deliver (on_topic (trigger_topic w) payloads) w = Normal tt w' /\
     trigger_calls (trace w') =
       (trigger_calls (trace w) + fires (_last_trigger w) payloads)%nat /\
     _event_script w' =
       Nat.iter (fires (_last_trigger w) payloads) trigger (_event_script w)) /\
  (forall p rest, fires None (p :: rest) = S (fires (Some p) rest)) /\
  (forall last p, fires last [p; p] = fires last [p]) /\
  (forall p q, fires (Some p) [q] = if bool_decide (p = q) then 0%nat else 1%nat).
Proof.
  split; [|split; [|split]].
  - destruct (deliver_triggers payloads w) as (w' & H1 & _ & H2 & H3).
    exists w'. auto.
  - intros p rest. cbn [fires]. rewrite bool_decide_eq_false_2 by discriminate.
    reflexivity.
  - intros last p. cbn [fires].
    rewrite (bool_decide_eq_true_2 (Some p = Some p)) by reflexivity. lia.
  - intros p q. cbn [fires].
    destruct (bool_decide (p = q)) eqn:E.
    + apply bool_decide_eq_true_1 in E. subst q.
      rewrite bool_decide_eq_true_2 by reflexivity. reflexivity.
    + apply bool_decide_eq_false_1 in E.
      rewrite bool_decide_eq_false_2 by congruence. reflexivity.
Qed.

Lemma on_message_normal topic message w :
  exists w', _mqtt_on_message topic message w = Normal tt w'.
Proof.
  rewrite on_message_unfold.
  destruct (dispatch_outcome topic message (logged [announce topic message] w))
    as [(w' & H) | (e & w' & H & _)]; rewrite H; eauto.
Qed.

Lemma deliver_normal msgs : forall w, exists w', deliver msgs w = Normal tt w'.
Proof.
  induction msgs as [|[topic message] rest IH]; intros w.
  - exists w. reflexivity.
  - cbn [deliver]. rewrite bind_unfold.
    destruct (on_message_normal topic message w) as (w1 & H1). rewrite H1.
    apply IH.
Qed.

(** C2 (code defect).  A message on the brightness topic never changes
    the brightness.  The handler binds the parsed number to [valie] and
    then tests [value], which is unbound in that branch: it raises
    [UnboundLocalError] when the payload is a number (and [ValueError]
    when it is not), the [except] clause logs it, and the wrapper, the
    LED and the strip are as before.  The claim asks for the brightness
    to be set when the number is in [[0,1]]. *)
Theorem brightness_message_never_applied (message : string) (w : World) :
  let topic := MQTT_TOPIC_ROOT w +:+ MQTT_TOPIC_BRIGHTNESS in
  _mqtt_on_message topic message w =
  Normal tt
    (logged
       [announce topic message;
        failure topic message
          (match py_float message with
           | Some _ => UnboundLocalError "value"
           | None => ValueError "could not convert string to float"
           end)] w) /\
  forall w', _mqtt_on_message topic message w = Normal tt w' ->
    _neo_wrapper w' = _neo_wrapper w /\ _led w' = _led w /\ strip w' = strip w.
Proof.
  intros topic.
  assert (H : _mqtt_on_message topic message w =
    Normal tt
      (logged
         [announce topic message;
          failure topic message
            (match py_float message with
             | Some _ => UnboundLocalError "value"
             | None => ValueError "could not convert string to float"
             end)] w)).
  { rewrite on_message_unfold. unfold topic.
    change (MQTT_TOPIC_ROOT w) with
      (MQTT_TOPIC_ROOT (logged [announce (MQTT_TOPIC_ROOT w +:+ MQTT_TOPIC_BRIGHTNESS) message] w)) at 1.
    rewrite dispatch_brightness. unfold logged. fields.
    rewrite <- app_assoc. reflexivity. }
  split; [exact H|].
  intros w' Hw'. rewrite H in Hw'. injection Hw' as <-. auto.
Qed.

Lemma on_message_length message w :
  let topic := MQTT_TOPIC_ROOT w +:+ MQTT_TOPIC_LENGTH in
  _mqtt_on_message topic message w =
  Normal tt
    match py_int message with
    | Some n =>
        if (n >=? 1) && (n <=? max_len (_neo_wrapper w))
        then with_len n (logged [announce topic message] w)
        else logged [announce topic message] w
    | None =>
        logged [announce topic message;
                failure topic message (ValueError "invalid literal for int()")] w
    end.
Proof.
  intros topic. rewrite on_message_unfold. unfold topic.
  change (MQTT_TOPIC_ROOT w) with
    (MQTT_TOPIC_ROOT (logged [announce (MQTT_TOPIC_ROOT w +:+ MQTT_TOPIC_LENGTH) message] w)) at 1.
  rewrite dispatch_length. unfold logged at 1. fields.
  destruct (py_int message) as [n|].
  - destruct ((n >=? 1) && (n <=? max_len (_neo_wrapper w))); reflexivity.
  - unfold logged. fields. rewrite <- app_assoc. reflexivity.
Qed.

(** The wrapper after any message: as it was, or with a new length
    that is in range. *)
Lemma on_message_neo_wrapper topic message w w' :
  _mqtt_on_message topic message w = Normal tt w' ->
  _neo_wrapper w' = _neo_wrapper w \/
  exists n, 1 <= n <= max_len (_neo_wrapper w) /\
    _neo_wrapper w' =
      mkNeoWrapper (is_onboard (_neo_wrapper w)) n (max_len (_neo_wrapper w))
        (val_brightness (_neo_wrapper w)).
Proof.
  rewrite on_message_unfold. unfold dispatch. run. unfold logged. fields.
  destruct (String.eqb topic (MQTT_TOPIC_ROOT w +:+ MQTT_TOPIC_LENGTH)).
  { run. destruct (py_int message) as [n|]; run.
    - destruct ((n >=? 1) && (n <=? max_len (_neo_wrapper w))) eqn:E; run;
        intros [= <-]; fields; [right|left; reflexivity].
      exists n. split; [lia | reflexivity].
    - intros [= <-]. left; reflexivity. }
  destruct (String.eqb topic (MQTT_TOPIC_ROOT w +:+ MQTT_TOPIC_BRIGHTNESS)).
  { unfold float_. destruct (py_float message); run; intros [= <-]; left; reflexivity. }
  destruct (String.eqb topic (MQTT_TOPIC_ROOT w +:+ MQTT_TOPIC_SCRIPT_INIT)).
  { run. destruct (newScript message (_init_script w)); run;
      intros [= <-]; left; reflexivity. }
  destruct (String.eqb topic (MQTT_TOPIC_ROOT w +:+ MQTT_TOPIC_SCRIPT_EVENT)).
  { run. destruct (newScript message (_event_script w)); run;
      intros [= <-]; left; reflexivity. }
  destruct (String.eqb topic (MQTT_TOPIC_ROOT w +:+ MQTT_TOPIC_EVENT_TRIGGER)).
  { run. destruct (bool_decide (_last_trigger w = Some message)); run;
      intros [= <-]; left; reflexivity. }
  intros [= <-]. left; reflexivity.
Qed.

(** C4 (confirmed).  A message on the length topic whose payload reads
    as an integer [n] with [1 <= n <= max_len] sets the active length to
    [n]; a payload that reads as an integer outside that range, or does
    not read as an integer, leaves the state as it was; [max_len] never
    changes, and no message on any topic breaks [len <= max_len]. *)
Theorem length_message_sets_length_in_range (message : string) (w : World) :
  exists w',
    _mqtt_on_message (MQTT_TOPIC_ROOT w +:+ MQTT_TOPIC_LENGTH) message w = Normal tt w' /\
    max_len (_neo_wrapper w') = max_len (_neo_wrapper w) /\
    (forall n, py_int message = Some n ->
       1 <= n <= max_len (_neo_wrapper w) -> len (_neo_wrapper w') = n) /\
    (forall n, py_int message = Some n ->
       ~ (1 <= n <= max_len (_neo_wrapper w)) -> unchanged w w') /\
    (py_int message = None -> unchanged w w') /\
    (forall topic' message' w1 w2,
       _mqtt_on_message topic' message' w1 = Normal tt w2 ->
       len (_neo_wrapper w1) <= max_len (_neo_wrapper w1) ->
       len (_neo_wrapper w2) <= max_len (_neo_wrapper w2)).
Proof.
  eexists. split; [apply on_message_length|].
  split; [|split; [|split; [|split]]].
  - destruct (py_int message) as [n|];
      [destruct ((n >=? 1) && (n <=? max_len (_neo_wrapper w)))|]; reflexivity.
  - intros n Hn Hr. rewrite Hn.
    replace ((n >=? 1) && (n <=? max_len (_neo_wrapper w))) with true
      by (symmetry; apply andb_true_iff; lia).
    reflexivity.
  - intros n Hn Hr. rewrite Hn.
    replace ((n >=? 1) && (n <=? max_len (_neo_wrapper w))) with false
      by (symmetry; apply andb_false_iff; lia).
    apply unchanged_logged.
  - intros Hn. rewrite Hn. apply unchanged_logged.
  - intros topic' message' w1 w2 Hrun Hinv.
    destruct (on_message_neo_wrapper _ _ _ _ Hrun) as [-> | (n & Hn & ->)];
      [exact Hinv | cbn; lia].
Qed.

(** C5 (confirmed).  Whatever the topic and the payload, the handler
    returns: it neither raises nor hangs.  When the dispatch raises, the
    world after the handler is the world before it but for the trace,
    whose last line reports the failure.  A payload that is no integer
    on the length topic and a script the executor rejects on the
    init-script topic are such failures.  A whole batch of messages is
    always processed to its end. *)
Theorem dispatch_failures_are_contained (topic message : string) (w : World) :
  (exists w',
     _mqtt_on_message topic message w = Normal tt w' /\
     forall e w1,
       dispatch topic message (logged [announce topic message] w) = Raised e w1 ->
       unchanged w w' /\
       exists t, trace w' = t ++ [failure topic message e]) /\
  (py_int message = None ->
   exists e,
     dispatch (MQTT_TOPIC_ROOT w +:+ MQTT_TOPIC_LENGTH) message w = Raised e w) /\
  (forall e, newScript message (_init_script w) = inr e ->
   exists w1,
     dispatch (MQTT_TOPIC_ROOT w +:+ MQTT_TOPIC_SCRIPT_INIT) message w = Raised e w1) /\
  (forall msgs, exists w', deliver msgs w = Normal tt w').
Proof.
  split; [|split; [|split]].
  - rewrite on_message_unfold.
    destruct (dispatch_outcome topic message (logged [announce topic message] w))
      as [(w' & H) | (e & w' & H & Hu)]; rewrite H.
    + exists w'. split; [reflexivity | discriminate].
    + eexists. split; [reflexivity|]. intros e' w1 [= <- <-]. split.
      * eapply unchanged_trans; [apply unchanged_logged|].
        eapply unchanged_trans; [exact Hu | apply unchanged_logged].
      * eexists. reflexivity.
  - intros Hn. rewrite dispatch_length, Hn. eauto.
  - intros e He. unfold dispatch. run. topics. run. rewrite He. run. eauto.
  - intros msgs. apply deliver_normal.
Qed.

(** C9 (confirmed).  A message whose topic is none of the five topics
    under the root changes nothing but the trace, which gains the line
    announcing the message: length, brightness, both scripts and the
    last trigger payload are as before. *)
Theorem unknown_topic_changes_nothing (topic message : string) (w : World)
  (Hlength : topic <> MQTT_TOPIC_ROOT w +:+ MQTT_TOPIC_LENGTH)
  (Hbrightness : topic <> MQTT_TOPIC_ROOT w +:+ MQTT_TOPIC_BRIGHTNESS)
  (Hinit : topic <> MQTT_TOPIC_ROOT w +:+ MQTT_TOPIC_SCRIPT_INIT)
  (Hevent : topic <> MQTT_TOPIC_ROOT w +:+ MQTT_TOPIC_SCRIPT_EVENT)
  (Htrigger : topic <> MQTT_TOPIC_ROOT w +:+ MQTT_TOPIC_EVENT_TRIGGER) :
  exists w',
    _mqtt_on_message topic message w = Normal tt w' /\
    w' = logged [announce topic message] w /\
    len (_neo_wrapper w') = len (_neo_wrapper w) /\
    val_brightness (_neo_wrapper w') = val_brightness (_neo_wrapper w) /\
    _init_script w' = _init_script w /\
    _event_script w' = _event_script w /\
    _last_trigger w' = _last_trigger w.
Proof.
  exists (logged [announce topic message] w).
  split; [|repeat split].
  rewrite on_message_unfold, dispatch_other by assumption.
  reflexivity.
Qed.

(** ** Frame reasoning *)

Lemma pres_weaken {A : Type} (R R' : World -> World -> Prop) (m : M A) :
  (forall w w', R w w' -> R' w w') -> pres R m -> pres R' m.
Proof.
  intros Hsub Hm w. specialize (Hm w). destruct (m w); auto.
Qed.

(** Sequencing a step in [R1] with one in [R2]. *)
Lemma pres_seq {A B : Type} (R1 R2 R3 : World -> World -> Prop)
  (m : M A) (k : A -> M B) :
  (forall w w', R1 w w' -> R3 w w') ->
  (forall w1 w2 w3, R1 w1 w2 -> R2 w2 w3 -> R3 w1 w3) ->
  pres R1 m -> (forall a, pres R2 (k a)) -> pres R3 (bind m k).
Proof.
  intros Hsub Hcomp Hm Hk w. unfold bind. specialize (Hm w).
  destruct (m w) as [a w1|e w1|]; [|auto|exact I].
  specialize (Hk a w1). destruct (k a w1); eauto.
Qed.

Lemma pres_handle {A : Type} (R1 R2 R3 : World -> World -> Prop)
  (m : M A) (c : exn -> bool) (h : exn -> M A) :
  (forall w w', R1 w w' -> R3 w w') ->
  (forall w1 w2 w3, R1 w1 w2 -> R2 w2 w3 -> R3 w1 w3) ->
  pres R1 m -> (forall e, pres R2 (h e)) -> pres R3 (try_except m c h).
Proof.
  intros Hsub Hcomp Hm Hh w. unfold try_except. specialize (Hm w).
  destruct (m w) as [a w1|e w1|]; [auto| |exact I].
  destruct (c e); [|auto].
  specialize (Hh e w1). destruct (h e w1); eauto.
Qed.

Section Pres.

Variable R : World -> World -> Prop.
Hypothesis R_refl : forall w, R w w.
Hypothesis R_trans : forall w1 w2 w3, R w1 w2 -> R w2 w3 -> R w1 w3.

Lemma pres_ret {A : Type} (a : A) : pres R (ret a).
Proof. intros w. apply R_refl. Qed.

Lemma pres_raise {A : Type} (e : exn) : pres R (@raise _ A e).
Proof. intros w. apply R_refl. Qed.

Lemma pres_get {A : Type} (f : World -> A) : pres R (get f).
Proof. intros w. apply R_refl. Qed.

Lemma pres_diverged {A : Type} : pres R (fun _ => @Diverged _ A).
Proof. intros w. exact I. Qed.

Lemma pres_modify (f : World -> World) : (forall w, R w (f w)) -> pres R (modify f).
Proof. intros H w. apply H. Qed.

Lemma pres_bind {A B : Type} (m : M A) (k : A -> M B) :
  pres R m -> (forall a, pres R (k a)) -> pres R (bind m k).
Proof. apply pres_seq; auto. Qed.

Lemma pres_try {A : Type} (m : M A) (c : exn -> bool) (h : exn -> M A) :
  pres R m -> (forall e, pres R (h e)) -> pres R (try_except m c h).
Proof. apply pres_handle; auto. Qed.

End Pres.

Lemma connects_app t1 t2 : connects (t1 ++ t2) = connects t1 ++ connects t2.
Proof. apply omap_app. Qed.

Lemma quiet_refl w : quiet w w.
Proof.
  split; [reflexivity|]; split; [reflexivity|]; split; [reflexivity|];
  split; [lia|].
  exists []. split; [symmetry; apply app_nil_r | reflexivity].
Qed.

Lemma quiet_trans w1 w2 w3 : quiet w1 w2 -> quiet w2 w3 -> quiet w1 w3.
Proof.
  intros (Hp & Hd & Ht & Hc & ext & He & Hn) (Hp' & Hd' & Ht' & Hc' & ext' & He' & Hn').
  split; [congruence|]; split; [congruence|]; split; [congruence|];
  split; [lia|].
  exists (ext ++ ext'). split.
  - rewrite He', He, app_assoc. reflexivity.
  - rewrite connects_app, Hn, Hn'. reflexivity.
Qed.

(** [quiet] across the update of a field it does not mention. *)
Ltac quiet_field :=
  intros; unfold quiet; fields;
  split; [reflexivity|]; split; [reflexivity|]; split; [reflexivity|];
  split; [lia|];
  exists []; split; [symmetry; apply app_nil_r | reflexivity].

Lemma quiet_emit e : connect_time e = None -> pres quiet (emit e).
Proof.
  intros He w. cbn [emit modify]. unfold quiet. fields.
  split; [reflexivity|]; split; [reflexivity|]; split; [reflexivity|];
  split; [lia|].
  exists [e]. split; [reflexivity|]. unfold connects. cbn. rewrite He. reflexivity.
Qed.

Lemma quiet_print line : pres quiet (print line).
Proof. apply quiet_emit. reflexivity. Qed.

Lemma quiet_elapse ms : 0 <= ms -> pres quiet (elapse ms).
Proof. intros H w. cbn. quiet_field. Qed.

Lemma quiet_next_io : pres quiet next_io.
Proof. intros w. cbn. quiet_field. Qed.

Lemma quiet_library_time k : pres quiet (library_time env k).
Proof. apply quiet_elapse. lia. Qed.

Create HintDb quiet.
#[local] Hint Resolve quiet_print quiet_next_io quiet_library_time : quiet.

(** [pres quiet m], by the structure of [m]. *)
Ltac quiet_step :=
  first
    [ solve [auto with quiet]
    | apply (pres_ret quiet quiet_refl)
    | apply (pres_raise quiet quiet_refl)
    | apply (pres_get quiet quiet_refl)
    | apply (pres_diverged quiet)
    | apply (pres_bind quiet quiet_trans); [ | intros ]
    | apply (pres_try quiet quiet_trans); [ | intros ]
    | apply (pres_modify quiet); solve [quiet_field]
    | apply quiet_emit; reflexivity
    | apply quiet_elapse; lia
    | match goal with
      | |- pres _ (if ?b then _ else _) => destruct b
      | |- pres _ (match ?x with _ => _ end) => destruct x
      end ].

Ltac quiet_auto := repeat quiet_step.

Lemma quiet_led_fill c : pres quiet (led_fill c).
Proof. unfold led_fill. quiet_auto. Qed.

Lemma quiet_led_brightness v : pres quiet (led_brightness v).
Proof. unfold led_brightness. quiet_auto. Qed.

Lemma quiet_boot_btn_value : pres quiet (boot_btn_value env).
Proof. unfold boot_btn_value. quiet_auto. Qed.

#[local] Hint Resolve quiet_led_fill quiet_led_brightness quiet_boot_btn_value : quiet.

Lemma quiet_blink_error_while fuel : forall num_loop,
  pres quiet (blink_error_while env fuel num_loop).
Proof.
  induction fuel as [|fuel IH]; intros num_loop; cbn [blink_error_while].
  - quiet_auto.
  - unfold time_sleep. quiet_auto.
Qed.

#[local] Hint Resolve quiet_blink_error_while : quiet.

Lemma quiet_blink_error fuel code num_loop :
  pres quiet (blink_error env fuel code num_loop).
Proof. unfold blink_error, col_led_error, time_sleep. quiet_auto. Qed.

Lemma quiet_time_time : pres quiet time_time.
Proof. unfold time_time. quiet_auto. Qed.

#[local] Hint Resolve quiet_blink_error quiet_time_time : quiet.

Lemma quiet_blink : pres quiet blink.
Proof. unfold blink. quiet_auto. Qed.

#[local] Hint Resolve quiet_blink : quiet.

Lemma quiet_on_connected fuel : pres quiet (_mqtt_on_connected env fuel).
Proof. unfold _mqtt_on_connected. quiet_auto. Qed.

#[local] Hint Resolve quiet_on_connected : quiet.

Lemma quiet_mqtt_reconnect fuel : pres quiet (mqtt_reconnect env fuel).
Proof. unfold mqtt_reconnect. quiet_auto. Qed.

Lemma quiet_neo_wrapper_brightness v : pres quiet (neo_wrapper_brightness v).
Proof.
  unfold neo_wrapper_brightness, OnboardNeoWrapper_brightness, NeoWrapper_brightness,
    set_val_brightness.
  quiet_auto.
Qed.

#[local] Hint Resolve quiet_mqtt_reconnect quiet_neo_wrapper_brightness : quiet.

Lemma quiet_dispatch topic message : pres quiet (dispatch topic message).
Proof.
  unfold dispatch, int_, float_, load_value, set_len. quiet_auto.
Qed.

#[local] Hint Resolve quiet_dispatch : quiet.

Lemma quiet_on_message topic message : pres quiet (_mqtt_on_message topic message).
Proof. unfold _mqtt_on_message. quiet_auto. Qed.

#[local] Hint Resolve quiet_on_message : quiet.

Lemma quiet_deliver msgs : pres quiet (deliver msgs).
Proof.
  induction msgs as [|[topic message] rest IH]; cbn [deliver]; quiet_auto.
Qed.

#[local] Hint Resolve quiet_deliver : quiet.

Lemma quiet_mqtt_loop : pres quiet (mqtt_loop env).
Proof. unfold mqtt_loop. quiet_auto. Qed.

Lemma quiet_init_script_loop : pres quiet init_script_loop.
Proof. unfold init_script_loop. quiet_auto. Qed.

Lemma quiet_event_script_loop : pres quiet event_script_loop.
Proof. unfold event_script_loop. quiet_auto. Qed.

#[local] Hint Resolve quiet_mqtt_loop quiet_init_script_loop quiet_event_script_loop : quiet.

(** ** The retry timer *)

Lemma spaced_snoc gap l t :
  spaced gap (l ++ [t]) = spaced gap l && forallb (fun u => gap <? t - u) l.
Proof.
  induction l as [|a l IH]; cbn [spaced app forallb].
  - reflexivity.
  - rewrite IH, forallb_app. cbn [forallb].
    destruct (forallb (fun u => gap <? u - a) l), (gap <? t - a), (spaced gap l),
      (forallb (fun u => gap <? t - u) l); reflexivity.
Qed.

Lemma quiet_loud w w' : quiet w w' -> loud w w'.
Proof.
  intros (Hp & Hd & Ht & Hc & ext & He & Hn).
  split; [assumption|]; split; [assumption|]; split; [assumption|];
  split; [assumption|]. exists ext. auto.
Qed.

Lemma quiet_then_loud w1 w2 w3 : quiet w1 w2 -> loud w2 w3 -> loud w1 w3.
Proof.
  intros (Hp & Hd & Ht & Hc & ext & He & Hn) (Hp' & Hd' & Ht' & Hc' & ext' & He' & Hn').
  split; [congruence|]; split; [congruence|]; split; [congruence|];
  split; [lia|].
  exists (ext ++ ext'). split.
  - rewrite He', He, app_assoc. reflexivity.
  - rewrite connects_app, Hn. cbn [app].
    destruct Hn' as [Hn'|(t & Hn' & Hb)]; [left; assumption|].
    right. exists t. split; [assumption | lia].
Qed.

Lemma loud_then_quiet w1 w2 w3 : loud w1 w2 -> quiet w2 w3 -> loud w1 w3.
Proof.
  intros (Hp & Hd & Ht & Hc & ext & He & Hn) (Hp' & Hd' & Ht' & Hc' & ext' & He' & Hn').
  split; [congruence|]; split; [congruence|]; split; [congruence|];
  split; [lia|].
  exists (ext ++ ext'). split.
  - rewrite He', He, app_assoc. reflexivity.
  - rewrite connects_app, Hn', app_nil_r.
    destruct Hn as [Hn|(t & Hn & Hb)]; [left; assumption|].
    right. exists t. split; [assumption | lia].
Qed.

(** Running the monadic primitives. *)
Ltac step := cbn [bind get modify print emit try_except ret raise next_io library_time elapse
  time_time time_monotonic time_sleep Exception
  NEO_LEN NEO_STRIP_PIN NEO_DONT_BLINK MQTT_TOPIC_ROOT _led strip _neo_wrapper
  _init_script _event_script _mqtt _last_trigger _mqtt_retry_ts _last_blink_ts _next_blink clock io trace
  set_NEO_LEN set_NEO_STRIP_PIN set_NEO_DONT_BLINK set_MQTT_TOPIC_ROOT set_led set_strip set_neo_wrapper
  set_init_script set_event_script set_mqtt set_last_trigger set_mqtt_retry_ts set_last_blink_ts
  set_next_blink set_clock set_io set_trace
  is_onboard len max_len val_brightness filled brightness].

Lemma loud_mqtt_connect fuel : pres loud (mqtt_connect env fuel).
Proof.
  intros w. unfold mqtt_connect. step.
  assert (H2 : loud w
    (elapsed (Z.of_N (latency env (io w)))
       (logged [EvMqttConnect (clock w)] (set_io (S (io w)) w)))).
  { unfold loud, elapsed, logged. fields.
    split; [reflexivity|]; split; [reflexivity|]; split; [reflexivity|];
    split; [lia|].
    eexists. split; [reflexivity|]. right. exists (clock w).
    split; [reflexivity | lia]. }
  unfold elapsed, logged in H2. fields.
  destruct (broker_connect env (io w)).
  - match goal with
    | |- match _mqtt_on_connected env fuel ?w2 with _ => _ end =>
        pose proof (quiet_on_connected fuel w2) as H3;
        destruct (_mqtt_on_connected env fuel w2)
    end; try exact I; eapply loud_then_quiet; eauto.
  - exact H2.
Qed.

Lemma loud_init_mqtt fuel : pres loud (init_mqtt env fuel).
Proof.
  unfold init_mqtt.
  destruct (negb (truthy (os_getenv env "MQTT_BROKER_IP"))).
  { apply (pres_weaken quiet loud _ quiet_loud). quiet_auto. }
  apply (pres_seq quiet loud loud _ _ quiet_loud quiet_then_loud).
  { unfold int_. quiet_auto. }
  intros port.
  apply (pres_seq quiet loud loud _ _ quiet_loud quiet_then_loud); [quiet_auto|].
  intros _.
  apply (pres_seq quiet loud loud _ _ quiet_loud quiet_then_loud); [quiet_auto|].
  intros _.
  apply (pres_handle loud quiet loud _ _ _ (fun _ _ H => H) loud_then_quiet).
  - apply (pres_seq quiet loud loud _ _ quiet_loud quiet_then_loud); [quiet_auto|].
    intros _. apply loud_mqtt_connect.
  - intros e. quiet_auto.
Qed.

Lemma keeps_refl w0 w : keeps_retry_inv w0 w w.
Proof. intros H; exact H. Qed.

Lemma keeps_trans w0 w1 w2 w3 :
  keeps_retry_inv w0 w1 w2 -> keeps_retry_inv w0 w2 w3 -> keeps_retry_inv w0 w1 w3.
Proof. unfold keeps_retry_inv. auto. Qed.

Lemma quiet_keeps w0 w w' : quiet w w' -> keeps_retry_inv w0 w w'.
Proof.
  intros (_ & _ & Ht & _ & ext & He & Hn) (new & Hnew & Hs & Hf).
  exists (new ++ ext). split; [|split].
  - rewrite He, Hnew, app_assoc. reflexivity.
  - rewrite connects_app, Hn, app_nil_r. exact Hs.
  - rewrite connects_app, Hn, app_nil_r, Ht. exact Hf.
Qed.

Lemma div_1000_gap (a b : Z) : a / 1000 + 5 < b / 1000 -> 5000 < b - a.
Proof.
  intros H.
  pose proof (Z.div_mod a 1000 ltac:(lia)).
  pose proof (Z.mod_pos_bound a 1000 ltac:(lia)).
  pose proof (Z.div_mod b 1000 ltac:(lia)).
  pose proof (Z.mod_pos_bound b 1000 ltac:(lia)).
  lia.
Qed.

Lemma pres_on_return {A : Type} (R : World -> World -> Prop) (m : M A) :
  pres R m -> on_return R m.
Proof. intros H w a w' Hr. specialize (H w). rewrite Hr in H. exact H. Qed.

Lemma on_return_bind {A B : Type} (R : World -> World -> Prop)
  (m : M A) (k : A -> M B) :
  (forall w1 w2 w3, R w1 w2 -> R w2 w3 -> R w1 w3) ->
  on_return R m -> (forall a, on_return R (k a)) -> on_return R (bind m k).
Proof.
  intros Htrans Hm Hk w b w' Hr. rewrite bind_unfold in Hr.
  destruct (m w) as [a w1|e w1|] eqn:E; try discriminate.
  eapply Htrans; [eapply Hm; exact E | eapply Hk; exact Hr].
Qed.

Lemma keeps_mqtt_loop w0 fuel : on_return (keeps_retry_inv w0) (_mqtt_loop env fuel).
Proof.
  intros w [] w'. unfold _mqtt_loop. step.
  destruct (_mqtt w).
  - intros [= <-]. apply keeps_refl.
  - step. destruct (clock w / 1000 - _mqtt_retry_ts w >? 5) eqn:Hgate; step;
      [|intros [= <-]; apply keeps_refl].
    rewrite bind_unfold.
    pose proof (loud_init_mqtt fuel w) as Hloud.
    destruct (init_mqtt env fuel w) as [[] w1|e w1|]; try discriminate.
    step. intros [= <-].
    destruct Hloud as (_ & _ & Hts & Hc & ext & He & Hn).
    intros (new & Hnew & Hs & Hf).
    assert (Hold : Forall (fun t => t / 1000 + 5 < clock w / 1000) (connects new)).
    { eapply Forall_impl; [exact Hf|]. cbn beta. intros t Ht. lia. }
    exists (new ++ ext). fields. split; [|split].
    + rewrite He, Hnew, app_assoc. reflexivity.
    + rewrite connects_app.
      destruct Hn as [-> | (t & -> & Hb)]; [rewrite app_nil_r; exact Hs|].
      rewrite spaced_snoc, Hs. cbn [andb].
      apply forallb_forall. intros u Hu. apply Z.ltb_lt.
      rewrite List.Forall_forall in Hold. specialize (Hold u Hu).
      apply div_1000_gap in Hold. lia.
    + rewrite connects_app. apply Forall_app. split.
      * eapply Forall_impl; [exact Hold|]. cbn beta. intros t Ht.
        pose proof (Z.div_le_mono (clock w) (clock w1) 1000 ltac:(lia) Hc). lia.
      * destruct Hn as [-> | (t & -> & Hb)]; [constructor|].
        constructor; [|constructor].
        apply Z.div_le_mono; lia.
  - intros Hr. eapply (pres_on_return (keeps_retry_inv w0)); [|exact Hr].
    apply (pres_weaken quiet _ _ (quiet_keeps w0)). quiet_auto.
Qed.

Lemma keeps_loop_body w0 fuel : on_return (keeps_retry_inv w0) (loop_body env fuel).
Proof.
  assert (Hq : forall A (m : M A), pres quiet m -> on_return (keeps_retry_inv w0) m).
  { intros A m Hm. apply pres_on_return.
    apply (pres_weaken quiet _ _ (quiet_keeps w0)). exact Hm. }
  unfold loop_body, time_monotonic.
  apply (on_return_bind _ _ _ (keeps_trans w0)); [apply Hq; quiet_auto | intros start_ts].
  apply (on_return_bind _ _ _ (keeps_trans w0)); [apply Hq; quiet_auto | intros _].
  apply (on_return_bind _ _ _ (keeps_trans w0)); [apply keeps_mqtt_loop | intros _].
  apply (on_return_bind _ _ _ (keeps_trans w0)); [apply Hq; quiet_auto | intros _].
  apply (on_return_bind _ _ _ (keeps_trans w0)); [apply Hq; quiet_auto | intros _].
  apply (on_return_bind _ _ _ (keeps_trans w0)); [apply Hq; quiet_auto | intros end_ts].
  apply Hq. unfold time_sleep. quiet_auto.
Qed.

Lemma keeps_iterate w0 fuel n :
  on_return (keeps_retry_inv w0) (iterate n (loop_body env fuel)).
Proof.
  induction n as [|n IH]; cbn [iterate].
  - intros w [] w' [= <-]. apply keeps_refl.
  - apply (on_return_bind _ _ _ (keeps_trans w0)); [apply keeps_loop_body|].
    intros _. exact IH.
Qed.

(** C3 (amended).  Over any number of iterations of the main loop, from
    any world and in any environment, every call of [_mqtt.connect()]
    made by the retry branch of [_mqtt_loop] comes more than 5000 ms
    after each of the earlier ones. *)
Theorem retry_attempts_more_than_5s_apart (fuel n : nat) (w w' : World)
  (Hrun : iterate n (loop_body env fuel) w = Normal tt w') :
  exists new,
    trace w' = trace w ++ new /\
    spaced 5000 (connects new) = true.
Proof.
  destruct (keeps_iterate w fuel n w tt w' Hrun) as (new & Hnew & Hs & _).
  - exists []. split; [symmetry; apply app_nil_r|]. split; [reflexivity | constructor].
  - exists new. auto.
Qed.

(** ** The status LED *)

Lemma polls_app t1 t2 : polls (t1 ++ t2) = (polls t1 + polls t2)%nat.
Proof.
  induction t1 as [|e t1 IH]; simpl; [reflexivity|].
  destruct e; simpl; rewrite IH; reflexivity.
Qed.

Lemma alert_loop_done_refl w : alert_loop_done 0 w w.
Proof.
  split; [reflexivity|]. split; [lia|].
  exists []. split; [symmetry; apply app_nil_r | reflexivity].
Qed.

(** One turn of the loop of [blink_error]. *)
Ltac while_step := cbn [blink_error_while bind boot_btn_value next_io emit modify ret
  led_brightness time_sleep elapse
  NEO_LEN NEO_STRIP_PIN NEO_DONT_BLINK MQTT_TOPIC_ROOT _led strip _neo_wrapper
  _init_script _event_script _mqtt _last_trigger _mqtt_retry_ts _last_blink_ts _next_blink clock io trace
  set_led set_clock set_io set_trace filled brightness].

Lemma blink_error_while_bounded fuel : forall num_loop w,
  0 <= num_loop < Z.of_nat fuel ->
  exists w' n,
    blink_error_while env fuel num_loop w = Normal tt w' /\
    (n <= Z.to_nat num_loop)%nat /\
    alert_loop_done n w w'.
Proof.
  induction fuel as [|fuel IH]; intros num_loop w Hn; [lia|].
  while_step.
  destruct (num_loop =? 0) eqn:E0; cbn [negb].
  { exists w, 0%nat. split; [reflexivity|]. split; [lia | apply alert_loop_done_refl]. }
  apply Z.eqb_neq in E0. while_step.
  destruct (boot_btn env (io w)).
  - while_step.
    match goal with
    | |- exists w' n, blink_error_while env fuel (num_loop - 1) ?w1 = _ /\ _ =>
        destruct (IH (num_loop - 1) w1 ltac:(lia)) as (w' & n & Hrun & Hle & Hf & Hc & ext & He & Hp)
    end.
    exists w', (S n). split; [exact Hrun|]. split; [lia|].
    fields.
    split; [exact Hf|]. split; [lia|].
    eexists. split; [rewrite He, <- app_assoc; reflexivity|].
    cbn [app polls]. rewrite Hp. reflexivity.
  - while_step. eexists _, 1%nat. split; [reflexivity|]. split; [lia|].
    split; [reflexivity|]. split; [cbn; lia|].
    eexists. split; [reflexivity | reflexivity].
Qed.

Lemma blink_error_while_blocks fuel : forall num_loop w,
  num_loop < 0 ->
  (forall k, boot_btn env k = true) ->
  blink_error_while env fuel num_loop w = Diverged.
Proof.
  induction fuel as [|fuel IH]; intros num_loop w Hn Hbtn; [reflexivity|].
  while_step.
  destruct (num_loop =? 0) eqn:E0; [lia|]. cbn [negb]. while_step.
  rewrite Hbtn. while_step. apply IH; [lia | exact Hbtn].
Qed.

Lemma blink_error_while_escape k : forall fuel num_loop w,
  num_loop < 0 ->
  (k < fuel)%nat ->
  (forall j, (j < k)%nat -> boot_btn env (io w + j) = true) ->
  boot_btn env (io w + k) = false ->
  exists w',
    blink_error_while env fuel num_loop w = Normal tt w' /\
    alert_loop_done (S k) w w'.
Proof.
  induction k as [|k IH]; intros fuel num_loop w Hn Hfuel Hheld Hpress.
  - destruct fuel as [|fuel]; [lia|]. while_step.
    destruct (num_loop =? 0) eqn:E0; [lia|]. cbn [negb]. while_step.
    rewrite Nat.add_0_r in Hpress. rewrite Hpress. while_step.
    eexists. split; [reflexivity|].
    split; [reflexivity|]. split; [cbn; lia|].
    eexists. split; reflexivity.
  - destruct fuel as [|fuel]; [lia|]. while_step.
    destruct (num_loop =? 0) eqn:E0; [lia|]. cbn [negb]. while_step.
    rewrite <- (Nat.add_0_r (io w)), (Hheld 0%nat) by lia. while_step.
    rewrite Nat.add_0_r.
    match goal with
    | |- exists w', blink_error_while env fuel (num_loop - 1) ?w1 = _ /\ _ =>
        destruct (IH fuel (num_loop - 1) w1) as (w' & Hrun & Hf & Hc & ext & He & Hp)
    end.
    + lia.
    + lia.
    + intros j Hj. fields. rewrite <- (Hheld (S j)) by lia. f_equal. lia.
    + fields. rewrite <- Hpress. f_equal. lia.
    + exists w'. split; [exact Hrun|].
      fields.
      split; [exact Hf|]. split; [lia|].
      eexists. split; [rewrite He, <- app_assoc; reflexivity|].
      cbn [app polls]. rewrite Hp. reflexivity.
Qed.

Lemma blink_error_unfold fuel code num_loop c w :
  COL_LED_ERROR !! code = Some c ->
  blink_error env fuel code num_loop w =
  blink_error_while env fuel num_loop
    (elapsed 500 (set_led (mkNeoPixel c (PFloat 0.1)) w)).
Proof.
  intros Hc. unfold blink_error, col_led_error. rewrite Hc.
  cbn [bind ret led_fill led_brightness modify time_sleep elapse _led filled set_led].
  destruct w; reflexivity.
Qed.

(** C7 (amended).  For an error code of [COL_LED_ERROR]:
    with [num_loop >= 0], [blink_error] returns after at most [num_loop]
    polls of the button, whatever the button does, the LED showing the
    colour of the code, within [500 + 1250 * num_loop] ms;
    with [num_loop < 0] (the default, [-1]) it does not return while the
    button is released, and returns at the first poll that finds it
    pressed. *)
Theorem alert_mode_ends_by_count_or_button
  (fuel : nat) (code : string) (num_loop : Z) (w : World) (c : color)
  (Hcode : COL_LED_ERROR !! code = Some c) :
  (0 <= num_loop < Z.of_nat fuel ->
   exists w' n,
     blink_error env fuel code num_loop w = Normal tt w' /\
     (n <= Z.to_nat num_loop)%nat /\
     filled (_led w') = c /\
     clock w' <= clock w + 500 + 1250 * num_loop /\
     exists ext, trace w' = trace w ++ ext /\ polls ext = n) /\
  (num_loop < 0 ->
   (forall k, boot_btn env k = true) ->
   blink_error env fuel code num_loop w = Diverged) /\
  (num_loop < 0 ->
   forall k, (k < fuel)%nat ->
   (forall j, (j < k)%nat -> boot_btn env (io w + j) = true) ->
   boot_btn env (io w + k) = false ->
   exists w',
     blink_error env fuel code num_loop w = Normal tt w' /\
     filled (_led w') = c /\
     exists ext, trace w' = trace w ++ ext /\ polls ext = S k).
Proof.
  rewrite (blink_error_unfold fuel code num_loop c w Hcode).
  split; [|split].
  - intros Hn.
    destruct (blink_error_while_bounded fuel num_loop
                (elapsed 500 (set_led (mkNeoPixel c (PFloat 0.1)) w)) Hn)
      as (w' & n & Hrun & Hle & Hf & Hc & ext & He & Hp).
    exists w', n. split; [exact Hrun|]. split; [exact Hle|].
    unfold elapsed in Hf, Hc, He. fields.
    split; [exact Hf|]. split; [lia|]. exists ext. auto.
  - intros Hn Hbtn. apply blink_error_while_blocks; assumption.
  - intros Hn k Hk Hheld Hpress.
    destruct (blink_error_while_escape k fuel num_loop
                (elapsed 500 (set_led (mkNeoPixel c (PFloat 0.1)) w)) Hn Hk)
      as (w' & Hrun & Hf & Hc & ext & He & Hp).
    + exact Hheld.
    + exact Hpress.
    + exists w'. split; [exact Hrun|].
      unfold elapsed in Hf, He. fields.
      split; [exact Hf|]. exists ext. auto.
Qed.

Lemma blink_unfold w :
  blink w = Normal tt (if NEO_DONT_BLINK w then w else heartbeat w).
Proof.
  unfold blink, heartbeat, led_brightness. step.
  destruct (NEO_DONT_BLINK w); [reflexivity|].
  step.
  destruct (clock w / 1000 - _last_blink_ts w >? 1); reflexivity.
Qed.

Lemma bind_normal {A B : Type} (m : M A) (k : A -> M B) w b w' :
  bind m k w = Normal b w' ->
  exists a w1, m w = Normal a w1 /\ k a w1 = Normal b w'.
Proof.
  rewrite bind_unfold. destruct (m w) as [a w1|e w1|]; try discriminate. eauto.
Qed.

Lemma quiet_boot_blinks n : forall i, pres quiet (boot_blinks i n).
Proof.
  induction n as [|n IH]; intros i; cbn [boot_blinks]; unfold time_sleep; quiet_auto.
Qed.

Lemma quiet_neo_fill c : pres quiet (neo_fill c).
Proof.
  unfold neo_fill. apply (pres_modify quiet). intros w.
  destruct (is_onboard (_neo_wrapper w)); quiet_field.
Qed.

Lemma quiet_loadFromNVM : pres quiet init_script_loadFromNVM.
Proof. unfold init_script_loadFromNVM. quiet_auto. Qed.

#[local] Hint Resolve quiet_boot_blinks quiet_neo_fill quiet_loadFromNVM : quiet.

Lemma quiet_mqtt_loop_client fuel w :
  _mqtt w <> MqttRetry ->
  match _mqtt_loop env fuel w with
  | Normal _ w' | Raised _ w' => quiet w w'
  | Diverged => True
  end.
Proof.
  intros Hh. unfold _mqtt_loop. step. destruct (_mqtt w); [apply quiet_refl|congruence|].
  match goal with |- match ?m w with _ => _ end => assert (H : pres quiet m) end.
  { quiet_auto. }
  apply H.
Qed.

Lemma mqtt_loop_keeps_flag fuel :
  on_return (fun w w' => NEO_DONT_BLINK w' = NEO_DONT_BLINK w) (_mqtt_loop env fuel).
Proof.
  intros w [] w'. unfold _mqtt_loop. step.
  destruct (_mqtt w) eqn:Hh.
  - intros [= <-]. reflexivity.
  - step. destruct (clock w / 1000 - _mqtt_retry_ts w >? 5); step;
      [|intros [= <-]; reflexivity].
    rewrite bind_unfold.
    pose proof (loud_init_mqtt fuel w) as Hloud.
    destruct (init_mqtt env fuel w) as [[] w1|e w1|]; try discriminate.
    step. intros [= <-]. fields. apply Hloud.
  - intros Hrun.
    pose proof (quiet_mqtt_loop_client fuel w ltac:(congruence)) as Hq.
    unfold _mqtt_loop in Hq. cbn [bind get] in Hq. rewrite Hh in Hq.
    rewrite Hrun in Hq. apply Hq.
Qed.

Lemma loop_body_keeps_flag fuel :
  on_return (fun w w' => NEO_DONT_BLINK w' = NEO_DONT_BLINK w) (loop_body env fuel).
Proof.
  assert (Htrans : forall w1 w2 w3 : World,
            NEO_DONT_BLINK w2 = NEO_DONT_BLINK w1 ->
            NEO_DONT_BLINK w3 = NEO_DONT_BLINK w2 ->
            NEO_DONT_BLINK w3 = NEO_DONT_BLINK w1) by (intros; congruence).
  assert (Hq : forall A (m : M A), pres quiet m ->
            on_return (fun w w' => NEO_DONT_BLINK w' = NEO_DONT_BLINK w) m).
  { intros A m Hm. apply pres_on_return.
    apply (pres_weaken quiet _ _ (fun w w' H => proj1 (proj2 H))). exact Hm. }
  unfold loop_body, time_monotonic.
  apply (on_return_bind _ _ _ Htrans); [apply Hq; quiet_auto | intros start_ts].
  apply (on_return_bind _ _ _ Htrans); [apply Hq; quiet_auto | intros _].
  apply (on_return_bind _ _ _ Htrans); [apply mqtt_loop_keeps_flag | intros _].
  apply (on_return_bind _ _ _ Htrans); [apply Hq; quiet_auto | intros _].
  apply (on_return_bind _ _ _ Htrans); [apply Hq; quiet_auto | intros _].
  apply (on_return_bind _ _ _ Htrans); [apply Hq; quiet_auto | intros end_ts].
  apply Hq. unfold time_sleep. quiet_auto.
Qed.

(** C6 (amended).  While [NEO_DONT_BLINK] is set, [blink()] changes
    nothing at all.  Otherwise it sets the brightness of the status LED
    to [0.1] or to [0], by [_next_blink], leaves its colour, and flips
    [_next_blink] when more than one second (on the clock of whole
    seconds) has passed since the last flip.  [loop()] sets
    [NEO_DONT_BLINK] before its first iteration exactly when the strip
    pin is ["ONBOARD"], and no iteration changes it. *)
Theorem heartbeat_switches_led_between_dim_and_off (w : World) :
  (NEO_DONT_BLINK w = true -> blink w = Normal tt w) /\
  (NEO_DONT_BLINK w = false ->
   exists w',
     blink w = Normal tt w' /\
     brightness (_led w') = (if _next_blink w =? 0 then PInt 0 else PFloat 0.1) /\
     filled (_led w') = filled (_led w) /\
     (clock w / 1000 - _last_blink_ts w > 1 ->
      _next_blink w' = 1 - _next_blink w /\ _last_blink_ts w' = clock w / 1000) /\
     (clock w / 1000 - _last_blink_ts w <= 1 ->
      _next_blink w' = _next_blink w /\ _last_blink_ts w' = _last_blink_ts w)) /\
  (forall w',
     loop_prologue w = Normal tt w' ->
     NEO_DONT_BLINK w' = String.eqb (NEO_STRIP_PIN w) "ONBOARD") /\
  (forall fuel w',
     loop_body env fuel w = Normal tt w' ->
     NEO_DONT_BLINK w' = NEO_DONT_BLINK w).
Proof.
  split; [|split; [|split]].
  - intros Hd. rewrite blink_unfold, Hd. reflexivity.
  - intros Hd. rewrite blink_unfold, Hd. eexists. split; [reflexivity|].
    unfold heartbeat.
    destruct (clock w / 1000 - _last_blink_ts w >? 1) eqn:Hgate; fields;
      (split; [destruct (_next_blink w =? 0); reflexivity|]);
      (split; [reflexivity|]); split; intros; try lia; split; reflexivity.
  - intros w' Hrun. unfold loop_prologue in Hrun.
    apply bind_normal in Hrun as (? & w1 & H1 & Hrun).
    apply bind_normal in Hrun as (c & w2 & H2 & Hrun).
    apply bind_normal in Hrun as (? & w3 & H3 & Hrun).
    apply bind_normal in Hrun as (? & w4 & H4 & Hrun).
    apply bind_normal in Hrun as (? & w5 & H5 & Hrun).
    apply bind_normal in Hrun as (pin & w6 & H6 & Hrun).
    apply bind_normal in Hrun as (? & w7 & H7 & Hrun).
    apply bind_normal in Hrun as (? & w8 & H8 & Hrun).
    assert (Hq : forall A (m : M A) u a v, pres quiet m -> m u = Normal a v -> quiet u v).
    { intros A m u a v Hm Hr. specialize (Hm u). rewrite Hr in Hm. exact Hm. }
    apply (Hq _ _ _ _ _ (quiet_print _)) in H1.
    assert (H2' : quiet w1 w2).
    { unfold col_led_error in H2. destruct (COL_LED_ERROR !! CODE_OK); [|discriminate].
      injection H2 as _ <-. apply quiet_refl. }
    apply (Hq _ _ _ _ _ (quiet_led_fill _)) in H3.
    apply (Hq _ _ _ _ _ (quiet_boot_blinks _ _)) in H4.
    apply (Hq _ _ _ _ _ (quiet_neo_fill _)) in H5.
    injection H6 as <- <-. injection H7 as H7. subst w7.
    apply (Hq _ _ _ _ _ quiet_loadFromNVM) in H8.
    apply (Hq _ _ _ _ _ quiet_blink) in Hrun.
    pose proof (quiet_trans _ _ _ H8 Hrun) as (_ & Hd & _).
    pose proof (quiet_trans _ _ _ (quiet_trans _ _ _ (quiet_trans _ _ _
      (quiet_trans _ _ _ H1 H2') H3) H4) H5) as (Hp & _).
    rewrite Hd. fields. rewrite Hp. reflexivity.
  - intros fuel w' Hrun. exact (loop_body_keeps_flag fuel w tt w' Hrun).
Qed.

Lemma init_script_loop_unfold w :
  init_script_loop w =
  Normal tt (elapsed (Z.of_N (snd (script_loop (_init_script w))))
               (set_init_script (tick (_init_script w)) w)).
Proof.
  unfold init_script_loop, tick, elapsed. rewrite bind_unfold. cbn [get].
  destruct (script_loop (_init_script w)); reflexivity.
Qed.

Lemma event_script_loop_unfold w :
  event_script_loop w =
  Normal tt (elapsed (Z.of_N (snd (script_loop (_event_script w))))
               (set_event_script (tick (_event_script w)) w)).
Proof.
  unfold event_script_loop, tick, elapsed. rewrite bind_unfold. cbn [get].
  destruct (script_loop (_event_script w)); reflexivity.
Qed.

Lemma loop_body_offline fuel w :
  _mqtt w = MqttNone ->
  exists w',
    loop_body env fuel w = Normal tt w' /\
    _mqtt w' = MqttNone /\
    _init_script w' = tick (_init_script w) /\
    _event_script w' = tick (_event_script w).
Proof.
  intros Hm. unfold loop_body, time_monotonic. step.
  rewrite bind_unfold, blink_unfold.
  set (wb := if NEO_DONT_BLINK w then w else heartbeat w).
  assert (Hb : _mqtt wb = MqttNone /\ _init_script wb = _init_script w /\
               _event_script wb = _event_script w).
  { unfold wb, heartbeat.
    destruct (NEO_DONT_BLINK w); [auto|].
    destruct (clock w / 1000 - _last_blink_ts w >? 1); fields; auto. }
  destruct Hb as (Hbm & Hbi & Hbe).
  rewrite bind_unfold. unfold _mqtt_loop at 1. step. rewrite Hbm. step.
  rewrite bind_unfold, init_script_loop_unfold.
  rewrite bind_unfold, event_script_loop_unfold.
  unfold elapsed. step.
  match goal with
  | |- context [if ?c then _ else _] => destruct c
  end; step; eexists; (split; [reflexivity|]); fields; rewrite Hbm, Hbi, Hbe; auto.
Qed.

(** C10 (confirmed).  When the broker host is absent or empty,
    [init_mqtt()] only prints that MQTT is disabled: no client is
    created and [_mqtt] stays as it was.  While [_mqtt] is [None],
    [_mqtt_loop()] returns the world it was given, and every iteration
    of the main loop returns, leaves [_mqtt] at [None] and ticks both
    scripts once. *)
Theorem no_broker_host_disables_networking (fuel : nat) (w : World)
  (Hhost : truthy (os_getenv env "MQTT_BROKER_IP") = false) :
  init_mqtt env fuel w = Normal tt (logged [EvPrint "@@ MQTT: disabled"] w) /\
  (_mqtt w = MqttNone -> _mqtt_loop env fuel w = Normal tt w) /\
  (_mqtt w = MqttNone ->
   forall n, exists w',
     iterate n (loop_body env fuel) w = Normal tt w' /\
     _mqtt w' = MqttNone /\
     _init_script w' = Nat.iter n tick (_init_script w) /\
     _event_script w' = Nat.iter n tick (_event_script w)).
Proof.
  split; [|split].
  - unfold init_mqtt. rewrite Hhost. reflexivity.
  - intros Hm. unfold _mqtt_loop. step. rewrite Hm. reflexivity.
  - intros Hm n. revert w Hm. induction n as [|n IH]; intros w Hm.
    + exists w. cbn. auto.
    + cbn [iterate]. rewrite bind_unfold.
      destruct (loop_body_offline fuel w Hm) as (w1 & Hrun & Hm1 & Hi & He).
      rewrite Hrun. destruct (IH w1 Hm1) as (w' & Hrun' & Hm' & Hi' & He').
      exists w'. split; [exact Hrun'|]. split; [exact Hm'|].
      rewrite Hi', He', Hi, He, !Nat.iter_succ_r. auto.
Qed.

(** ** Failures that end the program, and failures that do not *)

Section Returns.

Variable I : World -> Prop.

Lemma returns_settles {A : Type} (m : M A) : returns I m -> settles I m.
Proof. intros H w Hw. specialize (H w Hw). destruct (m w); tauto. Qed.

Lemma returns_ret {A : Type} (a : A) : returns I (ret a).
Proof. intros w Hw. exact Hw. Qed.

Lemma returns_get {A : Type} (f : World -> A) : returns I (get f).
Proof. intros w Hw. exact Hw. Qed.

Lemma returns_modify (f : World -> World) :
  (forall w, I w -> I (f w)) -> returns I (modify f).
Proof. intros H w Hw. apply H, Hw. Qed.

Lemma settles_raise {A : Type} (e : exn) : settles I (@raise _ A e).
Proof. intros w Hw. exact Hw. Qed.

Lemma returns_bind {A B : Type} (m : M A) (k : A -> M B) :
  returns I m -> (forall a, returns I (k a)) -> returns I (bind m k).
Proof.
  intros Hm Hk w Hw. rewrite bind_unfold. specialize (Hm w Hw).
  destruct (m w) as [a w1|e w1|]; try contradiction. apply Hk, Hm.
Qed.

Lemma settles_bind {A B : Type} (m : M A) (k : A -> M B) :
  settles I m -> (forall a, settles I (k a)) -> settles I (bind m k).
Proof.
  intros Hm Hk w Hw. rewrite bind_unfold. specialize (Hm w Hw).
  destruct (m w) as [a w1|e w1|]; try contradiction; [apply Hk, Hm | exact Hm].
Qed.

Lemma returns_try {A : Type} (m : M A) (h : exn -> M A) :
  settles I m -> (forall e, returns I (h e)) -> returns I (try_except m Exception h).
Proof.
  intros Hm Hh w Hw. unfold try_except. specialize (Hm w Hw).
  destruct (m w) as [a w1|e w1|]; try contradiction; [exact Hm|].
  cbn [Exception]. apply Hh, Hm.
Qed.

End Returns.

(** [live] across the update of a field other than [_mqtt]. *)
Ltac live_field :=
  intros; unfold live in *; fields;
  first [ assumption | discriminate | (intros; assumption) | auto ].

Create HintDb live.

(** [returns (live env) m] and [settles (live env) m], by the structure
    of [m]. *)
Ltac live_step :=
  first
    [ solve [auto with live]
    | solve [apply (returns_settles (live env)); auto with live]
    | apply (returns_ret (live env))
    | apply (returns_get (live env))
    | apply (settles_raise (live env))
    | apply (returns_bind (live env)); [ | intros ]
    | apply (returns_try (live env)); [ | intros ]
    | apply (returns_modify (live env)); solve [live_field]
    | match goal with
      | |- returns _ (if ?b then _ else _) => destruct b
      | |- returns _ (match ?x with _ => _ end) => destruct x
      | |- settles _ (if ?b then _ else _) => destruct b
      | |- settles _ (match ?x with _ => _ end) => destruct x
      end
    | apply (settles_bind (live env)); [ | intros ]
    | apply (returns_settles (live env)) ].

Ltac live_auto := repeat live_step.

Lemma returns_emit e : returns (live env) (emit e).
Proof. unfold emit. live_auto. Qed.

Lemma returns_print line : returns (live env) (print line).
Proof. apply returns_emit. Qed.

Lemma returns_elapse ms : returns (live env) (elapse ms).
Proof. unfold elapse. live_auto. Qed.

Lemma returns_next_io : returns (live env) next_io.
Proof. intros w Hw. cbn. live_field. Qed.

#[local] Hint Resolve returns_emit returns_print returns_elapse returns_next_io : live.

Lemma returns_led_fill c : returns (live env) (led_fill c).
Proof. unfold led_fill. live_auto. Qed.

Lemma returns_led_brightness v : returns (live env) (led_brightness v).
Proof. unfold led_brightness. live_auto. Qed.

Lemma returns_boot_btn_value : returns (live env) (boot_btn_value env).
Proof. unfold boot_btn_value. live_auto. Qed.

#[local] Hint Resolve returns_led_fill returns_led_brightness returns_boot_btn_value : live.

Lemma returns_blink_error_while fuel : forall num_loop,
  0 <= num_loop < Z.of_nat fuel ->
  returns (live env) (blink_error_while env fuel num_loop).
Proof.
  induction fuel as [|fuel IH]; intros num_loop Hn; [lia|].
  cbn [blink_error_while]. unfold time_sleep.
  destruct (num_loop =? 0) eqn:E0; cbn [negb]; [live_auto|].
  apply Z.eqb_neq in E0.
  apply (returns_bind (live env)); [live_auto|]. intros released.
  destruct released; [|live_auto].
  repeat (apply (returns_bind (live env)); [live_auto | intros _]).
  apply IH. lia.
Qed.

Lemma returns_blink_error fuel code num_loop c :
  COL_LED_ERROR !! code = Some c ->
  0 <= num_loop < Z.of_nat fuel ->
  returns (live env) (blink_error env fuel code num_loop).
Proof.
  intros Hc Hn. unfold blink_error, col_led_error, time_sleep. rewrite Hc.
  repeat (apply (returns_bind (live env)); [live_auto | intros ?]).
  apply returns_blink_error_while. exact Hn.
Qed.

Lemma returns_blink : returns (live env) blink.
Proof. unfold blink, time_time. live_auto. Qed.

#[local] Hint Resolve returns_blink : live.

Section Fuelled.

Variable fuel : nat.
Hypothesis Hfuel : (4 <= fuel)%nat.

Lemma returns_alert code num_loop c :
  COL_LED_ERROR !! code = Some c ->
  0 <= num_loop <= 3 ->
  returns (live env) (blink_error env fuel code num_loop).
Proof. intros Hc Hn. eapply returns_blink_error; [exact Hc | lia]. Qed.

Lemma returns_alert_ok : returns (live env) (blink_error env fuel CODE_OK 0).
Proof. eapply returns_alert; [reflexivity | lia]. Qed.

Lemma returns_alert_retry : returns (live env) (blink_error env fuel CODE_MQTT_RETRY 1).
Proof. eapply returns_alert; [reflexivity | lia]. Qed.

Lemma returns_alert_failed2 : returns (live env) (blink_error env fuel CODE_MQTT_FAILED 2).
Proof. eapply returns_alert; [reflexivity | lia]. Qed.

Lemma returns_alert_failed3 : returns (live env) (blink_error env fuel CODE_MQTT_FAILED 3).
Proof. eapply returns_alert; [reflexivity | lia]. Qed.

#[local] Hint Resolve returns_alert_ok returns_alert_retry returns_alert_failed2
  returns_alert_failed3 : live.

Lemma returns_on_connected : returns (live env) (_mqtt_on_connected env fuel).
Proof. unfold _mqtt_on_connected. live_auto. Qed.

#[local] Hint Resolve returns_on_connected : live.

Lemma settles_mqtt_connect : settles (live env) (mqtt_connect env fuel).
Proof. unfold mqtt_connect, library_time. live_auto. Qed.

Lemma settles_mqtt_reconnect : settles (live env) (mqtt_reconnect env fuel).
Proof. unfold mqtt_reconnect, library_time. live_auto. Qed.

#[local] Hint Resolve settles_mqtt_connect settles_mqtt_reconnect : live.

Lemma settles_dispatch topic message : settles (live env) (dispatch topic message).
Proof.
  unfold dispatch, int_, float_, load_value, set_len, neo_wrapper_brightness,
    OnboardNeoWrapper_brightness, NeoWrapper_brightness, set_val_brightness.
  live_auto.
Qed.

#[local] Hint Resolve settles_dispatch : live.

Lemma returns_on_message topic message : returns (live env) (_mqtt_on_message topic message).
Proof. unfold _mqtt_on_message. live_auto. Qed.

#[local] Hint Resolve returns_on_message : live.

Lemma returns_deliver msgs : returns (live env) (deliver msgs).
Proof. induction msgs as [|[topic message] rest IH]; cbn [deliver]; live_auto. Qed.

#[local] Hint Resolve returns_deliver : live.

Lemma settles_mqtt_loop : settles (live env) (mqtt_loop env).
Proof. unfold mqtt_loop, library_time. live_auto. Qed.

#[local] Hint Resolve settles_mqtt_loop : live.

Lemma returns_init_mqtt : is_Some (broker_port env) -> returns (live env) (init_mqtt env fuel).
Proof.
  intros Hport. unfold init_mqtt.
  destruct (negb (truthy (os_getenv env "MQTT_BROKER_IP"))); [live_auto|].
  assert (Hany : forall w, (live env) w) by (intros w _; exact Hport).
  unfold broker_port in Hport. unfold int_.
  destruct (os_getenv env "MQTT_BROKER_PORT") as [s|]; [|destruct Hport; discriminate].
  destruct (py_int s) as [p|]; [|destruct Hport; discriminate].
  assert (Hret : returns (live env) (modify (set_mqtt MqttRetry))).
  { intros w _. apply Hany. }
  assert (Hcl : returns (live env) (modify (set_mqtt MqttClient))).
  { intros w _. apply Hany. }
  live_auto.
Qed.

Lemma settles_init_mqtt : settles (live env) (init_mqtt env fuel).
Proof.
  destruct (broker_port env) as [p|] eqn:Hport.
  - apply returns_settles. apply returns_init_mqtt. rewrite Hport. eauto.
  - unfold init_mqtt.
    destruct (negb (truthy (os_getenv env "MQTT_BROKER_IP"))); [live_auto|].
    unfold broker_port in Hport. unfold int_.
    destruct (os_getenv env "MQTT_BROKER_PORT") as [s|].
    + rewrite Hport. intros w Hw. exact Hw.
    + intros w Hw. exact Hw.
Qed.

Lemma returns_mqtt_loop : returns (live env) (_mqtt_loop env fuel).
Proof.
  intros w Hw. unfold _mqtt_loop. step.
  destruct (_mqtt w) eqn:Hh.
  - exact Hw.
  - step. destruct (clock w / 1000 - _mqtt_retry_ts w >? 5); [|exact Hw].
    assert (H : returns (live env)
      (bind (init_mqtt env fuel)
         (fun _ => bind time_time (fun now' => modify (set_mqtt_retry_ts now'))))).
    { apply (returns_bind (live env)); [apply returns_init_mqtt, Hw, Hh|].
      intros _. unfold time_time. live_auto. }
    apply H, Hw.
  - match goal with |- match ?m w with _ => _ end => assert (H : returns (live env) m) end.
    { live_auto. }
    apply H, Hw.
Qed.

Lemma returns_loop_body : returns (live env) (loop_body env fuel).
Proof.
  unfold loop_body, time_monotonic.
  apply (returns_bind (live env)); [live_auto | intros start_ts].
  apply (returns_bind (live env)); [live_auto | intros _].
  apply (returns_bind (live env)); [apply returns_mqtt_loop | intros _].
  unfold init_script_loop, event_script_loop, time_sleep. live_auto.
Qed.

Lemma returns_iterate n : returns (live env) (iterate n (loop_body env fuel)).
Proof.
  induction n as [|n IH]; cbn [iterate]; [live_auto|].
  apply (returns_bind (live env)); [apply returns_loop_body | intros _; exact IH].
Qed.

Lemma returns_boot_blinks n : forall i, returns (live env) (boot_blinks i n).
Proof.
  induction n as [|n IH]; intros i; cbn [boot_blinks]; unfold time_sleep; live_auto.
Qed.

Lemma returns_loop_prologue : returns (live env) loop_prologue.
Proof.
  unfold loop_prologue, col_led_error.
  change (COL_LED_ERROR !! CODE_OK) with (Some COL_GREEN).
  pose proof returns_boot_blinks.
  unfold neo_fill, init_script_loadFromNVM. live_auto.
  apply (returns_modify (live env)). intros w Hw.
  destruct (is_onboard (_neo_wrapper w)); live_field.
Qed.

Lemma returns_loop n : returns (live env) (loop env fuel n).
Proof.
  unfold loop. apply (returns_bind (live env)); [apply returns_loop_prologue|].
  intros _. apply returns_iterate.
Qed.

End Fuelled.

Lemma blink_error_while_unbounded fuel : forall num_loop w w',
  num_loop < 0 ->
  blink_error_while env fuel num_loop w = Normal tt w' ->
  filled (_led w') = filled (_led w) /\
  exists ext, trace w' = trace w ++ ext /\ (1 <= polls ext)%nat.
Proof.
  induction fuel as [|fuel IH]; intros num_loop w w' Hn; [discriminate|].
  while_step.
  destruct (num_loop =? 0) eqn:E0; [lia|]. cbn [negb]. while_step.
  destruct (boot_btn env (io w)).
  - while_step. intros Hrun.
    apply IH in Hrun as (Hf & ext & He & Hp); [|lia]. fields.
    split; [exact Hf|].
    eexists. split; [rewrite He, <- app_assoc; reflexivity|].
    cbn [app polls]. lia.
  - while_step. intros [= <-]. fields. split; [reflexivity|].
    eexists. split; [reflexivity|]. cbn. lia.
Qed.

Lemma blink_error_while_never_raises fuel : forall num_loop w e w',
  blink_error_while env fuel num_loop w = Raised e w' -> False.
Proof.
  induction fuel as [|fuel IH]; intros num_loop w e w'; [discriminate|].
  while_step. destruct (negb (num_loop =? 0)); [|discriminate].
  while_step. destruct (boot_btn env (io w)); [|discriminate].
  while_step. apply IH.
Qed.

(** C8 (amended).  Without an SSID, [init_wifi()] raises [ValueError]
    at once: the LED, the clock and the button are not touched.  When
    the association raises [ConnectionError], [init_wifi()] flashes the
    WiFi colour and polls the button, and then either blocks there or
    re-raises the error: it never returns.  A broker failure is never
    fatal: [init_mqtt()] raises only when the port setting cannot be
    read, and from then on [loop()] runs any number of iterations
    without raising, whatever the broker and the button do. *)
Theorem startup_link_failures_are_fatal_broker_failures_are_not
  (fuel n : nat) (w : World) :
  (os_getenv env "CIRCUITPY_WIFI_SSID" = None ->
   exists w',
     init_wifi env fuel w = Raised ssid_missing w' /\
     unchanged w w' /\
     polls (trace w') = polls (trace w)) /\
  (is_Some (os_getenv env "CIRCUITPY_WIFI_SSID") ->
   radio_connect env = Some ConnectionError ->
   match init_wifi env fuel w with
   | Normal _ _ => False
   | Raised e w' =>
       e = ConnectionError /\
       filled (_led w') = COL_PURPLE /\
       (polls (trace w) < polls (trace w'))%nat
   | Diverged => True
   end) /\
  ((4 <= fuel)%nat -> (live env) w ->
   match init_mqtt env fuel w with
   | Normal _ w' => (live env) w'
   | Raised _ w' => (broker_port env) = None /\ w' = w
   | Diverged => False
   end) /\
  ((4 <= fuel)%nat -> (live env) w ->
   exists w', loop env fuel n w = Normal tt w' /\ (live env) w').
Proof.
  split; [|split; [|split]].
  - intros Hssid. unfold init_wifi. rewrite Hssid.
    cbn [bool_decide decide_rel]. step.
    rewrite bool_decide_eq_true_2 by reflexivity. step.
    eexists. split; [reflexivity|]. split.
    + unfold unchanged. destruct w; reflexivity.
    + fields. rewrite !polls_app. cbn. lia.
  - intros [ssid Hssid] Hradio. unfold init_wifi. rewrite Hssid. step.
    rewrite bool_decide_eq_false_2 by discriminate. step.
    unfold wifi_radio_connect. step. rewrite Hradio. step.
    rewrite bind_unfold. unfold try_except at 1. step.
    cbn [is_ConnectionError]. step.
    rewrite bind_unfold.
    rewrite (blink_error_unfold fuel CODE_WIFI_FAILED (-1) COL_PURPLE) by reflexivity.
    match goal with
    | |- context [blink_error_while env fuel (-1) ?w1] =>
        pose proof (blink_error_while_unbounded fuel (-1) w1) as Hw;
        destruct (blink_error_while env fuel (-1) w1) as [[] w2|e w2|] eqn:Hrun
    end.
    + destruct (Hw w2 ltac:(lia) eq_refl) as (Hf & ext & He & Hp).
      unfold elapsed in Hf, He. fields. step.
      split; [reflexivity|]. split; [exact Hf|].
      rewrite He, !polls_app. cbn. lia.
    + exfalso. eapply blink_error_while_never_raises. exact Hrun.
    + exact I.
  - intros Hfuel Hw.
    pose proof (settles_init_mqtt fuel Hfuel w Hw) as Hs.
    destruct (init_mqtt env fuel w) as [[] w1|e w1|] eqn:Hrun; [exact Hs| |exact Hs].
    destruct (broker_port env) as [p|] eqn:Hport.
    + pose proof (returns_init_mqtt fuel Hfuel ltac:(rewrite Hport; eauto) w Hw) as Hr.
      rewrite Hrun in Hr. contradiction.
    + split; [reflexivity|].
      revert Hrun. unfold init_mqtt.
      destruct (negb (truthy (os_getenv env "MQTT_BROKER_IP"))); [discriminate|].
      unfold broker_port in Hport. unfold int_.
      destruct (os_getenv env "MQTT_BROKER_PORT") as [s|].
      * rewrite Hport. step. intros [= _ <-]. reflexivity.
      * step. intros [= _ <-]. reflexivity.
  - intros Hfuel Hw.
    pose proof (returns_loop fuel Hfuel n w Hw) as Hr.
    destruct (loop env fuel n w) as [[] w1|e w1|]; try contradiction.
    exists w1. auto.
Qed.

(** ** More on the message handler *)

Lemma on_message_script_init message w :
  let topic := MQTT_TOPIC_ROOT w +:+ MQTT_TOPIC_SCRIPT_INIT in
  _mqtt_on_message topic message w =
  Normal tt (script_loaded "init" topic message (_init_script w) set_init_script w).
Proof.
  intros topic. rewrite on_message_unfold. unfold topic, dispatch, script_loaded.
  run. unfold logged. fields. topics. run.
  destruct (newScript message (_init_script w)); run; fields;
    rewrite <- ?app_assoc; reflexivity.
Qed.

Lemma on_message_script_event message w :
  let topic := MQTT_TOPIC_ROOT w +:+ MQTT_TOPIC_SCRIPT_EVENT in
  _mqtt_on_message topic message w =
  Normal tt (script_loaded "event" topic message (_event_script w) set_event_script w).
Proof.
  intros topic. rewrite on_message_unfold. unfold topic, dispatch, script_loaded.
  run. unfold logged. fields. topics. run.
  destruct (newScript message (_event_script w)); run; fields;
    rewrite <- ?app_assoc; reflexivity.
Qed.

(** X1.  Each topic changes the state it is for and no other.  A length
    message leaves both scripts, the last trigger payload and the
    brightness; a script message replaces its own executor when the text
    is accepted, keeps it when it is rejected, and leaves the other
    executor, the strip and the last trigger payload; a trigger message
    records its payload and leaves the init script and the strip.  None
    of them touches the status LED, the broker handle or the clock. *)
Theorem each_topic_changes_only_its_own_state (message : string) (w : World) :
  (exists w',
     _mqtt_on_message (MQTT_TOPIC_ROOT w +:+ MQTT_TOPIC_LENGTH) message w = Normal tt w' /\
     _init_script w' = _init_script w /\ _event_script w' = _event_script w /\
     _last_trigger w' = _last_trigger w /\
     val_brightness (_neo_wrapper w') = val_brightness (_neo_wrapper w) /\
     _led w' = _led w /\ _mqtt w' = _mqtt w /\ clock w' = clock w) /\
  (exists w',
     _mqtt_on_message (MQTT_TOPIC_ROOT w +:+ MQTT_TOPIC_SCRIPT_INIT) message w = Normal tt w' /\
     _init_script w' =
       match newScript message (_init_script w) with
       | inl s' => s'
       | inr _ => _init_script w
       end /\
     _event_script w' = _event_script w /\
     _last_trigger w' = _last_trigger w /\
     _neo_wrapper w' = _neo_wrapper w /\
     _led w' = _led w /\ _mqtt w' = _mqtt w /\ clock w' = clock w) /\
  (exists w',
     _mqtt_on_message (MQTT_TOPIC_ROOT w +:+ MQTT_TOPIC_SCRIPT_EVENT) message w = Normal tt w' /\
     _event_script w' =
       match newScript message (_event_script w) with
       | inl s' => s'
       | inr _ => _event_script w
       end /\
     _init_script w' = _init_script w /\
     _last_trigger w' = _last_trigger w /\
     _neo_wrapper w' = _neo_wrapper w /\
     _led w' = _led w /\ _mqtt w' = _mqtt w /\ clock w' = clock w) /\
  (exists w',
     _mqtt_on_message (trigger_topic w) message w = Normal tt w' /\
     _last_trigger w' = Some message /\
     _init_script w' = _init_script w /\
     _neo_wrapper w' = _neo_wrapper w /\
     _led w' = _led w /\ _mqtt w' = _mqtt w /\ clock w' = clock w).
Proof.
  split; [|split; [|split]].
  - eexists. split; [apply on_message_length|].
    destruct (py_int message) as [n|];
      [destruct ((n >=? 1) && (n <=? max_len (_neo_wrapper w)))|];
      repeat split.
  - eexists. split; [apply on_message_script_init|].
    unfold script_loaded.
    destruct (newScript message (_init_script w)); repeat split.
  - eexists. split; [apply on_message_script_event|].
    unfold script_loaded.
    destruct (newScript message (_event_script w)); repeat split.
  - eexists. split; [apply on_message_trigger|].
    destruct (bool_decide (_last_trigger w = Some message)); repeat split.
Qed.

Lemma script_loaded_event_frame topic message w :
  let w' := script_loaded "event" topic message (_event_script w) set_event_script w in
  MQTT_TOPIC_ROOT w' = MQTT_TOPIC_ROOT w /\
  _last_trigger w' = _last_trigger w /\
  trigger_calls (trace w') = trigger_calls (trace w).
Proof.
  unfold script_loaded.
  destruct (newScript message (_event_script w)); unfold logged; fields;
    rewrite trigger_calls_app; cbn [trigger_calls announce failure];
    repeat split; lia.
Qed.

(** X2.  Loading a new event script does not forget the last trigger
    payload: of a trigger, a new event script and the same trigger
    again, only the first trigger can call [trigger()], and it does so
    unless its payload is the one already seen. *)
Theorem new_event_script_does_not_rearm_trigger (p text : string) (w : World) :
  exists w',
    deliver
      [ (trigger_topic w, p);
        (MQTT_TOPIC_ROOT w +:+ MQTT_TOPIC_SCRIPT_EVENT, text);
        (trigger_topic w, p) ] w = Normal tt w' /\
    trigger_calls (trace w') =
      (trigger_calls (trace w) +
       (if bool_decide (_last_trigger w = Some p) then 0 else 1))%nat /\
    _last_trigger w' = Some p.
Proof.
  cbn [deliver]. rewrite bind_unfold, on_message_trigger.
  set (w1 := set_last_trigger _ _).
  assert (H1 : MQTT_TOPIC_ROOT w1 = MQTT_TOPIC_ROOT w /\
               _last_trigger w1 = Some p /\
               trigger_calls (trace w1) =
                 (trigger_calls (trace w) +
                  (if bool_decide (_last_trigger w = Some p) then 0 else 1))%nat).
  { unfold w1. destruct (bool_decide (_last_trigger w = Some p));
      unfold logged; fields; rewrite trigger_calls_app; cbn; repeat split; lia. }
  destruct H1 as (Hr1 & Hl1 & Hc1).
  rewrite bind_unfold, <- Hr1, on_message_script_event.
  set (w2 := script_loaded _ _ _ _ _ _).
  destruct (script_loaded_event_frame (MQTT_TOPIC_ROOT w1 +:+ MQTT_TOPIC_SCRIPT_EVENT)
              text w1) as (Hr2 & Hl2 & Hc2).
  fold w2 in Hr2, Hl2, Hc2.
  rewrite bind_unfold.
  replace (trigger_topic w) with (trigger_topic w2)
    by (unfold trigger_topic; congruence).
  rewrite on_message_trigger.
  rewrite Hl2, Hl1, bool_decide_eq_true_2 by reflexivity.
  cbn [ret]. eexists. split; [reflexivity|].
  unfold logged. fields. rewrite trigger_calls_app. cbn [trigger_calls announce].
  split; [lia | reflexivity].
Qed.

(** ** What the running program keeps *)

Lemma calm_refl w : calm w w.
Proof. unfold calm. destruct w as [? ? ? ? [? ?] ? ? ? ? ? ? ? ? ? ? ? ?]. reflexivity. Qed.

Lemma calm_trans w1 w2 w3 : calm w1 w2 -> calm w2 w3 -> calm w1 w3.
Proof.
  unfold calm. intros H12 H23. rewrite H23. rewrite H12 at 1 2. fields. reflexivity.
Qed.

Lemma settled_refl w : settled w w.
Proof. unfold settled. auto 12. Qed.

Lemma settled_trans w1 w2 w3 : settled w1 w2 -> settled w2 w3 -> settled w1 w3.
Proof.
  intros (Hn & Hp & Hr & Ho & Hm & Hl) (Hn' & Hp' & Hr' & Ho' & Hm' & Hl').
  unfold settled. rewrite Hn', Hp', Hr', Ho', Hm'.
  repeat (split; [assumption|]). rewrite Hm in Hl'. lia.
Qed.

Lemma steady_refl w : steady w w.
Proof. split; [reflexivity | apply settled_refl]. Qed.

Lemma steady_trans w1 w2 w3 : steady w1 w2 -> steady w2 w3 -> steady w1 w3.
Proof.
  intros (Hm & Hs) (Hm' & Hs'). split; [congruence | eapply settled_trans; eauto].
Qed.

Lemma calm_steady w w' : calm w w' -> steady w w'.
Proof. unfold calm. intros ->. unfold steady, settled. fields. auto 12. Qed.

Lemma steady_settled w w' : steady w w' -> settled w w'.
Proof. intros (_ & H). exact H. Qed.

(** [calm], [steady] and [settled] across the update of a field. *)
Ltac calm_field :=
  intros; unfold calm;
  match goal with
  | w : World |- _ => destruct w as [? ? ? ? [? ?] ? ? ? ? ? ? ? ? ? ? ? ?]
  end;
  reflexivity.

Ltac steady_field :=
  intros; unfold steady, settled; fields;
  repeat match goal with
  | |- context [is_onboard (_neo_wrapper ?w)] =>
      lazymatch goal with
      | |- context [if is_onboard (_neo_wrapper w) then _ else _] =>
          let H := fresh "Hob" in
          destruct (is_onboard (_neo_wrapper w)) eqn:H; fields; rewrite ?H
      end
  end;
  auto 12.

Ltac settled_field :=
  intros; unfold settled; fields;
  repeat match goal with
  | |- context [is_onboard (_neo_wrapper ?w)] =>
      lazymatch goal with
      | |- context [if is_onboard (_neo_wrapper w) then _ else _] =>
          let H := fresh "Hob" in
          destruct (is_onboard (_neo_wrapper w)) eqn:H; fields; rewrite ?H
      end
  end;
  auto 12.

Create HintDb frame.

Ltac frame_field :=
  intros;
  lazymatch goal with
  | |- calm _ _ => calm_field
  | |- steady _ _ => steady_field
  | |- settled _ _ => settled_field
  | |- later _ _ => unfold later; fields; lia
  | |- opened _ _ => unfold opened; fields; auto
  end.

(** [pres R m] for a preorder [R], by the structure of [m]. *)
Ltac frame_step R Rrefl Rtrans :=
  first
    [ solve [auto with frame quiet]
    | apply (pres_ret R Rrefl)
    | apply (pres_raise R Rrefl)
    | apply (pres_get R Rrefl)
    | apply (pres_diverged R)
    | apply (pres_bind R Rtrans); [ | intros ]
    | apply (pres_try R Rtrans); [ | intros ]
    | apply (pres_modify R); solve [frame_field]
    | match goal with
      | |- pres _ (if ?b then _ else _) => destruct b
      | |- pres _ (match ?x with _ => _ end) => destruct x
      end ].

Ltac calm_auto :=
  repeat (frame_step constr:(calm) constr:(calm_refl) constr:(calm_trans)).

Ltac steady_auto :=
  repeat (frame_step constr:(steady) constr:(steady_refl) constr:(steady_trans)).

Ltac settled_auto :=
  repeat (frame_step constr:(settled) constr:(settled_refl) constr:(settled_trans)).

Lemma calm_emit e : pres calm (emit e).
Proof. unfold emit. calm_auto. Qed.

Lemma calm_print line : pres calm (print line).
Proof. apply calm_emit. Qed.

Lemma calm_elapse ms : pres calm (elapse ms).
Proof. unfold elapse. calm_auto. Qed.

Lemma calm_next_io : pres calm next_io.
Proof. intros w. cbn [next_io]. calm_field. Qed.

Lemma calm_led_brightness v : pres calm (led_brightness v).
Proof. unfold led_brightness. calm_auto. Qed.

#[local] Hint Resolve calm_emit calm_print calm_elapse calm_next_io
  calm_led_brightness : frame.

Lemma calm_boot_btn_value : pres calm (boot_btn_value env).
Proof. unfold boot_btn_value. calm_auto. Qed.

#[local] Hint Resolve calm_boot_btn_value : frame.

Lemma calm_blink_error_while fuel : forall num_loop,
  pres calm (blink_error_while env fuel num_loop).
Proof.
  induction fuel as [|fuel IH]; intros num_loop; cbn [blink_error_while];
    unfold time_sleep; calm_auto.
Qed.

#[local] Hint Resolve calm_blink_error_while : frame.

Lemma steady_of_calm {A : Type} (m : M A) : pres calm m -> pres steady m.
Proof. apply pres_weaken. exact calm_steady. Qed.

Lemma settled_of_steady {A : Type} (m : M A) : pres steady m -> pres settled m.
Proof. apply pres_weaken. exact steady_settled. Qed.

#[local] Hint Resolve steady_of_calm settled_of_steady : frame.

Lemma steady_blink_error fuel code num_loop :
  pres steady (blink_error env fuel code num_loop).
Proof. unfold blink_error, col_led_error, led_fill, time_sleep. steady_auto. Qed.

Lemma steady_blink : pres steady blink.
Proof. unfold blink, led_brightness, time_time. steady_auto. Qed.

#[local] Hint Resolve steady_blink_error steady_blink : frame.

Lemma steady_on_connected fuel : pres steady (_mqtt_on_connected env fuel).
Proof. unfold _mqtt_on_connected. steady_auto. Qed.

#[local] Hint Resolve steady_on_connected : frame.

Lemma steady_mqtt_connect fuel : pres steady (mqtt_connect env fuel).
Proof. unfold mqtt_connect, library_time. steady_auto. Qed.

Lemma steady_mqtt_reconnect fuel : pres steady (mqtt_reconnect env fuel).
Proof. unfold mqtt_reconnect, library_time. steady_auto. Qed.

#[local] Hint Resolve steady_mqtt_connect steady_mqtt_reconnect : frame.

Lemma steady_dispatch topic message : pres steady (dispatch topic message).
Proof.
  intros w. unfold dispatch. run.
  destruct (String.eqb topic (MQTT_TOPIC_ROOT w +:+ MQTT_TOPIC_LENGTH)).
  { run. destruct (py_int message) as [n|]; run; [|apply steady_refl].
    destruct ((n >=? 1) && (n <=? max_len (_neo_wrapper w))) eqn:E; run;
      [|apply steady_refl].
    unfold steady, settled. fields. repeat (split; [reflexivity|]). right. lia. }
  destruct (String.eqb topic (MQTT_TOPIC_ROOT w +:+ MQTT_TOPIC_BRIGHTNESS)).
  { unfold float_. destruct (py_float message); run; apply steady_refl. }
  destruct (String.eqb topic (MQTT_TOPIC_ROOT w +:+ MQTT_TOPIC_SCRIPT_INIT)).
  { run. destruct (newScript message (_init_script w)); run; steady_field. }
  destruct (String.eqb topic (MQTT_TOPIC_ROOT w +:+ MQTT_TOPIC_SCRIPT_EVENT)).
  { run. destruct (newScript message (_event_script w)); run; steady_field. }
  destruct (String.eqb topic (MQTT_TOPIC_ROOT w +:+ MQTT_TOPIC_EVENT_TRIGGER)).
  { run. destruct (bool_decide (_last_trigger w = Some message)); cbn [negb]; run;
    steady_field. }
  apply steady_refl.
Qed.

#[local] Hint Resolve steady_dispatch : frame.

Lemma steady_on_message topic message : pres steady (_mqtt_on_message topic message).
Proof. unfold _mqtt_on_message. steady_auto. Qed.

#[local] Hint Resolve steady_on_message : frame.

Lemma steady_deliver msgs : pres steady (deliver msgs).
Proof. induction msgs as [|[topic message] rest IH]; cbn [deliver]; steady_auto. Qed.

#[local] Hint Resolve steady_deliver : frame.

Lemma steady_mqtt_loop : pres steady (mqtt_loop env).
Proof. unfold mqtt_loop, library_time. steady_auto. Qed.

Lemma steady_init_script_loop : pres steady init_script_loop.
Proof. unfold init_script_loop. steady_auto. Qed.

Lemma steady_event_script_loop : pres steady event_script_loop.
Proof. unfold event_script_loop. steady_auto. Qed.

#[local] Hint Resolve steady_mqtt_loop steady_init_script_loop
  steady_event_script_loop : frame.

Lemma settled_init_mqtt fuel : pres settled (init_mqtt env fuel).
Proof. unfold init_mqtt, int_. settled_auto. Qed.

#[local] Hint Resolve settled_init_mqtt : frame.

Lemma settled_mqtt_loop fuel : pres settled (_mqtt_loop env fuel).
Proof. unfold _mqtt_loop, time_time. settled_auto. Qed.

#[local] Hint Resolve settled_mqtt_loop : frame.

Lemma settled_loop_body fuel : pres settled (loop_body env fuel).
Proof. unfold loop_body, time_monotonic, time_sleep. settled_auto. Qed.

Lemma settled_iterate fuel n : pres settled (iterate n (loop_body env fuel)).
Proof.
  pose proof (settled_loop_body fuel).
  induction n as [|n IH]; cbn [iterate]; settled_auto.
Qed.

(** ** Start-up: [init()] *)

Lemma init_neo_len_block w :
  exists lines,
    try_except
      (bind (int_ (os_getenv env "NEO_LEN")) (fun neo_len =>
         if neo_len >? 0 then
           bind (modify (set_NEO_LEN neo_len)) (fun _ =>
             print ("@@ Settings.toml: neo len set to " +:+ pretty neo_len))
         else ret tt))
      Exception
      (fun e => print ("@@ Settings.toml: Invalid NEO_LEN variable  " +:+ show_exn e)) w =
    Normal tt (set_NEO_LEN (neo_len_setting env w) (logged lines w)).
Proof.
  unfold neo_len_setting, int_, logged.
  destruct (os_getenv env "NEO_LEN") as [s|];
    [destruct (py_int s) as [n|];
       [unfold try_except, bind, ret; destruct (n >? 0)|]|]; step;
    try (eexists; destruct w; reflexivity).
  exists []. rewrite app_nil_r. destruct w; reflexivity.
Qed.

Lemma init_topic_root_block w :
  exists lines,
    try_except
      (bind (strip_ (os_getenv env "MQTT_TOPIC_ROOT")) (fun mqtt_topic_root =>
         if truthy (Some mqtt_topic_root) then
           bind (modify (set_MQTT_TOPIC_ROOT mqtt_topic_root)) (fun _ =>
             print ("@@ Settings.toml: MQTT_TOPIC_ROOT set to " +:+ mqtt_topic_root))
         else ret tt))
      Exception
      (fun e =>
         print ("@@ Settings.toml: Invalid MQTT_TOPIC_ROOT variable  " +:+ show_exn e)) w =
    Normal tt
      (set_MQTT_TOPIC_ROOT (text_setting env "MQTT_TOPIC_ROOT" (MQTT_TOPIC_ROOT w))
         (logged lines w)).
Proof.
  unfold text_setting, strip_, logged.
  destruct (os_getenv env "MQTT_TOPIC_ROOT") as [s|];
    [unfold try_except, bind, ret; destruct (truthy (Some (py_strip s)))|]; step;
    try (eexists; destruct w; reflexivity).
  exists []. rewrite app_nil_r. destruct w; reflexivity.
Qed.

Lemma init_strip_pin_block w :
  exists lines,
    try_except
      (bind (strip_ (os_getenv env "NEO_STRIP_PIN")) (fun neo_strip_pin =>
         if truthy (Some neo_strip_pin) then
           bind (modify (set_NEO_STRIP_PIN neo_strip_pin)) (fun _ =>
             print ("@@ Settings.toml: NEO_STRIP_PIN set to " +:+ neo_strip_pin))
         else ret tt))
      Exception
      (fun e =>
         print ("@@ Settings.toml: Invalid NEO_STRIP_PIN variable  " +:+ show_exn e)) w =
    Normal tt
      (set_NEO_STRIP_PIN (text_setting env "NEO_STRIP_PIN" (NEO_STRIP_PIN w))
         (logged lines w)).
Proof.
  unfold text_setting, strip_, logged.
  destruct (os_getenv env "NEO_STRIP_PIN") as [s|];
    [unfold try_except, bind, ret; destruct (truthy (Some (py_strip s)))|]; step;
    try (eexists; destruct w; reflexivity).
  exists []. rewrite app_nil_r. destruct w; reflexivity.
Qed.

Lemma init_outcome w :
  exists lines,
    let w1 := configured env lines w in
    let n := NEO_LEN w1 in
    let pin := NEO_STRIP_PIN w1 in
    init env w =
    if String.eqb pin "ONBOARD" then
      Normal tt
        (set_event_script EventScriptExec
           (set_init_script InitScriptExec
              (set_led (mkNeoPixel COL_OFF (PFloat 0.75))
                 (set_neo_wrapper (mkNeoWrapper true n n (PFloat 0.75)) w1))))
    else if bool_decide (pin ∈ board_pins env) then
      Normal tt
        (set_event_script EventScriptExec
           (set_init_script InitScriptExec
              (set_strip (mkNeoPixel COL_OFF (PInt 1))
                 (set_neo_wrapper (mkNeoWrapper false n n (PInt 1))
                    (set_led (mkNeoPixel COL_OFF (PFloat 0.1)) w1)))))
    else
      Raised (AttributeError pin) (set_led (mkNeoPixel COL_OFF (PFloat 0.1)) w1).
Proof.
  unfold init. rewrite bind_unfold. step.
  change (set_trace (trace w ++ [EvPrint "@@ init"]) w)
    with (logged [EvPrint "@@ init"] w).
  rewrite bind_unfold.
  destruct (init_neo_len_block (logged [EvPrint "@@ init"] w)) as (l1 & ->).
  set (w1 := set_NEO_LEN _ _).
  rewrite bind_unfold.
  destruct (init_topic_root_block w1) as (l2 & ->).
  set (w2 := set_MQTT_TOPIC_ROOT _ _).
  rewrite bind_unfold.
  destruct (init_strip_pin_block w2) as (l3 & ->).
  set (w3 := set_NEO_STRIP_PIN _ _).
  exists ([EvPrint "@@ init"] ++ l1 ++ l2 ++ l3).
  assert (Hc : w3 = configured env ([EvPrint "@@ init"] ++ l1 ++ l2 ++ l3) w).
  { unfold w3, w2, w1, configured, logged. destruct w. fields.
    rewrite <- !app_assoc. reflexivity. }
  rewrite Hc. clearbody w3. clear w1 w2 Hc.
  generalize (configured env ([EvPrint "@@ init"] ++ l1 ++ l2 ++ l3) w). intros c.
  cbv zeta.
  unfold OnboardNeoWrapper_brightness, NeoWrapper_brightness, led_brightness,
    set_val_brightness.
  step.
  destruct (String.eqb (NEO_STRIP_PIN c) "ONBOARD"); step.
  - destruct c; reflexivity.
  - destruct (bool_decide (NEO_STRIP_PIN c ∈ board_pins env)); step.
    + cbn [py_ge py_le Z.leb Z.compare Pos.compare andb]. step.
      destruct c; reflexivity.
    + destruct c; reflexivity.
Qed.

Lemma configured_fields lines w :
  NEO_LEN (configured env lines w) = neo_len_setting env w /\
  MQTT_TOPIC_ROOT (configured env lines w) =
    text_setting env "MQTT_TOPIC_ROOT" (MQTT_TOPIC_ROOT w) /\
  NEO_STRIP_PIN (configured env lines w) =
    text_setting env "NEO_STRIP_PIN" (NEO_STRIP_PIN w).
Proof. repeat split. Qed.

Lemma text_setting_not_empty key current :
  current <> "" -> text_setting env key current <> "".
Proof.
  intros Hc. unfold text_setting.
  destruct (os_getenv env key) as [s|]; [|exact Hc].
  destruct (py_strip s); cbn [truthy]; [exact Hc | discriminate].
Qed.

Lemma neo_len_setting_positive w : 0 < NEO_LEN w -> 0 < neo_len_setting env w.
Proof.
  intros Hw. unfold neo_len_setting.
  destruct (os_getenv env "NEO_LEN") as [s|]; [|exact Hw].
  destruct (py_int s) as [n|]; [|exact Hw].
  destruct (n >? 0) eqn:E; [lia | exact Hw].
Qed.


(** X5.  Wherever [init()] ends, [NEO_LEN] is the setting when it reads
    as a positive integer and the length in use otherwise, and the topic
    root and the strip pin are their settings without the blanks around
    them, or the values in use when the setting is missing or blank.  So
    a positive length stays positive and a root that is not empty stays
    so; when [init()] returns, the wrapper is as long as [NEO_LEN], in
    use and at most. *)
Theorem init_settings_fall_back_to_the_values_in_use (w : World) :
  match init env w with
  | Normal _ w' =>
      NEO_LEN w' = neo_len_setting env w /\
      MQTT_TOPIC_ROOT w' = text_setting env "MQTT_TOPIC_ROOT" (MQTT_TOPIC_ROOT w) /\
      NEO_STRIP_PIN w' = text_setting env "NEO_STRIP_PIN" (NEO_STRIP_PIN w) /\
      (0 < NEO_LEN w -> 0 < NEO_LEN w') /\
      (MQTT_TOPIC_ROOT w <> "" -> MQTT_TOPIC_ROOT w' <> "") /\
      len (_neo_wrapper w') = NEO_LEN w' /\
      max_len (_neo_wrapper w') = NEO_LEN w'
  | Raised _ w' =>
      NEO_LEN w' = neo_len_setting env w /\
      MQTT_TOPIC_ROOT w' = text_setting env "MQTT_TOPIC_ROOT" (MQTT_TOPIC_ROOT w) /\
      NEO_STRIP_PIN w' = text_setting env "NEO_STRIP_PIN" (NEO_STRIP_PIN w) /\
      (0 < NEO_LEN w -> 0 < NEO_LEN w') /\
      (MQTT_TOPIC_ROOT w <> "" -> MQTT_TOPIC_ROOT w' <> "")
  | Diverged => False
  end.
Proof.
  destruct (init_outcome w) as (lines & H). cbv zeta in H. rewrite H.
  pose proof (neo_len_setting_positive w) as Hlen.
  pose proof (text_setting_not_empty "MQTT_TOPIC_ROOT" (MQTT_TOPIC_ROOT w)) as Hroot.
  destruct (String.eqb (NEO_STRIP_PIN (configured env lines w)) "ONBOARD");
    [|destruct (bool_decide (NEO_STRIP_PIN (configured env lines w) ∈ board_pins env))];
    unfold configured, logged; fields; repeat split; assumption.
Qed.

(** X6.  When [init()] returns, the wrapper is the on-board one exactly
    when the strip pin is ["ONBOARD"].  The strip is then the status LED
    itself: no strip object is made, and the brightness [0.75] given to
    the wrapper replaces the [0.1] of the status LED.  Otherwise the
    status LED is at [0.1] and a dark strip at brightness [1] is made.
    Both script executors are new, and the broker handle, the last
    trigger payload and the clock are not touched. *)
Theorem init_builds_the_strip_for_the_pin (w w' : World)
  (Hrun : init env w = Normal tt w') :
  is_onboard (_neo_wrapper w') = String.eqb (NEO_STRIP_PIN w') "ONBOARD" /\
  (if is_onboard (_neo_wrapper w') then
     brightness (_led w') = PFloat 0.75 /\
     val_brightness (_neo_wrapper w') = PFloat 0.75 /\
     strip w' = strip w
   else
     brightness (_led w') = PFloat 0.1 /\
     val_brightness (_neo_wrapper w') = PInt 1 /\
     strip w' = mkNeoPixel COL_OFF (PInt 1)) /\
  filled (_led w') = COL_OFF /\
  _init_script w' = InitScriptExec /\
  _event_script w' = EventScriptExec /\
  _mqtt w' = _mqtt w /\
  _last_trigger w' = _last_trigger w /\
  clock w' = clock w /\
  io w' = io w.
Proof.
  destruct (init_outcome w) as (lines & H). cbv zeta in H. rewrite H in Hrun.
  destruct (String.eqb (NEO_STRIP_PIN (configured env lines w)) "ONBOARD") eqn:Eo;
    [|destruct (bool_decide (NEO_STRIP_PIN (configured env lines w) ∈ board_pins env))];
    [| |discriminate];
    injection Hrun as <-; fields; rewrite Eo; repeat split.
Qed.

(** ** The broker handle *)

Lemma opened_refl w : opened w w.
Proof. left. reflexivity. Qed.

Lemma opened_trans w1 w2 w3 : opened w1 w2 -> opened w2 w3 -> opened w1 w3.
Proof. unfold opened. intros H12 [H23|H23]; [rewrite H23; exact H12 | auto]. Qed.

Lemma steady_opened w w' : steady w w' -> opened w w'.
Proof. intros (H & _). left. exact H. Qed.

Lemma opened_of_steady {A : Type} (m : M A) : pres steady m -> pres opened m.
Proof. apply pres_weaken. exact steady_opened. Qed.

#[local] Hint Resolve opened_of_steady : frame.

Lemma opened_init_mqtt fuel : pres opened (init_mqtt env fuel).
Proof.
  unfold init_mqtt, int_.
  repeat (frame_step constr:(opened) constr:(opened_refl) constr:(opened_trans)).
Qed.

Lemma advanced_refl w : advanced w w.
Proof. unfold advanced. destruct (_mqtt w); congruence. Qed.

Lemma advanced_trans w1 w2 w3 : advanced w1 w2 -> advanced w2 w3 -> advanced w1 w3.
Proof.
  unfold advanced.
  destruct (_mqtt w1), (_mqtt w2), (_mqtt w3); congruence.
Qed.

Lemma steady_advanced w w' : steady w w' -> advanced w w'.
Proof. intros (H & _). unfold advanced. rewrite H. destruct (_mqtt w); congruence. Qed.

Lemma advanced_of_steady {A : Type} (m : M A) : pres steady m -> pres advanced m.
Proof. apply pres_weaken. exact steady_advanced. Qed.

#[local] Hint Resolve advanced_of_steady : frame.

Lemma advanced_mqtt_loop fuel : pres advanced (_mqtt_loop env fuel).
Proof.
  intros w. unfold _mqtt_loop. step. destruct (_mqtt w) eqn:Hh.
  - apply advanced_refl.
  - step. destruct (clock w / 1000 - _mqtt_retry_ts w >? 5); [|apply advanced_refl].
    match goal with
    | |- match ?m w with _ => _ end => assert (H : pres opened m)
    end.
    { pose proof (opened_init_mqtt fuel). unfold time_time.
      repeat (frame_step constr:(opened) constr:(opened_refl) constr:(opened_trans)). }
    specialize (H w).
    match goal with
    | |- match ?r with _ => _ end => destruct r as [[] w'|e w'|]
    end; try exact I;
      unfold advanced; rewrite Hh; destruct H as [H|[H|H]]; congruence.
  - match goal with
    | |- match ?m w with _ => _ end => assert (H : pres steady m)
    end.
    { steady_auto. }
    specialize (H w).
    match goal with
    | |- match ?r with _ => _ end => destruct r as [[] w'|e w'|]
    end; try exact I; apply steady_advanced; exact H.
Qed.

#[local] Hint Resolve advanced_mqtt_loop : frame.

Lemma advanced_loop_body fuel : pres advanced (loop_body env fuel).
Proof.
  unfold loop_body, time_monotonic, time_sleep.
  repeat (frame_step constr:(advanced) constr:(advanced_refl) constr:(advanced_trans)).
Qed.

Lemma advanced_iterate fuel n : pres advanced (iterate n (loop_body env fuel)).
Proof.
  pose proof (advanced_loop_body fuel).
  induction n as [|n IH]; cbn [iterate];
    repeat (frame_step constr:(advanced) constr:(advanced_refl) constr:(advanced_trans)).
Qed.

(** X9.  Over any number of iterations of the main loop the broker
    handle never goes back: [None] stays [None], a client object stays a
    client object whatever [loop()] and [reconnect()] do, and ["retry"]
    either stays or is replaced by a client object.  The iterations all
    return. *)
Theorem broker_handle_never_goes_back (fuel n : nat) (w : World)
  (Hfuel : (4 <= fuel)%nat) (Hlive : live env w) :
  exists w',
    iterate n (loop_body env fuel) w = Normal tt w' /\
    match _mqtt w with
    | MqttNone => _mqtt w' = MqttNone
    | MqttRetry => _mqtt w' = MqttRetry \/ _mqtt w' = MqttClient
    | MqttClient => _mqtt w' = MqttClient
    end.
Proof.
  pose proof (returns_iterate fuel Hfuel n w Hlive) as Hr.
  pose proof (advanced_iterate fuel n w) as Ha.
  destruct (iterate n (loop_body env fuel) w) as [[] w'|e w'|]; try contradiction.
  exists w'. split; [reflexivity|].
  unfold advanced in Ha. destruct (_mqtt w); try exact Ha.
  destruct (_mqtt w'); [congruence | auto | auto].
Qed.

(** ** The pace of the main loop *)

Lemma later_refl w : later w w.
Proof. unfold later. lia. Qed.

Lemma later_trans w1 w2 w3 : later w1 w2 -> later w2 w3 -> later w1 w3.
Proof. unfold later. lia. Qed.

Lemma quiet_later w w' : quiet w w' -> later w w'.
Proof. intros (_ & _ & _ & H & _). exact H. Qed.

Lemma later_of_quiet {A : Type} (m : M A) : pres quiet m -> pres later m.
Proof. apply pres_weaken. exact quiet_later. Qed.

Lemma later_init_mqtt fuel : pres later (init_mqtt env fuel).
Proof.
  apply (pres_weaken loud); [|apply loud_init_mqtt].
  intros w w' (_ & _ & _ & H & _). exact H.
Qed.

#[local] Hint Resolve later_of_quiet later_init_mqtt : frame.

Lemma later_mqtt_loop fuel : pres later (_mqtt_loop env fuel).
Proof.
  unfold _mqtt_loop, time_time.
  repeat (frame_step constr:(later) constr:(later_refl) constr:(later_trans)).
Qed.

Lemma loop_body_pace fuel w w' :
  loop_body env fuel w = Normal tt w' -> clock w + 250 <= clock w'.
Proof.
  unfold loop_body, time_monotonic. intros Hrun.
  apply bind_normal in Hrun as (start_ts & w1 & H1 & Hrun).
  apply bind_normal in Hrun as (? & w2 & H2 & Hrun).
  apply bind_normal in Hrun as (? & w3 & H3 & Hrun).
  apply bind_normal in Hrun as (? & w4 & H4 & Hrun).
  apply bind_normal in Hrun as (? & w5 & H5 & Hrun).
  apply bind_normal in Hrun as (end_ts & w6 & H6 & Hrun).
  apply bind_normal in Hrun as (? & w7 & H7 & Hrun).
  injection H1 as <- <-. injection H6 as <- <-.
  apply (pres_on_return later _ (later_of_quiet _ quiet_blink)) in H2.
  apply (pres_on_return later _ (later_mqtt_loop fuel)) in H3.
  apply (pres_on_return later _ (later_of_quiet _ quiet_init_script_loop)) in H4.
  apply (pres_on_return later _ (later_of_quiet _ quiet_event_script_loop)) in H5.
  unfold later in *.
  assert (H8 : clock w' = clock w7) by (injection Hrun as <-; reflexivity).
  destruct (clock w5 - clock w <? 1000) eqn:E.
  - injection H7 as H7. subst w7. fields. lia.
  - injection H7 as H7. subst w7. apply Z.ltb_ge in E. lia.
Qed.


(** ** The session with the broker *)

Lemma handled_refl w : handled w w.
Proof. unfold handled. destruct w; reflexivity. Qed.

Lemma handled_trans w1 w2 w3 : handled w1 w2 -> handled w2 w3 -> handled w1 w3.
Proof.
  unfold handled. destruct w1, w2, w3. fields. intros H12 H23.
  injection H12; injection H23; intros; subst; reflexivity.
Qed.

Ltac handled_field :=
  intros; unfold handled;
  match goal with
  | w : World |- _ => destruct w
  end;
  reflexivity.

Lemma handled_dispatch topic message : pres handled (dispatch topic message).
Proof.
  intros w. unfold dispatch. run.
  destruct (String.eqb topic (MQTT_TOPIC_ROOT w +:+ MQTT_TOPIC_LENGTH)).
  { run. destruct (py_int message) as [n|]; run; [|apply handled_refl].
    destruct ((n >=? 1) && (n <=? max_len (_neo_wrapper w))); run;
      [handled_field | apply handled_refl]. }
  destruct (String.eqb topic (MQTT_TOPIC_ROOT w +:+ MQTT_TOPIC_BRIGHTNESS)).
  { unfold float_. destruct (py_float message); run; apply handled_refl. }
  destruct (String.eqb topic (MQTT_TOPIC_ROOT w +:+ MQTT_TOPIC_SCRIPT_INIT)).
  { run. destruct (newScript message (_init_script w)); run; handled_field. }
  destruct (String.eqb topic (MQTT_TOPIC_ROOT w +:+ MQTT_TOPIC_SCRIPT_EVENT)).
  { run. destruct (newScript message (_event_script w)); run; handled_field. }
  destruct (String.eqb topic (MQTT_TOPIC_ROOT w +:+ MQTT_TOPIC_EVENT_TRIGGER)).
  { run. destruct (bool_decide (_last_trigger w = Some message)); cbn [negb]; run;
    handled_field. }
  apply handled_refl.
Qed.

Lemma handled_deliver msgs : pres handled (deliver msgs).
Proof.
  pose proof handled_dispatch.
  assert (Hp : forall line, pres handled (print line)).
  { intros line w. cbn [print emit modify]. handled_field. }
  induction msgs as [|[topic message] rest IH]; cbn [deliver]; unfold _mqtt_on_message;
    repeat (frame_step constr:(handled) constr:(handled_refl) constr:(handled_trans)).
Qed.

Lemma blink_error_while_frame fuel : forall num_loop w w',
  blink_error_while env fuel num_loop w = Normal tt w' ->
  brightness (_led w) = PFloat 0.1 ->
  exists bs,
    w' = alerted (filled (_led w)) bs (clock w') w /\
    clock w <= clock w' <= clock w + 1250 * Z.of_nat (length bs) /\
    (0 <= num_loop -> (length bs <= Z.to_nat num_loop)%nat) /\
    (num_loop <> 0 -> (1 <= length bs)%nat).
Proof.
  induction fuel as [|fuel IH]; intros num_loop w w'; [discriminate|].
  while_step.
  destruct (num_loop =? 0) eqn:E0; cbn [negb].
  { intros [= <-] Hb. exists []. apply Z.eqb_eq in E0.
    split; [|cbn [length]; lia].
    unfold alerted. cbn [map length]. rewrite app_nil_r, Nat.add_0_r.
    destruct w as [? ? ? ? [? ?] ? ? ? ? ? ? ? ? ? ? ? ?]. fields. subst. reflexivity. }
  apply Z.eqb_neq in E0. while_step.
  destruct (boot_btn env (io w)).
  - while_step. intros Hrun Hb.
    apply IH in Hrun as (bs & Hw' & Hc & Hn & _); [|reflexivity].
    exists (true :: bs). fields. split; [|split; [|split]].
    + rewrite Hw'. unfold alerted. cbn [map length]. fields.
      rewrite <- app_assoc, Nat.add_succ_r. cbn [app Nat.add].
      destruct w as [? ? ? ? [? ?] ? ? ? ? ? ? ? ? ? ? ? ?]. fields. reflexivity.
    + cbn [length]. lia.
    + intros Hpos. cbn [length]. specialize (Hn ltac:(lia)). lia.
    + intros _. cbn [length]. lia.
  - while_step. intros [= <-] Hb. exists [false]. fields. split; [|split; [|split]].
    + unfold alerted. cbn [map length]. fields.
      destruct w as [? ? ? ? [? ?] ? ? ? ? ? ? ? ? ? ? ? ?]. fields. subst.
      rewrite Nat.add_1_r. reflexivity.
    + cbn [length]. lia.
    + intros Hpos. cbn [length]. lia.
    + intros _. cbn [length]. lia.
Qed.

Lemma blink_error_frame fuel code num_loop c w w' :
  COL_LED_ERROR !! code = Some c ->
  blink_error env fuel code num_loop w = Normal tt w' ->
  exists bs,
    w' = alerted c bs (clock w') w /\
    clock w + 500 <= clock w' <= clock w + 500 + 1250 * Z.of_nat (length bs) /\
    (0 <= num_loop -> (length bs <= Z.to_nat num_loop)%nat) /\
    (num_loop <> 0 -> (1 <= length bs)%nat).
Proof.
  intros Hc Hrun. rewrite (blink_error_unfold fuel code num_loop c w Hc) in Hrun.
  apply blink_error_while_frame in Hrun as (bs & Hw' & Ht & Hn); [|reflexivity].
  exists bs. unfold elapsed in Ht. fields. split; [|split; [lia | exact Hn]].
  rewrite Hw' at 1. unfold alerted, elapsed. fields. destruct w; reflexivity.
Qed.

Lemma blink_error_bounded_outcome fuel code num_loop c w :
  COL_LED_ERROR !! code = Some c ->
  0 <= num_loop < Z.of_nat fuel ->
  exists bs t,
    blink_error env fuel code num_loop w = Normal tt (alerted c bs t w) /\
    clock w + 500 <= t <= clock w + 500 + 1250 * Z.of_nat (length bs) /\
    (length bs <= Z.to_nat num_loop)%nat /\
    (num_loop <> 0 -> (1 <= length bs)%nat).
Proof.
  intros Hc Hn.
  destruct (blink_error_while_bounded fuel num_loop
              (elapsed 500 (set_led (mkNeoPixel c (PFloat 0.1)) w)) Hn)
    as (w' & n & Hrun & _).
  rewrite <- (blink_error_unfold fuel code num_loop c w Hc) in Hrun.
  destruct (blink_error_frame fuel code num_loop c w w' Hc Hrun) as (bs & Hw' & Ht & Hle & Hge).
  exists bs, (clock w'). rewrite <- Hw'. split; [exact Hrun|].
  split; [exact Ht|]. split; [apply Hle; lia | exact Hge].
Qed.

(** X11.  [blink_error] touches the status LED and nothing else.  With a
    code that is not in [COL_LED_ERROR] it raises [KeyError] before
    anything is done.  With a known code it never raises, and when it
    returns the LED is lit at brightness [0.1] in the colour of the
    code, at least half a second has passed, the trace has grown by
    reads of the button only, and every other part of the world is as
    it was; it can run on for ever only when [num_loop] is negative. *)
Theorem alert_touches_only_the_status_led
  (fuel : nat) (code : string) (num_loop : Z) (w : World) :
  match COL_LED_ERROR !! code with
  | None => blink_error env fuel code num_loop w = Raised (KeyError code) w
  | Some c =>
      match blink_error env fuel code num_loop w with
      | Normal _ w' =>
          exists bs,
            w' = alerted c bs (clock w') w /\
            clock w + 500 <= clock w' <= clock w + 500 + 1250 * Z.of_nat (length bs) /\
            (0 <= num_loop -> (length bs <= Z.to_nat num_loop)%nat)
      | Raised _ _ => False
      | Diverged => ~ (0 <= num_loop < Z.of_nat fuel)
      end
  end.
Proof.
  destruct (COL_LED_ERROR !! code) as [c|] eqn:Hc.
  - destruct (blink_error env fuel code num_loop w) as [[] w'|e w'|] eqn:Hrun.
    + destruct (blink_error_frame fuel code num_loop c w w' Hc Hrun)
        as (bs & Hw' & Ht & Hle & _).
      exists bs. auto.
    + rewrite (blink_error_unfold fuel code num_loop c w Hc) in Hrun.
      eapply blink_error_while_never_raises. exact Hrun.
    + intros Hn.
      destruct (blink_error_bounded_outcome fuel code num_loop c w Hc Hn)
        as (bs & t & Hrun' & _).
      congruence.
  - unfold blink_error, col_led_error. rewrite Hc. reflexivity.
Qed.

Lemma polls_map_poll bs : polls (map EvPoll bs) = length bs.
Proof. induction bs as [|b bs IH]; cbn [map polls length]; congruence. Qed.

(** X7.  With a broker host and a readable port, [init_mqtt()] calls
    [connect()] once and returns.  If the session is established, the
    handle is the client, the prefix [MQTT_TOPIC_ROOT + "/#"] is
    subscribed, the status LED is green at [0.1], the button is not
    read and half a second is spent on the LED.  If not, the handle is
    ["retry"], the LED is blue at [0.1], and the button was read at
    most three times. *)
Theorem init_mqtt_connects_or_falls_back_to_retry (fuel : nat) (w : World)
  (Hfuel : (4 <= fuel)%nat)
  (Hhost : truthy (os_getenv env "MQTT_BROKER_IP") = true)
  (Hport : is_Some (broker_port env)) :
  exists w',
    init_mqtt env fuel w = Normal tt w' /\
    connects (trace w') = connects (trace w) ++ [clock w] /\
    if broker_connect env (io w) then
      _mqtt w' = MqttClient /\
      _led w' = mkNeoPixel COL_GREEN (PFloat 0.1) /\
      In (EvSubscribe (MQTT_TOPIC_ROOT w +:+ MQTT_TOPIC_SUBSCRIPTION)) (trace w') /\
      polls (trace w') = polls (trace w) /\
      clock w' = clock w + Z.of_N (latency env (io w)) + 500
    else
      _mqtt w' = MqttRetry /\
      _led w' = mkNeoPixel COL_BLUE (PFloat 0.1) /\
      (polls (trace w') <= polls (trace w) + 3)%nat /\
      clock w' <= clock w + Z.of_N (latency env (io w)) + 500 + 3750.
Proof.
  unfold init_mqtt. rewrite Hhost. cbn [negb].
  unfold broker_port in Hport. unfold int_.
  destruct (os_getenv env "MQTT_BROKER_PORT") as [s|]; [|destruct Hport; discriminate].
  destruct (py_int s) as [p|]; [|destruct Hport; discriminate].
  step. unfold try_except. rewrite bind_unfold. step.
  unfold mqtt_connect. step.
  destruct (broker_connect env (io w)).
  - unfold _mqtt_on_connected. step.
    match goal with
    | |- context [blink_error env fuel CODE_OK 0 ?w1] =>
        destruct (blink_error_bounded_outcome fuel CODE_OK 0 COL_GREEN w1 eq_refl
                    ltac:(lia)) as (bs & t & Hrun & Ht & Hbs & _)
    end.
    rewrite Hrun. destruct bs as [|b bs]; [|cbn [length] in Hbs; lia].
    eexists. split; [reflexivity|].
    unfold alerted. fields. cbn [map length] in *.
    rewrite ?app_nil_r, <- ?app_assoc, ?connects_app, ?polls_app. cbn [app].
    split; [cbn; rewrite ?app_nil_r; reflexivity|].
    split; [reflexivity|]. split; [reflexivity|].
    split; [apply in_or_app; right; cbn; auto 10|].
    split; [cbn; lia | lia].
  - step. rewrite ?bind_unfold.
    match goal with
    | |- context [blink_error env fuel CODE_MQTT_FAILED 3 ?w1] =>
        destruct (blink_error_bounded_outcome fuel CODE_MQTT_FAILED 3 COL_BLUE w1 eq_refl
                    ltac:(lia)) as (bs & t & Hrun & Ht & Hbs & _)
    end.
    rewrite Hrun. step.
    eexists. split; [reflexivity|].
    unfold alerted in *. fields.
    rewrite <- !app_assoc, !connects_app, !polls_app, polls_map_poll. cbn [app].
    assert (Hq : connects (map EvPoll bs) = []) by (clear; induction bs; auto).
    split; [cbn; rewrite Hq; reflexivity|].
    split; [reflexivity|]. split; [reflexivity|].
    split; [cbn; lia | lia].
Qed.

Lemma handled_fields w w' :
  handled w w' ->
  _led w' = _led w /\ _mqtt w' = _mqtt w /\ io w' = io w /\ clock w' = clock w /\
  _mqtt_retry_ts w' = _mqtt_retry_ts w.
Proof. unfold handled. intros ->. repeat split. Qed.

(** X8.  While the handle is a client object, [_mqtt_loop()] returns
    and leaves it a client object and the retry timestamp as it was.
    When [loop()] succeeds, the status LED is not touched and neither
    the button nor the broker is consulted again.  When it raises,
    [reconnect()] is called at once, after one read of the button, and
    the status LED ends green if the session is re-established and blue
    if not: the handle never becomes ["retry"], so the timed retry is
    not used for a session that was lost. *)
Theorem lost_session_is_reopened_in_place (fuel : nat) (w : World)
  (Hfuel : (4 <= fuel)%nat) (Hclient : _mqtt w = MqttClient) :
  exists w',
    _mqtt_loop env fuel w = Normal tt w' /\
    _mqtt w' = MqttClient /\
    _mqtt_retry_ts w' = _mqtt_retry_ts w /\
    if snd (broker_loop env (io w)) then
      _led w' =
        mkNeoPixel (if broker_reconnect env (S (S (io w))) then COL_GREEN else COL_BLUE)
          (PFloat 0.1) /\
      (S (S (S (io w))) <= io w')%nat
    else
      _led w' = _led w /\ io w' = S (io w).
Proof.
  unfold _mqtt_loop. step. rewrite Hclient.
  unfold try_except at 1. unfold mqtt_loop. step.
  destruct (broker_loop env (io w)) as [msgs fails]. cbn [snd].
  rewrite bind_unfold.
  match goal with
  | |- context [deliver msgs ?w1] =>
      destruct (deliver_normal msgs w1) as (w2 & Hd);
      pose proof (handled_deliver msgs w1) as Hh;
      rewrite Hd in Hh; rewrite Hd;
      apply handled_fields in Hh as (Hled & Hmq & Hio & Hck & Hts)
  end.
  fields.
  destruct fails; step.
  - rewrite bind_unfold.
    match goal with
    | |- context [blink_error env fuel CODE_MQTT_RETRY 1 ?w1] =>
        destruct (blink_error_bounded_outcome fuel CODE_MQTT_RETRY 1 COL_ORANGE w1 eq_refl
                    ltac:(lia)) as (bs & t & Hrun & Ht & Hbs & Hbs')
    end.
    rewrite Hrun.
    assert (Hone : length bs = 1%nat) by (specialize (Hbs' ltac:(lia)); lia).
    unfold try_except, mqtt_reconnect. step. unfold alerted. fields.
    rewrite Hio, Hone, Nat.add_1_r. rewrite bind_unfold. step.
    destruct (broker_reconnect env (S (S (io w)))).
    + unfold _mqtt_on_connected. step. rewrite ?bind_unfold.
      match goal with
      | |- context [blink_error env fuel CODE_OK 0 ?w1] =>
          destruct (blink_error_bounded_outcome fuel CODE_OK 0 COL_GREEN w1 eq_refl
                      ltac:(lia)) as (bs1 & t1 & Hrun1 & _)
      end.
      rewrite Hrun1. cbv iota beta.
      match goal with
      | |- context [blink_error env fuel CODE_OK 0 ?w1] =>
          destruct (blink_error_bounded_outcome fuel CODE_OK 0 COL_GREEN w1 eq_refl
                      ltac:(lia)) as (bs2 & t2 & Hrun2 & _)
      end.
      rewrite Hrun2.
      eexists. split; [reflexivity|].
      unfold alerted. fields. rewrite Hmq, Hts, Hclient. fields.
      repeat split. lia.
    + step. rewrite ?bind_unfold.
      match goal with
      | |- context [blink_error env fuel CODE_MQTT_FAILED 2 ?w1] =>
          destruct (blink_error_bounded_outcome fuel CODE_MQTT_FAILED 2 COL_BLUE w1 eq_refl
                      ltac:(lia)) as (bs1 & t1 & Hrun1 & _)
      end.
      rewrite Hrun1.
      eexists. split; [reflexivity|].
      unfold alerted. fields. rewrite Hmq, Hts, Hclient. fields.
      repeat split. lia.
  - eexists. split; [reflexivity|].
    rewrite Hmq, Hts, Hled, Hio, Hclient. fields. auto.
Qed.

(** ** The start of [loop()] *)

Lemma blink_kept w :
  exists b,
    blink w = Normal tt b /\
    clock b = clock w /\ filled (_led b) = filled (_led w) /\ strip b = strip w /\
    _neo_wrapper b = _neo_wrapper w /\ _init_script b = _init_script w /\
    _event_script b = _event_script w /\ _mqtt b = _mqtt w /\ io b = io w /\
    trace b = trace w /\ NEO_DONT_BLINK b = NEO_DONT_BLINK w /\
    NEO_STRIP_PIN b = NEO_STRIP_PIN w /\ _last_trigger b = _last_trigger w.
Proof.
  rewrite blink_unfold. eexists. split; [reflexivity|].
  unfold heartbeat.
  destruct (NEO_DONT_BLINK w) eqn:Hd; [rewrite Hd; repeat split|].
  destruct (clock w / 1000 - _last_blink_ts w >? 1); fields; rewrite ?Hd; repeat split.
Qed.

Ltac blink_once :=
  repeat (rewrite bind_unfold; step);
  match goal with
  | |- context [blink ?u] =>
      let b := fresh "b" in
      destruct (blink_kept u) as (b & -> & ? & ? & ? & ? & ? & ? & ? & ? & ? & ? & ? & ?)
  end;
  step; fields.

Ltac by_kept :=
  repeat (fields;
    match goal with
    | H : _ = _ |- _ => rewrite H
    end);
  fields.

Lemma loop_prologue_outcome w :
  exists w',
    loop_prologue w = Normal tt w' /\
    clock w' = clock w + 3000 /\
    filled (_led w') = (if is_onboard (_neo_wrapper w) then COL_OFF else COL_GREEN) /\
    strip w' =
      (if is_onboard (_neo_wrapper w) then strip w
       else mkNeoPixel COL_OFF (brightness (strip w))) /\
    NEO_DONT_BLINK w' = String.eqb (NEO_STRIP_PIN w) "ONBOARD" /\
    _init_script w' = loadFromNVM (_init_script w) /\
    _event_script w' = _event_script w /\
    _neo_wrapper w' = _neo_wrapper w /\
    _mqtt w' = _mqtt w /\
    _last_trigger w' = _last_trigger w /\
    io w' = io w.
Proof.
  unfold loop_prologue, col_led_error.
  change (COL_LED_ERROR !! CODE_OK) with (Some COL_GREEN).
  cbn [boot_blinks]. unfold led_fill, neo_fill, init_script_loadFromNVM. step.
  blink_once. blink_once. blink_once.
  repeat (rewrite bind_unfold; step). by_kept.
  destruct (is_onboard (_neo_wrapper w)) eqn:Ho; step;
    blink_once; (eexists; split; [reflexivity|]); by_kept; rewrite ?Ho;
    repeat split; lia.
Qed.

(** X12.  [loop()] reaches its [while True] from any world, exactly
    three seconds later, without reading the button or calling the
    broker.  The effect strip is dark by then; when the strip is the
    status LED itself, that replaces the green the LED was given at the
    start of [loop()].  The init script is the one restored from
    non-volatile memory; the event script and the wrapper are as they
    were. *)
Theorem loop_starts_after_three_seconds_with_a_dark_strip (w : World) :
  exists w',
    loop_prologue w = Normal tt w' /\
    clock w' = clock w + 3000 /\
    filled (_led w') = (if is_onboard (_neo_wrapper w) then COL_OFF else COL_GREEN) /\
    strip w' =
      (if is_onboard (_neo_wrapper w) then strip w
       else mkNeoPixel COL_OFF (brightness (strip w))) /\
    _init_script w' = loadFromNVM (_init_script w) /\
    _event_script w' = _event_script w /\
    _neo_wrapper w' = _neo_wrapper w /\
    _mqtt w' = _mqtt w /\
    io w' = io w.
Proof.
  destruct (loop_prologue_outcome w)
    as (w' & Hrun & Hc & Hl & Hs & _ & Hi & He & Hw & Hm & _ & Hio).
  exists w'. auto 12.
Qed.

(** ** The program as a whole *)

Lemma main_normal fuel n w w' :
  main env fuel n w = Normal tt w' ->
  exists w1 w2 w3 w4,
    init env w = Normal tt w1 /\
    init_wifi env fuel w1 = Normal tt w2 /\
    init_mqtt env fuel w2 = Normal tt w3 /\
    loop_prologue w3 = Normal tt w4 /\
    iterate n (loop_body env fuel) w4 = Normal tt w'.
Proof.
  unfold main, loop. intros Hrun.
  apply bind_normal in Hrun as ([] & w1 & H1 & Hrun).
  apply bind_normal in Hrun as ([] & w2 & H2 & Hrun).
  apply bind_normal in Hrun as ([] & w3 & H3 & Hrun).
  apply bind_normal in Hrun as ([] & w4 & H4 & Hrun).
  exists w1, w2, w3, w4. auto.
Qed.

Lemma steady_init_wifi fuel : pres steady (init_wifi env fuel).
Proof. unfold init_wifi, wifi_radio_connect, library_time. steady_auto. Qed.

Lemma settled_boot_blinks n : forall i, pres settled (boot_blinks i n).
Proof.
  induction n as [|n IH]; intros i; cbn [boot_blinks]; unfold time_sleep; settled_auto.
Qed.

Lemma settled_loop_prologue : pres settled loop_prologue.
Proof.
  pose proof settled_boot_blinks.
  unfold loop_prologue, col_led_error, led_fill, neo_fill, init_script_loadFromNVM.
  settled_auto.
Qed.

Lemma iterate_keeps_flag fuel n :
  on_return (fun w w' => NEO_DONT_BLINK w' = NEO_DONT_BLINK w)
    (iterate n (loop_body env fuel)).
Proof.
  induction n as [|n IH]; cbn [iterate].
  - intros w [] w' [= <-]. reflexivity.
  - apply on_return_bind; [intros; congruence | apply loop_body_keeps_flag |].
    intros _. exact IH.
Qed.

(** X13.  In every world the program reaches in its main loop, started
    from the module as loaded: [NEO_LEN] is positive, the wrapper can
    hold [NEO_LEN] pixels at most and its active length is between [1]
    and that, whatever lengths were sent to it; the topic root is not
    empty; the wrapper is the on-board one exactly when the strip pin is
    ["ONBOARD"], and the heartbeat is switched off exactly then. *)
Theorem running_program_keeps_its_configuration (fuel n : nat) (w' : World)
  (Hrun : main env fuel n (boot_world env) = Normal tt w') :
  NEO_LEN w' = neo_len_setting env (boot_world env) /\
  0 < NEO_LEN w' /\
  max_len (_neo_wrapper w') = NEO_LEN w' /\
  1 <= len (_neo_wrapper w') <= max_len (_neo_wrapper w') /\
  MQTT_TOPIC_ROOT w' = text_setting env "MQTT_TOPIC_ROOT" "ambiance" /\
  MQTT_TOPIC_ROOT w' <> "" /\
  is_onboard (_neo_wrapper w') = String.eqb (NEO_STRIP_PIN w') "ONBOARD" /\
  NEO_DONT_BLINK w' = is_onboard (_neo_wrapper w').
Proof.
  apply main_normal in Hrun as (w1 & w2 & w3 & w4 & H1 & H2 & H3 & H4 & H5).
  assert (Hinit :
    NEO_LEN w1 = neo_len_setting env (boot_world env) /\
    MQTT_TOPIC_ROOT w1 = text_setting env "MQTT_TOPIC_ROOT" "ambiance" /\
    len (_neo_wrapper w1) = NEO_LEN w1 /\
    max_len (_neo_wrapper w1) = NEO_LEN w1 /\
    is_onboard (_neo_wrapper w1) = String.eqb (NEO_STRIP_PIN w1) "ONBOARD").
  { destruct (init_outcome (boot_world env)) as (lines & H). cbv zeta in H.
    rewrite H in H1.
    destruct (String.eqb (NEO_STRIP_PIN (configured env lines (boot_world env))) "ONBOARD")
      eqn:Eo;
      [|destruct (bool_decide (NEO_STRIP_PIN (configured env lines (boot_world env))
                                 ∈ board_pins env))];
      [| |discriminate];
      injection H1 as <-; fields; rewrite Eo; repeat split. }
  destruct Hinit as (Hn1 & Hr1 & Hl1 & Hm1 & Ho1).
  pose proof (neo_len_setting_positive (boot_world env) ltac:(cbn; lia)) as Hpos.
  pose proof (text_setting_not_empty "MQTT_TOPIC_ROOT" "ambiance" ltac:(discriminate))
    as Hroot.
  apply (pres_on_return settled _ (settled_of_steady _ (steady_init_wifi fuel))) in H2.
  apply (pres_on_return settled _ (settled_init_mqtt fuel)) in H3.
  destruct (loop_prologue_outcome w3) as (w4' & H4' & _ & _ & _ & Hd4 & _).
  rewrite H4 in H4'. injection H4' as <-.
  apply (pres_on_return settled _ settled_loop_prologue) in H4.
  pose proof (iterate_keeps_flag fuel n w4 tt w' H5) as Hd5. cbv beta in Hd5.
  apply (pres_on_return settled _ (settled_iterate fuel n)) in H5.
  pose proof (settled_trans _ _ _ H2 H3) as H13.
  pose proof (settled_trans _ _ _ H13 (settled_trans _ _ _ H4 H5))
    as (Hn & Hp & Hr & Ho & Hm & Hl).
  destruct H13 as (_ & Hp3 & _).
  rewrite Hd5, Hd4, Hp3, Hn, Hm, Hr, Ho, Hp, <- Ho1, Hn1, Hr1, Hm1, Hn1.
  rewrite Hm1, Hl1, Hn1 in Hl.
  repeat split; try assumption; lia.
Qed.

Lemma init_returns w :
  match init env w with
  | Normal _ w' => pin_known env w = true /\ _mqtt w' = _mqtt w
  | Raised _ _ => pin_known env w = false
  | Diverged => False
  end.
Proof.
  destruct (init_outcome w) as (lines & H). cbv zeta in H. rewrite H.
  destruct (configured_fields lines w) as (_ & _ & Hp). rewrite Hp.
  unfold pin_known.
  destruct (String.eqb (text_setting env "NEO_STRIP_PIN" (NEO_STRIP_PIN w)) "ONBOARD");
    cbn [orb]; [split; reflexivity|].
  destruct (bool_decide (text_setting env "NEO_STRIP_PIN" (NEO_STRIP_PIN w)
                           ∈ board_pins env)); [split; reflexivity | reflexivity].
Qed.

Lemma init_wifi_returns fuel w :
  match init_wifi env fuel w with
  | Normal _ w' =>
      is_Some (os_getenv env "CIRCUITPY_WIFI_SSID") /\ radio_connect env = None /\
      _mqtt w' = _mqtt w
  | _ => os_getenv env "CIRCUITPY_WIFI_SSID" = None \/ is_Some (radio_connect env)
  end.
Proof.
  pose proof (steady_init_wifi fuel w) as Hs.
  unfold init_wifi in *. step.
  destruct (os_getenv env "CIRCUITPY_WIFI_SSID") as [ssid|].
  - rewrite bool_decide_eq_false_2 in * by discriminate. step.
    unfold wifi_radio_connect in *. step.
    destruct (radio_connect env) as [e|]; step.
    + rewrite bind_unfold. unfold try_except at 1. step.
      destruct (is_ConnectionError e); step; [|right; eauto].
      rewrite bind_unfold.
      match goal with
      | |- context [blink_error env fuel CODE_WIFI_FAILED (-1) ?u] =>
          destruct (blink_error env fuel CODE_WIFI_FAILED (-1) u) as [[] u'|e' u'|]
      end; step; right; eauto.
    + destruct Hs as (Hm & _). fields. eauto.
  - rewrite bool_decide_eq_true_2 by reflexivity. step. left. reflexivity.
Qed.

Lemma init_mqtt_returns fuel w :
  (4 <= fuel)%nat -> live env w ->
  match init_mqtt env fuel w with
  | Normal _ w' =>
      (truthy (os_getenv env "MQTT_BROKER_IP") = false \/ is_Some (broker_port env)) /\
      live env w'
  | Raised _ _ =>
      truthy (os_getenv env "MQTT_BROKER_IP") = true /\ broker_port env = None
  | Diverged => False
  end.
Proof.
  intros Hfuel Hlive.
  destruct (truthy (os_getenv env "MQTT_BROKER_IP")) eqn:Hhost.
  - destruct (broker_port env) as [p|] eqn:Hport.
    + pose proof (returns_init_mqtt fuel Hfuel ltac:(rewrite Hport; eauto) w Hlive) as Hr.
      destruct (init_mqtt env fuel w) as [[] w'|e w'|]; try contradiction.
      split; [right; eauto | exact Hr].
    + unfold init_mqtt. rewrite Hhost. cbn [negb].
      unfold broker_port in Hport. unfold int_.
      destruct (os_getenv env "MQTT_BROKER_PORT") as [s|]; [rewrite Hport|]; step; auto.
  - unfold init_mqtt. rewrite Hhost. cbn [negb]. step. split; [left; reflexivity|].
    unfold live in *. fields. exact Hlive.
Qed.


(** ** Messages and the devices *)

Lemma deliver_val_brightness msgs : forall w w',
  deliver msgs w = Normal tt w' ->
  val_brightness (_neo_wrapper w') = val_brightness (_neo_wrapper w).
Proof.
  induction msgs as [|[topic message] rest IH]; intros w w'; cbn [deliver].
  - intros [= <-]. reflexivity.
  - intros Hrun. apply bind_normal in Hrun as ([] & w1 & H1 & Hrun).
    apply IH in Hrun. rewrite Hrun.
    destruct (on_message_neo_wrapper _ _ _ _ H1) as [-> | (n & _ & ->)]; reflexivity.
Qed.

(** X3.  Whatever [loop()] delivers, on whatever topics, the handler
    processes all of it and changes nothing but the active length of
    the strip, the two script executors, the last trigger payload and
    the trace: the status LED, the strip object, the brightness, the
    capacity and the class of the wrapper, the broker handle, the
    settings, the timers and the clock are as they were. *)
Theorem no_message_reaches_the_devices (msgs : list (string * string)) (w : World) :
  exists w',
    deliver msgs w = Normal tt w' /\
    handled w w' /\
    is_onboard (_neo_wrapper w') = is_onboard (_neo_wrapper w) /\
    max_len (_neo_wrapper w') = max_len (_neo_wrapper w) /\
    val_brightness (_neo_wrapper w') = val_brightness (_neo_wrapper w).
Proof.
  destruct (deliver_normal msgs w) as (w' & Hrun). exists w'.
  pose proof (handled_deliver msgs w) as Hh.
  pose proof (steady_deliver msgs w) as Hs.
  rewrite Hrun in Hh, Hs.
  destruct Hs as (_ & _ & _ & _ & Ho & Hm & _).
  split; [exact Hrun|]. split; [exact Hh|]. split; [exact Ho|]. split; [exact Hm|].
  apply (deliver_val_brightness msgs w w' Hrun).
Qed.

End Properties.

(** ** The theorems on concrete runs *)

(** On the reference platform, the payloads [on], [on], [off] restart the
    event script twice. *)
Example three_triggers_fire_twice :
  exists w',
    deliver (on_topic "ambiance/event/trigger" ["on"; "on"; "off"])
      (started env_broker_down) = Normal tt w' /\
    trigger_calls (trace w') = 2%nat.
Proof.
  eexists. split; [vm_compute; reflexivity|]. vm_compute. reflexivity.
Qed.

(** The payload [0.5] on the brightness topic: [float()] reads it, the
    test of the unbound [value] raises, and the brightness stays [1]. *)
Example brightness_half_is_dropped :
  py_float "0.5" = Some 0.5%float /\
  dispatch "ambiance/brightness" "0.5" (started env_broker_down) =
    Raised (UnboundLocalError "value") (started env_broker_down) /\
  exists w',
    _mqtt_on_message "ambiance/brightness" "0.5" (started env_broker_down) =
      Normal tt w' /\
    val_brightness (_neo_wrapper w') = PInt 1.
Proof.
  split; [vm_compute; reflexivity|].
  split; [vm_compute; reflexivity|].
  eexists. split; [vm_compute; reflexivity|]. vm_compute. reflexivity.
Qed.

(** With the broker down and the button released, the attempts of the
    first thirty iterations are more than five seconds apart. *)
Lemma retry_attempts_witness :
  iterate 30 (loop_body env_broker_down 4) (started env_broker_down) =
    Normal tt
      (world_of (iterate 30 (loop_body env_broker_down 4) (started env_broker_down))
         (started env_broker_down)) /\
  exists new,
    trace (world_of (iterate 30 (loop_body env_broker_down 4) (started env_broker_down))
             (started env_broker_down)) =
      trace (started env_broker_down) ++ new /\
    spaced 5000 (connects new) = true.
Proof.
  split.
  - vm_compute. reflexivity.
  - apply (retry_attempts_more_than_5s_apart env_broker_down 4 30).
    vm_compute. reflexivity.
Defined.

(** The two attempts those iterations make. *)
Example retry_attempts_of_the_run :
  connects
    (trace (world_of (iterate 30 (loop_body env_broker_down 4) (started env_broker_down))
              (started env_broker_down))) =
  [100000; 107250; 117000].
Proof. vm_compute. reflexivity. Qed.

(** C3 as stated fails: with the boot button held, the first retry comes
    3.5 s after the attempt of [init_mqtt()] at start-up; after a loop
    error, two calls of [reconnect()] are 4.75 s apart. *)
Lemma first_retry_and_reconnect_are_not_timed :
  (exists w',
     main env_broker_down_btn 4 1 (boot_world env_broker_down_btn) = Normal tt w' /\
     attempts (trace w') = [100000; 103500] /\
     never_within 5000 (attempts (trace w')) = false) /\
  (exists w',
     main env_broker_lost 4 2 (boot_world env_broker_lost) = Normal tt w' /\
     attempts (trace w') = [100000; 105250; 110000] /\
     never_within 5000 (attempts (trace w')) = false).
Proof.
  split; eexists; (split; [vm_compute; reflexivity|]);
    split; vm_compute; reflexivity.
Qed.

(** An in-range length is applied. *)
Lemma length_message_witness :
  exists w',
    _mqtt_on_message "ambiance/length" "50" (started env_broker_down) = Normal tt w' /\
    len (_neo_wrapper w') = 50.
Proof.
  destruct (length_message_sets_length_in_range "50" (started env_broker_down))
    as (w' & Hrun & _ & Hset & _).
  exists w'. split; [exact Hrun|].
  apply (Hset 50); [reflexivity | vm_compute; split; discriminate].
Defined.

(** A payload that is no number is logged and dropped. *)
Lemma dispatch_failure_witness :
  exists e,
    dispatch "ambiance/length" "fifty" (started env_broker_down) =
      Raised e (started env_broker_down).
Proof.
  destruct (dispatch_failures_are_contained "ambiance/length" "fifty"
              (started env_broker_down)) as (_ & Hbad & _).
  apply Hbad. reflexivity.
Defined.

(** A topic outside the five. *)
Lemma unknown_topic_witness :
  exists w',
    _mqtt_on_message "ambiance/status" "x" (started env_broker_down) = Normal tt w' /\
    w' = logged [announce "ambiance/status" "x"] (started env_broker_down) /\
    len (_neo_wrapper w') = len (_neo_wrapper (started env_broker_down)) /\
    val_brightness (_neo_wrapper w') =
      val_brightness (_neo_wrapper (started env_broker_down)) /\
    _init_script w' = _init_script (started env_broker_down) /\
    _event_script w' = _event_script (started env_broker_down) /\
    _last_trigger w' = _last_trigger (started env_broker_down).
Proof.
  apply (unknown_topic_changes_nothing "ambiance/status" "x" (started env_broker_down));
    vm_compute; discriminate.
Defined.

(** The dim phase of the heartbeat: the LED goes from [0.1] to [0]. *)
Lemma heartbeat_witness :
  exists w',
    blink lit_world = Normal tt w' /\
    brightness (_led w') = PInt 0 /\
    filled (_led w') = filled (_led lit_world).
Proof.
  destruct (heartbeat_switches_led_between_dim_and_off env_broker_down lit_world)
    as (_ & Hon & _).
  destruct (Hon eq_refl) as (w' & Hrun & Hb & Hf & _).
  exists w'. split; [exact Hrun|]. split; [exact Hb | exact Hf].
Defined.

(** C6 as stated fails: the dim phase is [0], not half of [0.1]. *)
Lemma heartbeat_does_not_halve :
  ~ (forall w w' : World,
       NEO_DONT_BLINK w = false ->
       blink w = Normal tt w' ->
       brightness (_led w') = brightness (_led w) \/
       py_eq (brightness (_led w'))
         (PFloat (PrimFloat.div (to_float (brightness (_led w))) 2)) = true).
Proof.
  intros H.
  destruct (H lit_world (world_of (blink lit_world) lit_world) eq_refl)
    as [Hsame | Hhalf].
  - vm_compute. reflexivity.
  - vm_compute in Hsame. discriminate.
  - vm_compute in Hhalf. discriminate.
Qed.

(** [blink_error(CODE_MQTT_FAILED, num_loop=3)], as [init_mqtt] calls it. *)
Lemma alert_mode_witness :
  exists w' n,
    blink_error env_broker_down 4 CODE_MQTT_FAILED 3 (boot_world env_broker_down) =
      Normal tt w' /\
    (n <= Z.to_nat 3)%nat /\
    filled (_led w') = COL_BLUE /\
    clock w' <= clock (boot_world env_broker_down) + 500 + 1250 * 3 /\
    exists ext,
      trace w' = trace (boot_world env_broker_down) ++ ext /\ polls ext = n.
Proof.
  apply (alert_mode_ends_by_count_or_button env_broker_down 4 CODE_MQTT_FAILED 3
           (boot_world env_broker_down) COL_BLUE); [reflexivity | lia].
Defined.

(** C7 as stated fails: [blink_error(CODE_WIFI_FAILED)], as [init_wifi]
    calls it, does not return while the button is left alone. *)
Lemma alert_mode_default_never_returns :
  ~ (forall (env : Env) (code : string) (num_loop : Z) (w : World),
       is_Some (COL_LED_ERROR !! code) ->
       exists fuel w', blink_error env fuel code num_loop w = Normal tt w').
Proof.
  intros H.
  destruct (H env_broker_down CODE_WIFI_FAILED (-1) (boot_world env_broker_down))
    as (fuel & w' & Hrun).
  - exists COL_PURPLE. reflexivity.
  - rewrite (blink_error_unfold env_broker_down fuel CODE_WIFI_FAILED (-1) COL_PURPLE)
      in Hrun by reflexivity.
    rewrite blink_error_while_blocks in Hrun; [discriminate | lia | reflexivity].
Qed.

(** A broker that is lost after the session was established: the loop
    goes on. *)
Lemma broker_lost_witness :
  exists w',
    loop env_broker_lost 4 3
      (world_of (init_mqtt env_broker_lost 4 (boot_world env_broker_lost))
         (boot_world env_broker_lost)) = Normal tt w' /\
    live env_broker_lost w'.
Proof.
  destruct (startup_link_failures_are_fatal_broker_failures_are_not env_broker_lost 4 3
              (world_of (init_mqtt env_broker_lost 4 (boot_world env_broker_lost))
                 (boot_world env_broker_lost))) as (_ & _ & _ & Hloop).
  apply Hloop; [lia|]. intros Hretry. vm_compute in Hretry. discriminate.
Defined.

(** C8 as stated fails: without an SSID the program stops before the LED
    is touched, and a refused association, the button being held, stops
    it too. *)
Lemma no_ssid_skips_alert_and_wifi_failure_is_fatal :
  (exists w',
     main env_no_ssid 4 1 (boot_world env_no_ssid) = Raised ssid_missing w' /\
     filled (_led w') = COL_OFF /\
     polls (trace w') = 0%nat /\
     clock w' = clock (boot_world env_no_ssid)) /\
  (exists w',
     main env_wifi_down 4 1 (boot_world env_wifi_down) = Raised ConnectionError w' /\
     filled (_led w') = COL_PURPLE).
Proof.
  split; eexists; (split; [vm_compute; reflexivity|]).
  - repeat split; vm_compute; reflexivity.
  - vm_compute. reflexivity.
Qed.

(** No broker address: networking stays off and both scripts tick. *)
Lemma no_broker_witness :
  init_mqtt env_no_broker 4 (boot_world env_no_broker) =
    Normal tt (logged [EvPrint "@@ MQTT: disabled"] (boot_world env_no_broker)) /\
  _mqtt_loop env_no_broker 4 (started env_no_broker) =
    Normal tt (started env_no_broker) /\
  exists w',
    iterate 5 (loop_body env_no_broker 4) (started env_no_broker) = Normal tt w' /\
    _mqtt w' = MqttNone /\
    _init_script w' = Nat.iter 5 tick (_init_script (started env_no_broker)) /\
    _event_script w' = Nat.iter 5 tick (_event_script (started env_no_broker)).
Proof.
  split.
  - apply (no_broker_host_disables_networking env_no_broker 4
             (boot_world env_no_broker)). reflexivity.
  - destruct (no_broker_host_disables_networking env_no_broker 4
                (started env_no_broker)) as (_ & Hloop & Hticks);
      [reflexivity|].
    split; [apply Hloop; reflexivity | apply Hticks; reflexivity].
Defined.

(** With the pin [" ONBOARD "] and the length ["30"] in the settings,
    the strip is the status LED and the LED ends at brightness [0.75]. *)
Lemma init_onboard_witness :
  exists w',
    init env_onboard (boot_world env_onboard) = Normal tt w' /\
    is_onboard (_neo_wrapper w') = true /\
    brightness (_led w') = PFloat 0.75 /\
    val_brightness (_neo_wrapper w') = PFloat 0.75 /\
    strip w' = strip (boot_world env_onboard) /\
    _mqtt w' = MqttNone.
Proof.
  assert (Hrun : init env_onboard (boot_world env_onboard) =
                 Normal tt (initialised env_onboard)) by (vm_compute; reflexivity).
  destruct (init_builds_the_strip_for_the_pin env_onboard _ _ Hrun)
    as (Ho & Hb & _ & _ & _ & Hm & _).
  assert (Hon : is_onboard (_neo_wrapper (initialised env_onboard)) = true)
    by (rewrite Ho; vm_compute; reflexivity).
  rewrite Hon in Hb. destruct Hb as (Hb & Hv & Hs).
  exists (initialised env_onboard).
  split; [exact Hrun|]. split; [exact Hon|]. split; [exact Hb|].
  split; [exact Hv|]. split; [exact Hs | exact Hm].
Defined.

(** The settings of that device, as [init()] reads them. *)
Example init_onboard_settings :
  NEO_LEN (initialised env_onboard) = 30 /\
  NEO_STRIP_PIN (initialised env_onboard) = "ONBOARD" /\
  MQTT_TOPIC_ROOT (initialised env_onboard) = "ambiance" /\
  len (_neo_wrapper (initialised env_onboard)) = 30 /\
  max_len (_neo_wrapper (initialised env_onboard)) = 30.
Proof. repeat split; vm_compute; reflexivity. Qed.

(** A pin the board does not have stops the program in [init()]. *)
Example unknown_pin_stops_startup :
  pin_known env_bad_pin (boot_world env_bad_pin) = false /\
  startup_ok env_bad_pin = false /\
  exists w', main env_bad_pin 4 1 (boot_world env_bad_pin) = Raised (AttributeError "A9") w'.
Proof.
  split; [vm_compute; reflexivity|]. split; [vm_compute; reflexivity|].
  eexists. vm_compute. reflexivity.
Qed.

(** The broker is down at start-up: the handle is ["retry"] and the LED
    is blue. *)
Lemma init_mqtt_witness :
  exists w',
    init_mqtt env_broker_down 4 (initialised env_broker_down) = Normal tt w' /\
    _mqtt w' = MqttRetry /\
    _led w' = mkNeoPixel COL_BLUE (PFloat 0.1).
Proof.
  destruct (init_mqtt_connects_or_falls_back_to_retry env_broker_down 4
              (initialised env_broker_down)) as (w' & Hrun & _ & Hout).
  - lia.
  - reflexivity.
  - exists 1883. vm_compute. reflexivity.
  - cbn [env_broker_down mkEnv broker_connect] in Hout.
    destruct Hout as (Hm & Hl & _). exists w'. auto.
Defined.

(** The session is lost after start-up and [reconnect()] fails: the
    handle stays a client object and the LED ends blue. *)
Lemma lost_session_witness :
  exists w',
    _mqtt_loop env_broker_lost 4 (started env_broker_lost) = Normal tt w' /\
    _mqtt w' = MqttClient /\
    _led w' = mkNeoPixel COL_BLUE (PFloat 0.1).
Proof.
  destruct (lost_session_is_reopened_in_place env_broker_lost 4 (started env_broker_lost))
    as (w' & Hrun & Hm & _ & Hout).
  - lia.
  - vm_compute. reflexivity.
  - cbn [env_broker_lost mkEnv broker_loop broker_reconnect snd] in Hout.
    destruct Hout as (Hl & _). exists w'. auto.
Defined.

(** Ten iterations with a broker whose [loop()] and [reconnect()] always
    fail: the handle is still the client object. *)
Lemma broker_handle_witness :
  exists w',
    iterate 10 (loop_body env_broker_lost 4) (started env_broker_lost) = Normal tt w' /\
    _mqtt w' = MqttClient.
Proof.
  destruct (broker_handle_never_goes_back env_broker_lost 4 10 (started env_broker_lost))
    as (w' & Hrun & Hm).
  - lia.
  - intros Hretry. vm_compute in Hretry. discriminate.
  - exists w'. split; [exact Hrun|].
    change (_mqtt (started env_broker_lost)) with MqttClient in Hm. exact Hm.
Defined.


(** The device whose strip is the status LED, after two iterations. *)
Lemma running_program_witness :
  exists w',
    main env_onboard 4 2 (boot_world env_onboard) = Normal tt w' /\
    NEO_LEN w' = 30 /\
    max_len (_neo_wrapper w') = NEO_LEN w' /\
    1 <= len (_neo_wrapper w') <= max_len (_neo_wrapper w') /\
    MQTT_TOPIC_ROOT w' <> "" /\
    NEO_DONT_BLINK w' = is_onboard (_neo_wrapper w').
Proof.
  assert (Hrun :
    main env_onboard 4 2 (boot_world env_onboard) =
    Normal tt (world_of (main env_onboard 4 2 (boot_world env_onboard))
                 (boot_world env_onboard))) by (vm_compute; reflexivity).
  destruct (running_program_keeps_its_configuration env_onboard 4 2 _ Hrun)
    as (Hn & _ & Hm & Hl & _ & Hr & _ & Hd).
  eexists. split; [exact Hrun|].
  split; [rewrite Hn; vm_compute; reflexivity|].
  split; [exact Hm|]. split; [exact Hl|]. split; [exact Hr | exact Hd].
Defined.

